(** * The Claude Code transcript hook: transcript lines to trace spans

    A shallow embedding of
    [src/example_scripts/python/claude_code/keywordsai_hook.py]:
    the JSON values the hook reads, Python's dynamic operations on them
    (with the exceptions they raise), the span compiler
    [create_keywordsai_spans], the fragment merger [merge_assistant_parts]
    and the incremental driver [process_transcript] with its effects (POST
    requests, log entries, the persisted state file).

    The state file is read as the hook writes it: per session an integer
    cursor, an integer turn counter and a time.  Writing the log file and
    the state file is taken to succeed. *)

From Stdlib Require Import ZArith String Ascii List Bool Lia.
From Stdlib Require Import Floats.
From stdpp Require Import base option list gmap strings pretty.

Set Warnings "-register-all".
Open Scope string_scope.
Open Scope list_scope.
Open Scope Z_scope.

(** ** JSON values as Python sees them

    [json.loads] yields [None], [bool], [int], [float], [str], [list] and
    [dict] objects.  A dict is kept as an association list in insertion
    order (Python dicts iterate in that order); a parsed object has unique
    keys and a lookup takes the first binding.  Characters of a [string]
    stand for Python's code points. *)
Inductive pyval : Type :=
  | PNone
  | PBool (b : bool)
  | PInt (z : Z)
  | PFloat (f : float)
  | PStr (s : string)
  | PList (l : list pyval)
  | PDict (d : list (string * pyval)).

Abbreviation pydict := (list (string * pyval)).

(** [tool_call_map] of the span compiler is a dict from tool-use ids to
    dicts; it is kept in insertion order, which is the order of the tool
    spans. *)
Abbreviation call_map := (list (pyval * pydict)).

(** ** Exceptions *)
Inductive exn : Type :=
  | AttributeError
  | TypeError
  | IndexError
  | OverflowError
  | ValueError
  | RecursionError.

Inductive result (A : Type) : Type :=
  | Ok (a : A)
  | Raise (e : exn).
Arguments Ok {A} a.
Arguments Raise {A} e.

#[global] Instance result_ret : MRet result := fun _ a => Ok a.
#[global] Instance result_bind : MBind result := fun _ _ f m =>
  match m with
  | Ok a => f a
  | Raise e => Raise e
  end.
#[global] Instance result_fmap : FMap result := fun _ _ f m =>
  match m with
  | Ok a => Ok (f a)
  | Raise e => Raise e
  end.

(** ** The Python runtime the hook calls into

    Library functions the embedding does not re-implement: they are the
    same for every theorem below. *)
Class PyRuntime : Type := {
  (** [datetime.datetime] objects *)
  datetime : Type;
  (** [datetime.fromisoformat]; [None] is its [ValueError] *)
  fromisoformat : string -> option datetime;
  (** [(a - b).total_seconds()]; [None] is the [TypeError] raised when one
      operand is offset-aware and the other is naive *)
  sub_total_seconds : datetime -> datetime -> option float;
  (** [datetime.now(timezone.utc).isoformat()] *)
  utcnow_isoformat : string;
  (** [str.strip] *)
  str_strip : string -> string;
  (** [json.loads]: [Ok (Some v)] is the value, [Ok None] is
      [json.JSONDecodeError], [Raise e] is another exception ([ValueError]
      for an integer of too many digits, [RecursionError] for a nesting too
      deep) *)
  json_loads : string -> result (option pyval);
  (** [json.dumps(v)] and [json.dumps(v, indent=2)] *)
  json_dumps : pyval -> string;
  json_dumps_indent2 : pyval -> string;
  (** [repr] of floats, lists and dicts *)
  py_repr : pyval -> string;
}.

(** ** Python's dynamic operations *)
Module Py.

(** Truth value of an object ([if x:], [not x], [x or y]). *)
Definition truthy (v : pyval) : bool :=
  match v with
  | PNone => false
  | PBool b => b
  | PInt z => negb (z =? 0)
  | PFloat f => negb (PrimFloat.eqb f 0%float)
  | PStr s => negb (String.eqb s "")
  | PList l => match l with [] => false | _ => true end
  | PDict d => match d with [] => false | _ => true end
  end.

(** [a or b] *)
Definition or_ (a b : pyval) : pyval := if truthy a then a else b.

Definition is_dict (v : pyval) : bool :=
  match v with PDict _ => true | _ => false end.

(** [d[k]] for a key known to be present, as an option. *)
Fixpoint lookup (d : pydict) (k : string) : option pyval :=
  match d with
  | [] => None
  | (k', v) :: d' => if String.eqb k' k then Some v else lookup d' k
  end.

(** [k in d] *)
Definition contains (d : pydict) (k : string) : bool :=
  match lookup d k with Some _ => true | None => false end.

(** [d.get(k, dflt)] on a dict. *)
Definition dict_get (d : pydict) (k : string) (dflt : pyval) : pyval :=
  match lookup d k with Some v => v | None => dflt end.

(** [d[k] = v]: an existing key keeps its place, a new key goes last. *)
Fixpoint set (d : pydict) (k : string) (v : pyval) : pydict :=
  match d with
  | [] => [(k, v)]
  | (k', v') :: d' =>
      if String.eqb k' k then (k', v) :: d' else (k', v') :: set d' k v
  end.

(** [x.get(k, dflt)] on any object: only dicts have [get]. *)
Definition get (x : pyval) (k : string) (dflt : pyval) : result pyval :=
  match x with
  | PDict d => Ok (dict_get d k dflt)
  | _ => Raise AttributeError
  end.

(** [int(b)] *)
Definition Z_of_bool (b : bool) : Z := if b then 1 else 0.

(** Conversion of an [int] to a [float]: round to nearest even, and
    [OverflowError] when the int is too large, that is when it rounds to
    [2^1024]: from [2^1024 - 2^970] on, half-way up from the largest
    float. *)
Definition float_max_int : Z := 2 ^ 1024 - 2 ^ 970.

Definition float_of_Z (z : Z) : result float :=
  if Z.abs z <? float_max_int
  then Ok (SF2Prim (binary_normalize 53 1024 z 0 false))
  else Raise OverflowError.

(** Exact comparison of a float with an int. *)
Definition float_eq_Z (f : float) (z : Z) : bool :=
  match Prim2SF f with
  | S754_zero _ => z =? 0
  | S754_finite s m e =>
      let v := if s then Z.neg m else Z.pos m in
      if 0 <=? e then z =? v * 2 ^ e
      else (v mod 2 ^ (- e) =? 0) && (z =? v / 2 ^ (- e))
  | _ => false
  end.

(** [a == b] on numbers ([bool] is an [int]). *)
Definition num_eqb (a b : pyval) : option bool :=
  match a, b with
  | PBool x, PBool y => Some (Bool.eqb x y)
  | PBool x, PInt y => Some (Z_of_bool x =? y)
  | PInt x, PBool y => Some (x =? Z_of_bool y)
  | PInt x, PInt y => Some (x =? y)
  | PFloat x, PFloat y => Some (PrimFloat.eqb x y)
  | PFloat x, PInt y => Some (float_eq_Z x y)
  | PInt x, PFloat y => Some (float_eq_Z y x)
  | PFloat x, PBool y => Some (float_eq_Z x (Z_of_bool y))
  | PBool x, PFloat y => Some (float_eq_Z y (Z_of_bool x))
  | _, _ => None
  end.

(** [v == s] for a string literal [s]. *)
Definition eq_str (v : pyval) (s : string) : bool :=
  match v with PStr t => String.eqb t s | _ => false end.

Definition is_nan (v : pyval) : bool :=
  match v with PFloat f => PrimFloat.is_nan f | _ => false end.

(** [a == b].  Elements of lists and values of dicts are compared as
    containers do it, identity first: the one [nan] object that
    [json.loads] hands out equals itself there, though [nan == nan] is
    false. *)
Fixpoint eqb (a b : pyval) {struct a} : bool :=
  match a, b with
  | PNone, PNone => true
  | PStr s, PStr t => String.eqb s t
  | PList l, PList m =>
      (fix all2 (l m : list pyval) {struct l} : bool :=
         match l, m with
         | [], [] => true
         | x :: l', y :: m' => ((is_nan x && is_nan y) || eqb x y) && all2 l' m'
         | _, _ => false
         end) l m
  | PDict d, PDict e =>
      (length d =? length e)%nat &&
      (fix sub (d : pydict) {struct d} : bool :=
         match d with
         | [] => true
         | (k, v) :: d' =>
             match lookup e k with
             | Some w => ((is_nan v && is_nan w) || eqb v w) && sub d'
             | None => false
             end
         end) d
  | _, _ => match num_eqb a b with Some r => r | None => false end
  end.

(** Objects that can be dict keys: everything but lists and dicts. *)
Definition hashable (v : pyval) : bool :=
  match v with PList _ | PDict _ => false | _ => true end.

(** Two keys name the same dict slot. *)
Definition key_eqb (a b : pyval) : bool := (is_nan a && is_nan b) || eqb a b.

(** [a + b] *)
Definition add (a b : pyval) : result pyval :=
  match a, b with
  | PBool x, PBool y => Ok (PInt (Z_of_bool x + Z_of_bool y))
  | PBool x, PInt y => Ok (PInt (Z_of_bool x + y))
  | PInt x, PBool y => Ok (PInt (x + Z_of_bool y))
  | PInt x, PInt y => Ok (PInt (x + y))
  | PFloat x, PFloat y => Ok (PFloat (PrimFloat.add x y))
  | PFloat x, PInt y => fy ← float_of_Z y; Ok (PFloat (PrimFloat.add x fy))
  | PFloat x, PBool y => fy ← float_of_Z (Z_of_bool y); Ok (PFloat (PrimFloat.add x fy))
  | PInt x, PFloat y => fx ← float_of_Z x; Ok (PFloat (PrimFloat.add fx y))
  | PBool x, PFloat y => fx ← float_of_Z (Z_of_bool x); Ok (PFloat (PrimFloat.add fx y))
  | PStr x, PStr y => Ok (PStr (x +:+ y))
  | PList x, PList y => Ok (PList (x ++ y))
  | _, _ => Raise TypeError
  end.

(** [a > 0] *)
Definition gt0 (a : pyval) : result bool :=
  match a with
  | PBool x => Ok x
  | PInt x => Ok (0 <? x)
  | PFloat x => Ok (PrimFloat.ltb 0%float x)
  | _ => Raise TypeError
  end.

(** [a / 1000.0] *)
Definition div1000 (a : pyval) : result pyval :=
  match a with
  | PBool x => fx ← float_of_Z (Z_of_bool x); Ok (PFloat (PrimFloat.div fx 1000%float))
  | PInt x => fx ← float_of_Z x; Ok (PFloat (PrimFloat.div fx 1000%float))
  | PFloat x => Ok (PFloat (PrimFloat.div x 1000%float))
  | _ => Raise TypeError
  end.

(** [len(x)] *)
Definition len (x : pyval) : result Z :=
  match x with
  | PStr s => Ok (Z.of_nat (String.length s))
  | PList l => Ok (Z.of_nat (length l))
  | PDict d => Ok (Z.of_nat (length d))
  | _ => Raise TypeError
  end.

(** The newline character and string. *)
Definition nl_char : ascii := "010"%char.
Definition nl : string := String nl_char EmptyString.

(** [s[:n]] for [0 <= n] *)
Definition str_take (n : Z) (s : string) : string :=
  String.substring 0 (Z.to_nat n) s.

(** [sub in s] for strings *)
Definition str_contains (sub s : string) : bool :=
  match String.index 0 sub s with Some _ => true | None => false end.

(** [s.endswith("Z")] *)
Fixpoint endswith_Z (s : string) : bool :=
  match s with
  | EmptyString => false
  | String c EmptyString => Ascii.eqb c "Z"%char
  | String _ s' => endswith_Z s'
  end.

(** [s[:-1]] *)
Fixpoint drop_last (s : string) : string :=
  match s with
  | EmptyString => EmptyString
  | String c EmptyString => EmptyString
  | String c s' => String c (drop_last s')
  end.

(** [s.replace(old, new)] for a non-empty [old]: occurrences are taken
    left to right and do not overlap; [skip] characters of a replaced
    occurrence are still to be passed over. *)
Fixpoint replace_from (old new : string) (skip : nat) (s : string) : string :=
  match s with
  | EmptyString => EmptyString
  | String c s' =>
      match skip with
      | S k => replace_from old new k s'
      | O =>
          if String.prefix old s
          then new +:+ replace_from old new (Nat.pred (String.length old)) s'
          else String c (replace_from old new 0 s')
      end
  end.

Definition replace (old new s : string) : string := replace_from old new 0 s.

(** [s.split("\n")]: never empty, [""] splits to [[""]]. *)
Fixpoint split_lines (s : string) : list string :=
  match s with
  | EmptyString => [EmptyString]
  | String c s' =>
      if Ascii.eqb c nl_char then EmptyString :: split_lines s'
      else match split_lines s' with
           | [] => [String c EmptyString]
           | l :: ls => String c l :: ls
           end
  end.

(** ["\n".join(parts)]: every part must be a [str]. *)
Fixpoint join_nl (parts : list pyval) : result string :=
  match parts with
  | [] => Ok ""
  | [PStr s] => Ok s
  | PStr s :: rest => r ← join_nl rest; Ok (s +:+ nl +:+ r)
  | _ :: _ => Raise TypeError
  end.

End Py.

Section Runtime.
Context `{rt : PyRuntime}.

(** [str(v)], also what an f-string prints for [{v}]. *)
Definition py_str (v : pyval) : string :=
  match v with
  | PStr s => s
  | PInt z => pretty z
  | PBool true => "True"
  | PBool false => "False"
  | PNone => "None"
  | _ => py_repr v
  end.

(** ** Reading messages *)

(** [get_content]: the content of a message, under ["message"] when the
    record has that key. *)
Definition get_content (msg : pyval) : result pyval :=
  match msg with
  | PDict d =>
      match Py.lookup d "message" with
      | Some m => Py.get m "content" PNone
      | None => Ok (Py.dict_get d "content" PNone)
      end
  | _ => Ok PNone
  end.

(** [isinstance(item, dict) and item.get("type") == ty] *)
Definition is_block (ty : string) (item : pyval) : bool :=
  match item with
  | PDict d => Py.eq_str (Py.dict_get d "type" PNone) ty
  | _ => false
  end.

Definition is_tool_result (msg : pyval) : result bool :=
  content ← get_content msg;
  match content with
  | PList l => Ok (existsb (is_block "tool_result") l)
  | _ => Ok false
  end.

Definition get_tool_calls (msg : pyval) : result (list pyval) :=
  content ← get_content msg;
  match content with
  | PList l => Ok (List.filter (is_block "tool_use") l)
  | _ => Ok []
  end.

(** What one item of a content list adds to [text_parts]. *)
Definition text_part (item : pyval) : option pyval :=
  match item with
  | PDict d =>
      if Py.eq_str (Py.dict_get d "type" PNone) "text"
      then Some (Py.dict_get d "text" (PStr ""))
      else None
  | PStr _ => Some item
  | _ => None
  end.

Definition get_text_content (msg : pyval) : result string :=
  content ← get_content msg;
  match content with
  | PStr s => Ok s
  | PList l => Py.join_nl (omap text_part l)
  | _ => Ok ""
  end.

(** ** Formatting tool input and output *)

Definition max_length : Z := 4000.

(** [json.dumps(v, indent=2)], cut at [max_length]. *)
Definition dumps_truncated (v : pyval) : string :=
  let result := json_dumps_indent2 v in
  if max_length <? Z.of_nat (String.length result)
  then Py.str_take max_length result +:+ Py.nl +:+ "... (truncated)"
  else result.

Definition format_tool_input (tool_name tool_input : pyval) : result string :=
  if negb (Py.truthy tool_input) then Ok "" else
  match tool_input with
  | PDict d =>
      if Py.eq_str tool_name "Write" || Py.eq_str tool_name "Edit"
         || Py.eq_str tool_name "MultiEdit"
      then
        let file_path := Py.dict_get d "file_path" (Py.dict_get d "path" (PStr "")) in
        let content := Py.dict_get d "content" (PStr "") in
        let result := "File: " +:+ py_str file_path +:+ Py.nl in
        if Py.truthy content then
          n ← Py.len content;
          content_preview ←
            (if 2000 <? n then
               match content with
               | PStr c => Ok (PStr (Py.str_take 2000 c +:+ "..."))
               | _ => Raise TypeError
               end
             else Ok content);
          Ok (Py.str_take max_length
                (result +:+ "Content:" +:+ Py.nl +:+ py_str content_preview))
        else Ok (Py.str_take max_length result)
      else if Py.eq_str tool_name "Read" then
        Ok ("File: " +:+ py_str (Py.dict_get d "file_path" (Py.dict_get d "path" (PStr ""))))
      else if Py.eq_str tool_name "Bash" || Py.eq_str tool_name "Shell" then
        Ok ("Command: " +:+ py_str (Py.dict_get d "command" (PStr "")))
      else Ok (dumps_truncated tool_input)
  | _ => Ok (dumps_truncated tool_input)
  end.

(** [text[:remaining] + "... (truncated)"] for a [text] whose [len] was
    taken: a str, a list or a dict.  A list slice does not add to a str
    and a dict has no slices: [TypeError] ([KeyError] for the dict from
    Python 3.12 on; nothing here tells the two apart). *)
Definition cut_text (text : pyval) (remaining : Z) : result pyval :=
  match text with
  | PStr t => Ok (PStr (Py.str_take remaining t +:+ "... (truncated)"))
  | _ => Raise TypeError
  end.

(** The loop of [format_tool_output] over a list of content blocks: the
    parts collected from [items] on, [total_length] characters in. *)
Fixpoint output_parts (items : list pyval) (total_length : Z)
  : result (list pyval) :=
  match items with
  | [] => Ok []
  | item :: rest =>
      let budgeted (text : pyval) : result (list pyval) :=
        n ← Py.len text;
        if max_length <? total_length + n then
          let remaining := max_length - total_length in
          if 100 <? remaining
          then (t ← cut_text text remaining; Ok [t])
          else Ok []
        else (ps ← output_parts rest (total_length + n); Ok (text :: ps)) in
      match item with
      | PDict d =>
          if Py.eq_str (Py.dict_get d "type" PNone) "text" then
            budgeted (Py.dict_get d "text" (PStr ""))
          else if Py.eq_str (Py.dict_get d "type" PNone) "image" then
            ps ← output_parts rest total_length;
            Ok (PStr "[Image output]" :: ps)
          else
            let text := Py.str_take 500 (py_str item) in
            ps ← output_parts rest (total_length + Z.of_nat (String.length text));
            Ok (PStr text :: ps)
      | PStr _ => budgeted item
      | _ => output_parts rest total_length
      end
  end.

Definition format_tool_output (tool_name tool_output : pyval) : result string :=
  if negb (Py.truthy tool_output) then Ok "" else
  match tool_output with
  | PStr o =>
      if max_length <? Z.of_nat (String.length o)
      then Ok (Py.str_take max_length o +:+ Py.nl +:+ "... (truncated)")
      else Ok o
  | PList l => parts ← output_parts l 0; Py.join_nl parts
  | PDict d =>
      if Py.contains d "success" then
        Ok ("Success: " +:+ py_str (Py.dict_get d "success" PNone) +:+ Py.nl
            +:+ py_str (Py.dict_get d "message" (PStr "")))
      else Ok (dumps_truncated tool_output)
  | _ => Ok (Py.str_take max_length (py_str tool_output))
  end.

(** ** Merging the parts of one assistant message *)

(** The blocks one part adds to [merged_content]. *)
Definition part_blocks (content : pyval) : list pyval :=
  match content with
  | PList l => l
  | _ =>
      if Py.truthy content
      then [PDict [("type", PStr "text"); ("text", PStr (py_str content))]]
      else []
  end.

Fixpoint merged_content (parts : list pyval) : result (list pyval) :=
  match parts with
  | [] => Ok []
  | part :: rest =>
      content ← get_content part;
      more ← merged_content rest;
      Ok (part_blocks content ++ more)
  end.

Definition merge_assistant_parts (parts : list pyval) : result pyval :=
  match parts with
  | [] => Ok (PDict [])
  | first :: _ =>
      merged ← merged_content parts;
      match first with
      | PDict d =>
          match Py.lookup d "message" with
          | Some (PDict m) =>
              Ok (PDict (Py.set d "message"
                           (PDict (Py.set m "content" (PList merged)))))
          | Some (PList _) => Raise TypeError
          | Some _ => Raise AttributeError
          | None => Ok (PDict (Py.set d "content" (PList merged)))
          end
      | PList _ => Raise TypeError
      | _ => Raise AttributeError
      end
  end.

(** [parse_timestamp]: its [except] swallows the [AttributeError] of a
    value that is no [str] and the [ValueError] of a bad format. *)
Definition parse_timestamp (ts : pyval) : option datetime :=
  match ts with
  | PStr s =>
      let s := if Py.endswith_Z s then Py.drop_last s +:+ "+00:00" else s in
      fromisoformat (Py.replace "Z" "+00:00" s)
  | _ => None
  end.

(** ** The span compiler *)

(** [datetime.now(timezone.utc).isoformat().replace("+00:00", "Z")]: one
    reading stands for every call of a run; no property below compares
    two readings of the clock. *)
Definition utcnow_z : pyval := PStr (Py.replace "+00:00" "Z" utcnow_isoformat).

(** The usage object of the chat span and the metadata with the service
    tier added: the block under [if usage:]. *)
Definition build_usage (usage : pyval) (metadata : pydict)
  : result (option pydict * pydict) :=
  if Py.truthy usage then
    prompt_tokens ← Py.get usage "input_tokens" (PInt 0);
    completion_tokens ← Py.get usage "output_tokens" (PInt 0);
    let usage_obj := [("prompt_tokens", prompt_tokens);
                      ("completion_tokens", completion_tokens)] in
    total_tokens ← Py.add prompt_tokens completion_tokens;
    positive ← Py.gt0 total_tokens;
    let usage_obj :=
      if positive : bool then Py.set usage_obj "total_tokens" total_tokens
      else usage_obj in
    cache_creation ← Py.get usage "cache_creation_input_tokens" (PInt 0);
    cache_read ← Py.get usage "cache_read_input_tokens" (PInt 0);
    created ← Py.gt0 cache_creation;
    let prompt_tokens_details :=
      if created : bool then [("cache_creation_tokens", cache_creation)] else [] in
    let usage_obj :=
      if created : bool
      then Py.set usage_obj "cache_creation_prompt_tokens" cache_creation
      else usage_obj in
    cached ← Py.gt0 cache_read;
    let prompt_tokens_details :=
      if cached : bool then Py.set prompt_tokens_details "cached_tokens" cache_read
      else prompt_tokens_details in
    let usage_obj :=
      if Py.truthy (PDict prompt_tokens_details)
      then Py.set usage_obj "prompt_tokens_details" (PDict prompt_tokens_details)
      else usage_obj in
    service_tier ← Py.get usage "service_tier" PNone;
    let metadata :=
      if Py.truthy service_tier then Py.set metadata "service_tier" service_tier
      else metadata in
    Ok (Some usage_obj, metadata)
  else Ok (None, metadata).

(** The usage keys copied onto the chat span. *)
Definition add_usage (chat_span : pydict) (usage_obj : option pydict) : pydict :=
  match usage_obj with
  | Some u =>
      let copy (key : string) (span : pydict) : pydict :=
        match Py.lookup u key with
        | Some v => Py.set span key v
        | None => span
        end in
      copy "prompt_tokens_details"
        (copy "cache_creation_prompt_tokens"
           (copy "total_tokens"
              (copy "completion_tokens" (copy "prompt_tokens" chat_span))))
  | None => chat_span
  end.

(** What the child spans of a turn share with its chat span. *)
Record turn_ctx : Type := {
  ctx_turn_num : Z;
  ctx_trace_unique_id : string;
  ctx_chat_span_id : string;
  ctx_workflow_name : string;
  ctx_timestamp_str : pyval;
  ctx_start_time_str : pyval;
}.

(** Model, usage, request id, stop reason and timestamp, read from the
    first assistant message when it is a dict with a ["message"] key. *)
Definition assistant_header (assistant_msgs : list pyval)
  : result (pyval * pyval * pyval * pyval * pyval) :=
  match head assistant_msgs with
  | Some (PDict first) =>
      match Py.lookup first "message" with
      | Some msg_obj =>
          model ← Py.get msg_obj "model" (PStr "claude");
          usage ← Py.get msg_obj "usage" PNone;
          request_id ← Py.get msg_obj "requestId" PNone;
          stop_reason ← Py.get msg_obj "stop_reason" PNone;
          Ok (model, usage, request_id, stop_reason,
              Py.dict_get first "timestamp" PNone)
      | None => Ok (PStr "claude", PNone, PNone, PNone, PNone)
      end
  | _ => Ok (PStr "claude", PNone, PNone, PNone, PNone)
  end.

(** [parse_timestamp(ts) if ts else None] *)
Definition time_of (ts : pyval) : option datetime :=
  if Py.truthy ts then parse_timestamp ts else None.

(** The latency of the turn, when both timestamps parsed. *)
Definition turn_latency (user_time assistant_time : option datetime)
  : result (option float) :=
  match user_time, assistant_time with
  | Some u, Some a =>
      match sub_total_seconds a u with
      | Some secs => Ok (Some secs)
      | None => Raise TypeError
      end
  | _, _ => Ok None
  end.

(** The metadata of the chat span before the usage block. *)
Definition turn_metadata (turn_num : Z) (request_id stop_reason : pyval) : pydict :=
  let metadata := [("claude_code_turn", PInt turn_num)] in
  let metadata :=
    if Py.truthy request_id then Py.set metadata "request_id" request_id
    else metadata in
  if Py.truthy stop_reason then Py.set metadata "stop_reason" stop_reason
  else metadata.

Definition make_ctx (session_id : string) (turn_num : Z)
    (timestamp_str start_time_str : pyval) : turn_ctx :=
  {| ctx_turn_num := turn_num;
     ctx_trace_unique_id := session_id +:+ "_turn_" +:+ pretty turn_num;
     ctx_chat_span_id := "turn_" +:+ pretty turn_num +:+ "_chat";
     ctx_workflow_name := "claudecode_" +:+ session_id;
     ctx_timestamp_str := timestamp_str;
     ctx_start_time_str := start_time_str |}.

(** The chat span dict, with usage and latency added when there. *)
Definition chat_span (session_id : string) (ctx : turn_ctx)
    (user_text final_output : string) (model : pyval) (metadata : pydict)
    (usage_obj : option pydict) (latency : option float) : pyval :=
  let prompt_messages :=
    if negb (String.eqb user_text "")
    then [PDict [("role", PStr "user"); ("content", PStr user_text)]]
    else [] in
  let completion_message :=
    if negb (String.eqb final_output "")
    then PDict [("role", PStr "assistant"); ("content", PStr final_output)]
    else PNone in
  let root_span_name := "claudecode_" +:+ ctx_trace_unique_id ctx in
  let thread_id := "claudecode_" +:+ session_id in
  let span :=
    [("trace_unique_id", PStr (ctx_trace_unique_id ctx));
     ("thread_identifier", PStr thread_id);
     ("span_unique_id", PStr (ctx_chat_span_id ctx));
     ("span_parent_id", PNone);
     ("span_name", PStr root_span_name);
     ("span_workflow_name", PStr (ctx_workflow_name ctx));
     ("log_type", PStr "agent");
     ("input", PStr (match prompt_messages with
                     | [] => ""
                     | _ => json_dumps (PList prompt_messages)
                     end));
     ("output", PStr (if Py.truthy completion_message
                      then json_dumps completion_message else ""));
     ("prompt_messages", PList prompt_messages);
     ("completion_message", completion_message);
     ("model", model);
     ("timestamp", ctx_timestamp_str ctx);
     ("start_time", ctx_start_time_str ctx);
     ("metadata", PDict metadata)] in
  let span := add_usage span usage_obj in
  PDict match latency with
        | Some secs => Py.set span "latency" (PFloat secs)
        | None => span
        end.

(** The chat (root) span of a turn, with the context of its children:
    the code of [create_keywordsai_spans] up to [spans.append(chat_span)]. *)
Definition chat_span_of (session_id : string) (turn_num : Z)
    (user_msg : pyval) (assistant_msgs : list pyval)
  : result (pyval * turn_ctx) :=
  user_text ← get_text_content user_msg;
  user_timestamp ← Py.get user_msg "timestamp" PNone;
  final_output ←
    match last assistant_msgs with
    | Some m => get_text_content m
    | None => Ok ""
    end;
  '(model, usage, request_id, stop_reason, assistant_timestamp) ←
    assistant_header assistant_msgs;
  let start_time_str :=
    if Py.truthy user_timestamp then user_timestamp
    else if Py.truthy assistant_timestamp then assistant_timestamp
    else utcnow_z in
  let timestamp_str :=
    if Py.truthy assistant_timestamp then assistant_timestamp else utcnow_z in
  latency ← turn_latency (time_of user_timestamp) (time_of assistant_timestamp);
  '(usage_obj, metadata) ←
    build_usage usage (turn_metadata turn_num request_id stop_reason);
  let ctx := make_ctx session_id turn_num timestamp_str start_time_str in
  Ok (chat_span session_id ctx user_text final_output model metadata usage_obj
        latency,
      ctx).

Section Children.
Variable ctx : turn_ctx.

(** One thinking span; [n] is its 1-based index in the turn. *)
Definition thinking_span (n : nat) (thinking_text thinking_timestamp : pyval)
  : pyval :=
  PDict
    [("trace_unique_id", PStr (ctx_trace_unique_id ctx));
     ("span_unique_id",
      PStr ("turn_" +:+ pretty (ctx_turn_num ctx) +:+ "_thinking_"
            +:+ pretty (Z.of_nat n)));
     ("span_parent_id", PStr (ctx_chat_span_id ctx));
     ("span_name", PStr ("Thinking " +:+ pretty (Z.of_nat n)));
     ("span_workflow_name", PStr (ctx_workflow_name ctx));
     ("log_type", PStr "generation");
     ("input", PStr "");
     ("output", thinking_text);
     ("timestamp", thinking_timestamp);
     ("start_time", thinking_timestamp)].

(** The inner loop over the content items of one assistant message. *)
Fixpoint thinking_of_items (thinking_timestamp : pyval) (items : list pyval)
    (thinking_spans : list pyval) : list pyval :=
  match items with
  | [] => thinking_spans
  | item :: rest =>
      let thinking_spans :=
        match item with
        | PDict d =>
            if Py.eq_str (Py.dict_get d "type" PNone) "thinking" then
              let thinking_text := Py.dict_get d "thinking" (PStr "") in
              if Py.truthy thinking_text
              then thinking_spans ++
                   [thinking_span (S (length thinking_spans)) thinking_text
                      thinking_timestamp]
              else thinking_spans
            else thinking_spans
        | _ => thinking_spans
        end in
      thinking_of_items thinking_timestamp rest thinking_spans
  end.

(** The outer loop over the assistant messages. *)
Fixpoint thinking_of_msgs (assistant_msgs : list pyval)
    (thinking_spans : list pyval) : result (list pyval) :=
  match assistant_msgs with
  | [] => Ok thinking_spans
  | assistant_msg :: rest =>
      thinking_spans ←
        match assistant_msg with
        | PDict d =>
            match Py.lookup d "message" with
            | Some m =>
                content ← Py.get m "content" (PList []);
                match content with
                | PList items =>
                    Ok (thinking_of_items
                          (Py.dict_get d "timestamp" (ctx_timestamp_str ctx))
                          items thinking_spans)
                | _ => Ok thinking_spans
                end
            | None => Ok thinking_spans
            end
        | _ => Ok thinking_spans
        end;
      thinking_of_msgs rest thinking_spans
  end.

End Children.

(** *** The tool call map *)

(** [k in m] *)
Definition map_mem (m : call_map) (k : pyval) : bool :=
  existsb (fun e => Py.key_eqb (fst e) k) m.

(** [m[k] = v]: an equal key keeps its place (and its key object). *)
Fixpoint map_set (m : call_map) (k : pyval) (v : pydict) : call_map :=
  match m with
  | [] => [(k, v)]
  | (k', v') :: m' =>
      if Py.key_eqb k' k then (k', v) :: m' else (k', v') :: map_set m' k v
  end.

(** [m[k][...] = ...]: [f] changes the dict stored under [k]. *)
Fixpoint map_update (m : call_map) (k : pyval) (f : pydict -> pydict) : call_map :=
  match m with
  | [] => []
  | (k', v') :: m' =>
      if Py.key_eqb k' k then (k', f v') :: m' else (k', v') :: map_update m' k f
  end.

(** The inner loop over the tool calls of one assistant message. *)
Fixpoint add_tool_calls (timestamp : pyval) (tool_calls : list pyval)
    (tool_call_map : call_map) : result call_map :=
  match tool_calls with
  | [] => Ok tool_call_map
  | tool_call :: rest =>
      tool_name ← Py.get tool_call "name" (PStr "unknown");
      tool_input ← Py.get tool_call "input" (PDict []);
      tool_id ← Py.get tool_call "id" (PStr "");
      if Py.hashable tool_id then
        add_tool_calls timestamp rest
          (map_set tool_call_map tool_id
             [("name", tool_name); ("input", tool_input); ("id", tool_id);
              ("timestamp", timestamp)])
      else Raise TypeError
  end.

(** The outer loop: every tool call of every assistant message. *)
Fixpoint collect_tool_calls (assistant_msgs : list pyval)
    (tool_call_map : call_map) : result call_map :=
  match assistant_msgs with
  | [] => Ok tool_call_map
  | assistant_msg :: rest =>
      tool_calls ← get_tool_calls assistant_msg;
      let timestamp :=
        match assistant_msg with
        | PDict d => Py.dict_get d "timestamp" PNone
        | _ => PNone
        end in
      tool_call_map ← add_tool_calls timestamp tool_calls tool_call_map;
      collect_tool_calls rest tool_call_map
  end.

(** [if key in tool_use_result: md[name] = tool_use_result[key]] for a
    truthy [tool_use_result]: a dict is looked up; in a str or a list the
    test is a search and a hit cannot be indexed by [key]; other objects
    are not iterable. *)
Definition copy_key (tool_use_result : pyval) (key name : string) (md : pydict)
  : result pydict :=
  match tool_use_result with
  | PDict t =>
      match Py.lookup t key with
      | Some v => Ok (Py.set md name v)
      | None => Ok md
      end
  | PStr t => if Py.str_contains key t then Raise TypeError else Ok md
  | PList t => if existsb (fun x => Py.eq_str x key) t then Raise TypeError else Ok md
  | _ => Raise TypeError
  end.

(** [tool_result_metadata] of one tool result record. *)
Definition result_metadata (tr : pyval) : result pydict :=
  match tr with
  | PDict d =>
      let tool_use_result := Py.dict_get d "toolUseResult" (PDict []) in
      if Py.truthy tool_use_result then
        md ← copy_key tool_use_result "durationMs" "duration_ms" [];
        md ← copy_key tool_use_result "numFiles" "num_files" md;
        md ← copy_key tool_use_result "filenames" "filenames" md;
        copy_key tool_use_result "truncated" "truncated" md
      else Ok []
  | _ => Ok []
  end.

(** The three keys a matching result sets on its tool call. *)
Definition attach_result (output : pyval) (md : pydict) (result_timestamp : pyval)
    (tool_data : pydict) : pydict :=
  Py.set (Py.set (Py.set tool_data "output" output) "result_metadata" (PDict md))
    "result_timestamp" result_timestamp.

(** The inner loop over the content items of one tool result record. *)
Fixpoint match_items (md : pydict) (result_timestamp : pyval) (items : list pyval)
    (tool_call_map : call_map) : result call_map :=
  match items with
  | [] => Ok tool_call_map
  | item :: rest =>
      match item with
      | PDict d =>
          if Py.eq_str (Py.dict_get d "type" PNone) "tool_result" then
            let tool_use_id := Py.dict_get d "tool_use_id" PNone in
            if Py.hashable tool_use_id then
              match_items md result_timestamp rest
                (if map_mem tool_call_map tool_use_id
                 then map_update tool_call_map tool_use_id
                        (attach_result (Py.dict_get d "content" PNone) md
                           result_timestamp)
                 else tool_call_map)
            else Raise TypeError
          else match_items md result_timestamp rest tool_call_map
      | _ => match_items md result_timestamp rest tool_call_map
      end
  end.

(** The outer loop over the tool result records of the turn. *)
Fixpoint match_results (tool_results : list pyval) (tool_call_map : call_map)
  : result call_map :=
  match tool_results with
  | [] => Ok tool_call_map
  | tr :: rest =>
      tr_content ← get_content tr;
      md ← result_metadata tr;
      tool_call_map ←
        match tr_content, tr with
        | PList items, PDict d =>
            match_items md (Py.dict_get d "timestamp" PNone) items tool_call_map
        | _, _ => Ok tool_call_map
        end;
      match_results rest tool_call_map
  end.

(** One tool span, from the entry of its call in the map; [tool_num] is
    its 1-based position. *)
Definition tool_span (ctx : turn_ctx) (tool_num : Z) (tool_data : pydict)
  : result pyval :=
  let tool_timestamp :=
    Py.or_ (Py.dict_get tool_data "result_timestamp" PNone)
      (Py.or_ (Py.dict_get tool_data "timestamp" PNone) (ctx_timestamp_str ctx)) in
  let tool_start_time :=
    Py.or_ (Py.dict_get tool_data "timestamp" PNone) (ctx_start_time_str ctx) in
  let name := Py.dict_get tool_data "name" PNone in
  formatted_input ← format_tool_input name (Py.dict_get tool_data "input" PNone);
  formatted_output ← format_tool_output name (Py.dict_get tool_data "output" PNone);
  let span :=
    [("trace_unique_id", PStr (ctx_trace_unique_id ctx));
     ("span_unique_id",
      PStr ("turn_" +:+ pretty (ctx_turn_num ctx) +:+ "_tool_" +:+ pretty tool_num));
     ("span_parent_id", PStr (ctx_chat_span_id ctx));
     ("span_name", PStr ("Tool: " +:+ py_str name));
     ("span_workflow_name", PStr (ctx_workflow_name ctx));
     ("log_type", PStr "tool");
     ("input", PStr formatted_input);
     ("output", PStr formatted_output);
     ("timestamp", tool_timestamp);
     ("start_time", tool_start_time)] in
  let result_md := Py.dict_get tool_data "result_metadata" PNone in
  if Py.truthy result_md then
    let span := Py.set span "metadata" result_md in
    duration_ms ← Py.get result_md "duration_ms" PNone;
    if Py.truthy duration_ms then
      latency ← Py.div1000 duration_ms;
      Ok (PDict (Py.set span "latency" latency))
    else Ok (PDict span)
  else Ok (PDict span).

(** The loop over [tool_call_map.items()]; [tool_num] counts the spans
    made so far. *)
Fixpoint tool_spans (ctx : turn_ctx) (entries : call_map) (tool_num : Z)
  : result (list pyval) :=
  match entries with
  | [] => Ok []
  | (_, tool_data) :: rest =>
      let tool_num := tool_num + 1 in
      span ← tool_span ctx tool_num tool_data;
      more ← tool_spans ctx rest tool_num;
      Ok (span :: more)
  end.

(** [create_keywordsai_spans]: the chat span, then the thinking spans,
    then the tool spans. *)
Definition create_keywordsai_spans (session_id : string) (turn_num : Z)
    (user_msg : pyval) (assistant_msgs tool_results : list pyval)
  : result (list pyval) :=
  '(chat_span, ctx) ← chat_span_of session_id turn_num user_msg assistant_msgs;
  thinking_spans ← thinking_of_msgs ctx assistant_msgs [];
  tool_call_map ← collect_tool_calls assistant_msgs [];
  tool_call_map ← match_results tool_results tool_call_map;
  tools ← tool_spans ctx tool_call_map 0;
  Ok (chat_span :: thinking_spans ++ tools).

End Runtime.

(** ** The incremental driver and its effects *)

(** One entry of the state file: what the hook stores per session. *)
Record session_state : Type := {
  last_line : Z;
  turn_count : Z;
  updated : string;
}.

(** One POST to [/v1/traces/ingest]: the spans of one turn, and whether
    the request went through ([requests.post] returned and
    [raise_for_status] did not raise). *)
Record emission : Type := {
  em_turn_num : Z;
  em_spans : list pyval;
  em_delivered : bool;
}.

(** Lines written to the log file ([debug] lines only when [DEBUG] is on). *)
Inductive log_entry : Type :=
  | DebugNoNewLines (last total : Z)
  | DebugProcessing (n : nat)
  | DebugSent (n_spans : nat) (turn_num : Z)
  | ErrorSendFailed (turn_num : Z).

(** The local variables of the grouping loop of [process_transcript],
    with the effects made so far. *)
Record loop_state : Type := {
  turns_processed : Z;
  current_user : pyval;
  current_assistants : list pyval;
  current_assistant_parts : list pyval;
  current_msg_id : pyval;
  current_tool_results : list pyval;
  emitted : list emission;
  logged : list log_entry;
}.

(** What one run of [process_transcript] did: the POSTs and log lines in
    order, the state written by [save_state] if it was called, and the
    value returned or the exception that left the function. *)
Record run : Type := {
  run_emitted : list emission;
  run_logged : list log_entry;
  run_saved : option (gmap string session_state);
  run_result : result Z;
}.

Definition nonempty {A} (l : list A) : bool :=
  match l with [] => false | _ => true end.

Section Driver.
Context `{rt : PyRuntime}.

(** The outcome of the [i]-th POST of the run. *)
Variable net : nat -> bool.
Variable session_id : string.
(** [turn_count] as read from the stored state. *)
Variable stored_turn_count : Z.

(** [if current_msg_id and current_assistant_parts:] merge the parts into
    one assistant message of the turn.  (Where the source then clears
    the parts and the identifier, the caller does.) *)
Definition finalize_message (st : loop_state) : result loop_state :=
  if Py.truthy (current_msg_id st) && nonempty (current_assistant_parts st) then
    merged ← merge_assistant_parts (current_assistant_parts st);
    Ok {| turns_processed := turns_processed st;
          current_user := current_user st;
          current_assistants := current_assistants st ++ [merged];
          current_assistant_parts := current_assistant_parts st;
          current_msg_id := current_msg_id st;
          current_tool_results := current_tool_results st;
          emitted := emitted st;
          logged := logged st |}
  else Ok st.

(** [if current_user and current_assistants:] compile the turn and POST
    its spans; a failed POST is logged and nothing else.  The source has
    this block twice, in the loop and after it. *)
Definition emit_turn (st : loop_state) : result loop_state :=
  if Py.truthy (current_user st) && nonempty (current_assistants st) then
    let processed := turns_processed st + 1 in
    let turn_num := stored_turn_count + processed in
    spans ← create_keywordsai_spans session_id turn_num (current_user st)
              (current_assistants st) (current_tool_results st);
    let delivered := net (length (emitted st)) in
    Ok {| turns_processed := processed;
          current_user := current_user st;
          current_assistants := current_assistants st;
          current_assistant_parts := current_assistant_parts st;
          current_msg_id := current_msg_id st;
          current_tool_results := current_tool_results st;
          emitted := emitted st ++
                     [{| em_turn_num := turn_num; em_spans := spans;
                         em_delivered := delivered |}];
          logged := logged st ++
                    [if delivered then DebugSent (length spans) turn_num
                     else ErrorSendFailed turn_num] |}
  else Ok st.

(** [msg.get("type") or (msg.get("message", {}).get("role"))] *)
Definition role_of (msg : pyval) : result pyval :=
  ty ← Py.get msg "type" PNone;
  if Py.truthy ty then Ok ty
  else (m ← Py.get msg "message" (PDict []); Py.get m "role" PNone).

(** The message identifier of an assistant record. *)
Definition msg_id_of (msg : pyval) : result pyval :=
  match msg with
  | PDict d =>
      match Py.lookup d "message" with
      | Some m => Py.get m "id" PNone
      | None => Ok PNone
      end
  | _ => Ok PNone
  end.

(** One iteration of [for msg in new_messages:]. *)
Definition step (st : loop_state) (msg : pyval) : result loop_state :=
  role ← role_of msg;
  if Py.eq_str role "user" then
    is_result ← is_tool_result msg;
    if is_result : bool then
      Ok {| turns_processed := turns_processed st;
            current_user := current_user st;
            current_assistants := current_assistants st;
            current_assistant_parts := current_assistant_parts st;
            current_msg_id := current_msg_id st;
            current_tool_results := current_tool_results st ++ [msg];
            emitted := emitted st;
            logged := logged st |}
    else
      st ← finalize_message st;
      st ← emit_turn st;
      Ok {| turns_processed := turns_processed st;
            current_user := msg;
            current_assistants := [];
            current_assistant_parts := [];
            current_msg_id := PNone;
            current_tool_results := [];
            emitted := emitted st;
            logged := logged st |}
  else if Py.eq_str role "assistant" then
    msg_id ← msg_id_of msg;
    let continued :=
      {| turns_processed := turns_processed st;
         current_user := current_user st;
         current_assistants := current_assistants st;
         current_assistant_parts := current_assistant_parts st ++ [msg];
         current_msg_id := current_msg_id st;
         current_tool_results := current_tool_results st;
         emitted := emitted st;
         logged := logged st |} in
    if negb (Py.truthy msg_id) then Ok continued
    else if Py.eqb msg_id (current_msg_id st) then Ok continued
    else
      st ← finalize_message st;
      Ok {| turns_processed := turns_processed st;
            current_user := current_user st;
            current_assistants := current_assistants st;
            current_assistant_parts := [msg];
            current_msg_id := msg_id;
            current_tool_results := current_tool_results st;
            emitted := emitted st;
            logged := logged st |}
  else Ok st.

(** The loop: the state it stopped in, and the exception that stopped it
    if one did.  An iteration that raises has had no effect. *)
Fixpoint assemble (msgs : list pyval) (st : loop_state)
  : loop_state * option exn :=
  match msgs with
  | [] => (st, None)
  | msg :: rest =>
      match step st msg with
      | Ok st' => assemble rest st'
      | Raise e => (st, Some e)
      end
  end.

(** [lines[i]]: a negative index counts from the end. *)
Definition py_index (lines : list string) (i : Z) : result string :=
  let n := Z.of_nat (length lines) in
  let j := if i <? 0 then i + n else i in
  if (0 <=? j) && (j <? n) then
    match lines !! Z.to_nat j with
    | Some line => Ok line
    | None => Raise IndexError
    end
  else Raise IndexError.

(** The body of [for i in range(...)]: a blank line and a line that is
    not JSON add nothing; only [json.JSONDecodeError] is caught. *)
Definition parse_line (line : string) : result (list pyval) :=
  if String.eqb (str_strip line) "" then Ok []
  else match json_loads line with
       | Ok (Some msg) => Ok [msg]
       | Ok None => Ok []
       | Raise e => Raise e
       end.

(** [new_messages] over [count] indices from [i] on. *)
Fixpoint parse_range (lines : list string) (i : Z) (count : nat)
  : result (list pyval) :=
  match count with
  | O => Ok []
  | S count' =>
      line ← py_index lines i;
      here ← parse_line line;
      rest ← parse_range lines (i + 1) count';
      Ok (here ++ rest)
  end.

(** [read_text().strip().split("\n")] *)
Definition read_lines (transcript : string) : list string :=
  Py.split_lines (str_strip transcript).

(** [new_messages]: the records parsed from the lines [last_line] on. *)
Definition new_messages (lines : list string) (last : Z) : result (list pyval) :=
  parse_range lines last (Z.to_nat (Z.of_nat (length lines) - last)).

End Driver.

(** The loop variables before the first message; the debug line counting
    the [n] new messages has been written. *)
Definition initial_state (n : nat) : loop_state :=
  {| turns_processed := 0;
     current_user := PNone;
     current_assistants := [];
     current_assistant_parts := [];
     current_msg_id := PNone;
     current_tool_results := [];
     emitted := [];
     logged := [DebugProcessing n] |}.

Section Process.
Context `{rt : PyRuntime}.

(** [session_state.get("last_line", 0)] and [.get("turn_count", 0)] of
    [state.get(session_id, {})]. *)
Definition stored_last_line (state : gmap string session_state)
    (session_id : string) : Z :=
  match state !! session_id with Some s => last_line s | None => 0 end.

Definition stored_turns (state : gmap string session_state)
    (session_id : string) : Z :=
  match state !! session_id with Some s => turn_count s | None => 0 end.

(** [process_transcript]: [transcript] is the text of the file, [state]
    the loaded state file, [net] the fate of each POST. *)
Definition process_transcript (net : nat -> bool) (session_id : string)
    (transcript : string) (state : gmap string session_state) : run :=
  let last := stored_last_line state session_id in
  let turns := stored_turns state session_id in
  let lines := read_lines transcript in
  let total_lines := Z.of_nat (length lines) in
  if total_lines <=? last then
    {| run_emitted := []; run_logged := [DebugNoNewLines last total_lines];
       run_saved := None; run_result := Ok 0 |}
  else
    match new_messages lines last with
    | Raise e =>
        {| run_emitted := []; run_logged := []; run_saved := None;
           run_result := Raise e |}
    | Ok [] =>
        {| run_emitted := []; run_logged := []; run_saved := None;
           run_result := Ok 0 |}
    | Ok new_messages =>
        let start := initial_state (length new_messages) in
        let failed (st : loop_state) (e : exn) : run :=
          {| run_emitted := emitted st; run_logged := logged st;
             run_saved := None; run_result := Raise e |} in
        match assemble net session_id turns new_messages start with
        | (st, Some e) => failed st e
        | (st, None) =>
            match finalize_message st with
            | Raise e => failed st e
            | Ok st1 =>
                match emit_turn net session_id turns st1 with
                | Raise e => failed st1 e
                | Ok st2 =>
                    {| run_emitted := emitted st2;
                       run_logged := logged st2;
                       run_saved :=
                         Some (<[session_id :=
                                   {| last_line := total_lines;
                                      turn_count := turns + turns_processed st2;
                                      updated := utcnow_isoformat |}]> state);
                       run_result := Ok (turns_processed st2) |}
                end
            end
        end
    end.

End Process.

(** * Vocabulary of the statements *)

Section Vocabulary.
Context `{rt : PyRuntime}.

(** A field of the inner ["message"] object of a record. *)
Definition message_field (msg : pyval) (k : string) : option pyval :=
  match msg with
  | PDict d =>
      match Py.lookup d "message" with
      | Some (PDict m) => Py.lookup m k
      | _ => None
      end
  | _ => None
  end.

(** A top-level field of a record. *)
Definition record_field (msg : pyval) (k : string) : option pyval :=
  match msg with
  | PDict d => Py.lookup d k
  | _ => None
  end.

(** The fields a span of a turn is judged by: its kind, its parent and
    its trace. *)
Definition span_has (kind : string) (parent : pyval) (trace : string)
    (span : pyval) : Prop :=
  record_field span "log_type" = Some (PStr kind) /\
  record_field span "span_parent_id" = Some parent /\
  record_field span "trace_unique_id" = Some (PStr trace).

(** [span] has this [log_type]. *)
Definition is_kind (kind : string) (span : pyval) : bool :=
  match record_field span "log_type" with
  | Some v => Py.eq_str v kind
  | None => false
  end.

(** The tool spans of a span list, in order. *)
Definition tool_spans_in (spans : list pyval) : list pyval :=
  List.filter (is_kind "tool") spans.

(** The number of lines of a transcript, as the hook counts them. *)
Definition total_lines (transcript : string) : Z :=
  Z.of_nat (length (read_lines transcript)).

(** The state file after a run: rewritten, or left as it was. *)
Definition persisted_after (state : gmap string session_state) (r : run)
  : gmap string session_state :=
  match run_saved r with Some s => s | None => state end.

(** The [tool_use_id] of a tool result item. *)
Definition result_id (item : pyval) : pyval :=
  match item with PDict d => Py.dict_get d "tool_use_id" PNone | _ => PNone end.

(** The content of a tool result item. *)
Definition result_content (item : pyval) : pyval :=
  match item with PDict d => Py.dict_get d "content" PNone | _ => PNone end.

(** The contents of the items of [items] that answer the call [key]. *)
Definition answers (key : pyval) (items : list pyval) : list pyval :=
  omap (fun item =>
          if is_block "tool_result" item && Py.key_eqb key (result_id item)
          then Some (result_content item) else None) items.

(** The answers to [key] in one tool result record. *)
Definition results_in (key : pyval) (tr : pyval) : list pyval :=
  match get_content tr with
  | Ok (PList items) => answers key items
  | _ => []
  end.

(** All the answers to [key] among the tool result records of a turn. *)
Definition results_for (key : pyval) (tool_results : list pyval) : list pyval :=
  concat (map (results_in key) tool_results).

(** A record that opens a turn: a user record that carries no tool
    result. *)
Definition opens_turn (msg : pyval) : bool :=
  match role_of msg, is_tool_result msg with
  | Ok role, Ok false => Py.eq_str role "user"
  | _, _ => false
  end.

(** A record that the loop files with the tool results of the open turn:
    a user record that carries a tool result. *)
Definition files_result (msg : pyval) : bool :=
  match role_of msg, is_tool_result msg with
  | Ok role, Ok true => Py.eq_str role "user"
  | _, _ => false
  end.

(** The tool result records among the records read while a turn is open. *)
Definition turn_results (records : list pyval) : list pyval :=
  List.filter files_result records.

(** ** Turns whose fields have the types of the log format *)

(** The ["message"] field of a record, when present, is an object. *)
Definition message_ok (msg : pyval) : bool :=
  match msg with
  | PDict d =>
      match Py.lookup d "message" with
      | Some m => Py.is_dict m
      | None => true
      end
  | _ => true
  end.

(** A text block carries a string. *)
Definition text_item_ok (item : pyval) : bool :=
  match text_part item with
  | Some (PStr _) | None => true
  | Some _ => false
  end.

(** The text blocks of a content list carry strings. *)
Definition texts_ok (content : pyval) : bool :=
  match content with
  | PList items => forallb text_item_ok items
  | _ => true
  end.

(** A token count is an int, or absent. *)
Definition count_ok (usage : pydict) (k : string) : bool :=
  match Py.lookup usage k with
  | None | Some (PInt _) => true
  | Some _ => false
  end.

(** The usage of a message is an object of token counts, or nothing. *)
Definition usage_ok (usage : pyval) : bool :=
  match usage with
  | PDict u =>
      count_ok u "input_tokens" && count_ok u "output_tokens"
      && count_ok u "cache_creation_input_tokens"
      && count_ok u "cache_read_input_tokens"
  | _ => negb (Py.truthy usage)
  end.

(** [tool_name in ("Write", "Edit", "MultiEdit")] *)
Definition is_write (tool_name : pyval) : bool :=
  Py.eq_str tool_name "Write" || Py.eq_str tool_name "Edit"
  || Py.eq_str tool_name "MultiEdit".

(** The content written by a file tool is a string, or absent. *)
Definition input_ok (tool_name tool_input : pyval) : bool :=
  match tool_input with
  | PDict d =>
      if is_write tool_name then
        match Py.lookup d "content" with
        | None | Some (PStr _) => true
        | Some _ => false
        end
      else true
  | _ => true
  end.

(** A tool-use block has a hashable id and a well-typed input. *)
Definition tool_use_ok (block : pyval) : bool :=
  match block with
  | PDict d =>
      Py.hashable (Py.dict_get d "id" (PStr ""))
      && input_ok (Py.dict_get d "name" (PStr "unknown"))
           (Py.dict_get d "input" (PDict []))
  | _ => true
  end.

Definition tool_uses_ok (content : pyval) : bool :=
  match content with
  | PList items => forallb tool_use_ok (List.filter (is_block "tool_use") items)
  | _ => true
  end.

(** An assistant message of the turn. *)
Definition assistant_ok (msg : pyval) : bool :=
  message_ok msg &&
  match get_content msg with
  | Ok content => texts_ok content && tool_uses_ok content
  | Raise _ => true
  end.

(** A duration is an int that converts to a float, or absent. *)
Definition duration_ok (d : pydict) (k : string) : bool :=
  match Py.lookup d k with
  | None => true
  | Some (PInt z) => Z.abs z <? Py.float_max_int
  | Some _ => false
  end.

(** [toolUseResult] is an object with a well-typed duration, or nothing. *)
Definition tool_use_result_ok (tr : pyval) : bool :=
  match tr with
  | PDict d =>
      match Py.dict_get d "toolUseResult" (PDict []) with
      | PDict t => duration_ok t "durationMs"
      | v => negb (Py.truthy v)
      end
  | _ => true
  end.

(** A tool result item names a hashable id and carries well-typed text. *)
Definition result_item_ok (item : pyval) : bool :=
  if is_block "tool_result" item
  then Py.hashable (result_id item) && texts_ok (result_content item)
  else true.

(** A tool result record of the turn. *)
Definition tool_result_ok (tr : pyval) : bool :=
  message_ok tr && tool_use_result_ok tr &&
  match get_content tr with
  | Ok (PList items) => forallb result_item_ok items
  | _ => true
  end.

(** The two timestamps of the turn can be subtracted when both parse:
    both carry an offset or neither does. *)
Definition timestamps_ok (user_msg : pyval) (assistant_msgs : list pyval) : bool :=
  match assistant_header assistant_msgs with
  | Ok (_, _, _, _, assistant_timestamp) =>
      match time_of (Py.dict_get (match user_msg with PDict d => d | _ => [] end)
                       "timestamp" PNone),
            time_of assistant_timestamp with
      | Some u, Some a =>
          match sub_total_seconds a u with Some _ => true | None => false end
      | _, _ => true
      end
  | Raise _ => true
  end.

(** The usage the chat span is built from. *)
Definition header_usage_ok (assistant_msgs : list pyval) : bool :=
  match assistant_header assistant_msgs with
  | Ok (_, usage, _, _, _) => usage_ok usage
  | Raise _ => true
  end.

Definition well_typed_turn (user_msg : pyval)
    (assistant_msgs tool_results : list pyval) : bool :=
  Py.is_dict user_msg && message_ok user_msg
  && match get_content user_msg with
     | Ok content => texts_ok content
     | Raise _ => true
     end
  && forallb assistant_ok assistant_msgs
  && header_usage_ok assistant_msgs
  && timestamps_ok user_msg assistant_msgs
  && forallb tool_result_ok tool_results.
End Vocabulary.

(** * Invariants of the loops *)

Section Invariants.
Context `{rt : PyRuntime}.

(** A child span of the turn of [ctx]. *)
Definition child_of (ctx : turn_ctx) (kind : string) (span : pyval) : Prop :=
  span_has kind (PStr (ctx_chat_span_id ctx)) (ctx_trace_unique_id ctx) span.

(** A tool call as [collect_tool_calls] stores it: no result yet. *)
Definition fresh_call (data : pydict) : Prop :=
  Py.lookup data "output" = None /\ Py.lookup data "result_metadata" = None.

(** No key of the map equals a later one: what [map_set] maintains. *)
Fixpoint keys_distinct (m : call_map) : Prop :=
  match m with
  | [] => True
  | (k, _) :: m' =>
      Forall (fun e => Py.key_eqb k (fst e) = false) m' /\ keys_distinct m'
  end.

(** Every key of the map can be a dict key: what [add_tool_calls] checks. *)
Definition hashable_keys (m : call_map) : Prop :=
  Forall (fun e => Py.hashable (fst e) = true) m.

(** The output a call ends with: the last answer, or what it had. *)
Definition latest (prev : option pyval) (cs : list pyval) : option pyval :=
  match last cs with Some c => Some c | None => prev end.

(** The result metadata of a call is absent, or an object whose duration
    converts. *)
Definition md_ok (v : pyval) : bool :=
  match v with
  | PDict md => duration_ok md "duration_ms"
  | _ => negb (Py.truthy v)
  end.

(** What the loops over the call map keep true of each call. *)
Definition call_ok (data : pydict) : Prop :=
  input_ok (Py.dict_get data "name" PNone) (Py.dict_get data "input" PNone) = true /\
  texts_ok (Py.dict_get data "output" PNone) = true /\
  md_ok (Py.dict_get data "result_metadata" PNone) = true.



Section Numbering.
Variable session_id : string.
Variable k : Z.

(** The turns emitted so far are numbered [k + 1], [k + 2], ... and each
  carries the spans compiled under its number. *)
Definition numbered (st : loop_state) : Prop :=
turns_processed st = Z.of_nat (length (emitted st)) /\
map em_turn_num (emitted st)
  = map (fun i => k + Z.of_nat i) (seq 1 (length (emitted st))) /\
Forall (fun e => exists user assistants results,
          create_keywordsai_spans session_id (em_turn_num e) user assistants results
          = Ok (em_spans e)) (emitted st).

End Numbering.

End Invariants.

(** ** A runtime to run the model on examples

    [json.dumps] prints values in Python's default layout, right for the
    values used below (no float, no character that needs an escape);
    [json.loads] recognises the text of the values it is given;
    [fromisoformat] reads a table of timestamps; [strip] knows the ASCII
    white space. *)
Module Example.

Definition quote : string := String (ascii_of_nat 34) EmptyString.

Fixpoint dumps (v : pyval) : string :=
  match v with
  | PNone => "null"
  | PBool true => "true"
  | PBool false => "false"
  | PInt z => pretty z
  | PFloat _ => "0.0"
  | PStr s => quote +:+ s +:+ quote
  | PList l =>
      "[" +:+
      (fix items (l : list pyval) : string :=
         match l with
         | [] => ""
         | [x] => dumps x
         | x :: l' => dumps x +:+ ", " +:+ items l'
         end) l +:+ "]"
  | PDict d =>
      "{" +:+
      (fix members (d : pydict) : string :=
         match d with
         | [] => ""
         | [(k, x)] => quote +:+ k +:+ quote +:+ ": " +:+ dumps x
         | (k, x) :: d' =>
             quote +:+ k +:+ quote +:+ ": " +:+ dumps x +:+ ", " +:+ members d'
         end) d +:+ "}"
  end.

Definition is_space (c : ascii) : bool :=
  let n := nat_of_ascii c in
  ((9 <=? n) && (n <=? 13) || (28 <=? n) && (n <=? 32))%nat.

Fixpoint lstrip (s : string) : string :=
  match s with
  | String c s' => if is_space c then lstrip s' else s
  | EmptyString => EmptyString
  end.

Fixpoint rstrip (s : string) : string :=
  match s with
  | String c s' =>
      match rstrip s' with
      | EmptyString => if is_space c then EmptyString else String c EmptyString
      | r => String c r
      end
  | EmptyString => EmptyString
  end.

(** A timestamp of the table: offset-aware or naive, and its second. *)
Definition stamp : Type := bool * Z.

Definition runtime (known : list pyval) (stamps : list (string * stamp))
  : PyRuntime :=
  {| datetime := stamp;
     fromisoformat := fun s =>
       snd <$> List.find (fun e => String.eqb (fst e) s) stamps;
     sub_total_seconds := fun a b =>
       if Bool.eqb (fst a) (fst b) then
         match Py.float_of_Z (snd a - snd b) with
         | Ok f => Some f
         | Raise _ => None
         end
       else None;
     utcnow_isoformat := "2024-01-01T00:00:09+00:00";
     str_strip := fun s => rstrip (lstrip s);
     json_loads := fun s => Ok (List.find (fun v => String.eqb (dumps v) s) known);
     json_dumps := dumps;
     json_dumps_indent2 := dumps;
     py_repr := dumps |}.

(** Records of a transcript. *)
Definition user (text : string) : pyval :=
  PDict [("type", PStr "user");
         ("message", PDict [("role", PStr "user"); ("content", PStr text)])].

Definition assistant (id : string) (content : list pyval) : pyval :=
  PDict [("type", PStr "assistant");
         ("message", PDict [("id", PStr id); ("model", PStr "x");
                            ("content", PList content)])].

Definition text (s : string) : pyval :=
  PDict [("type", PStr "text"); ("text", PStr s)].

Definition thinking (s : string) : pyval :=
  PDict [("type", PStr "thinking"); ("thinking", PStr s)].

Definition tool_use (id name : string) (input : pydict) : pyval :=
  PDict [("type", PStr "tool_use"); ("id", PStr id); ("name", PStr name);
         ("input", PDict input)].

Definition tool_result (id : string) (content : string) : pyval :=
  PDict [("type", PStr "user");
         ("message",
          PDict [("role", PStr "user");
                 ("content",
                  PList [PDict [("type", PStr "tool_result");
                                ("tool_use_id", PStr id);
                                ("content", PStr content)]])])].

(** The text of a transcript with these records, one per line. *)
Fixpoint transcript (records : list pyval) : string :=
  match records with
  | [] => ""
  | r :: rest => dumps r +:+ Py.nl +:+ transcript rest
  end.

(** A fragment of an assistant message that carries no identifier. *)
Definition assistant_part (content : list pyval) : pyval :=
  PDict [("type", PStr "assistant");
         ("message", PDict [("model", PStr "x"); ("content", PList content)])].

(** *** A session of three turns *)
Definition three_turns : list pyval :=
  [user "first"; assistant "m1" [text "one"];
   user "second"; assistant "m2" [text "two"];
   user "third"; assistant "m3" [text "three"]].

(** The state file after the first two turns, and after all three. *)
Definition after_two_turns : gmap string session_state :=
  {["s" := {| last_line := 4; turn_count := 2; updated := "" |}]}.

Definition after_three_turns : gmap string session_state :=
  {["s" := {| last_line := 6; turn_count := 3; updated := "" |}]}.

(** *** A turn followed by a line that was not written out yet *)
Definition one_turn : list pyval := [user "first"; assistant "m1" [text "one"]].

Definition one_turn_and_a_half : string := transcript one_turn +:+ "{".

Definition after_one_turn : gmap string session_state :=
  {["s" := {| last_line := 2; turn_count := 1; updated := "" |}]}.

(** *** A line that parses to an array after the second user message *)
Definition stray_array : list pyval :=
  [user "first"; assistant "m1" [text "one"]; user "second"; PList [PInt 1]].

(** *** An assistant message in three fragments *)
Definition fragment (model timestamp : string) (content : list pyval) : pyval :=
  PDict [("type", PStr "assistant");
         ("message", PDict [("id", PStr "m1"); ("model", PStr model);
                            ("content", PList content)]);
         ("timestamp", PStr timestamp)].

Definition fragments : list pyval :=
  [fragment "x" "2024-01-01T00:00:01Z" [thinking "hm"; text "a"];
   fragment "y" "2024-01-01T00:00:02Z" [text "b"];
   fragment "z" "2024-01-01T00:00:03Z" [tool_use "t1" "Bash" [("command", PStr "ls")]]].

(** *** A turn with two tool calls, answered in the other order *)
Definition two_calls : pyval :=
  assistant "m1" [tool_use "t1" "Read" [("file_path", PStr "a.txt")];
                  tool_use "t2" "Bash" [("command", PStr "ls")]].

Definition answers_swapped : list pyval :=
  [tool_result "t2" "two"; tool_result "t1" "one"].

(** *** A tool result that arrives after the next user message *)
Definition late_result : list pyval :=
  [user "run it"; assistant "m1" [tool_use "t1" "Bash" [("command", PStr "ls")]];
   user "next"; tool_result "t1" "file.txt"; assistant "m2" [text "ok"]].

(** *** A fragment without identifier before any message with one *)
Definition early_part : list pyval :=
  [user "hi"; assistant_part [text "lost"]; assistant "m1" [text "kept"]].

(** The loop after [user "hi"] and a first fragment of message [m1]. *)
Definition open_message : loop_state :=
  {| turns_processed := 0;
     current_user := user "hi";
     current_assistants := [];
     current_assistant_parts := [assistant "m1" [text "a"]];
     current_msg_id := PStr "m1";
     current_tool_results := [];
     emitted := [];
     logged := [] |}.

(** *** A turn and the user message of the next *)
Definition dangling : list pyval :=
  [user "first"; assistant "m1" [text "one"]; user "second"].

(** *** An assistant message whose usage has a null token count *)
Definition null_count : pyval :=
  PDict [("type", PStr "assistant");
         ("message",
          PDict [("id", PStr "m1"); ("model", PStr "x");
                 ("content", PList [text "ok"]);
                 ("usage", PDict [("input_tokens", PNone);
                                  ("output_tokens", PInt 5)])])].

(** *** A turn with every kind of field *)
Definition stamps : list (string * stamp) :=
  [("2024-01-01T00:00:00+00:00", (true, 0)); ("2024-01-01T00:00:03+00:00", (true, 3))].

Definition full_user : pyval :=
  PDict [("type", PStr "user");
         ("message", PDict [("role", PStr "user");
                            ("content", PList [text "do"; PStr "it"])]);
         ("timestamp", PStr "2024-01-01T00:00:00Z")].

Definition full_assistant : pyval :=
  PDict [("type", PStr "assistant");
         ("message",
          PDict [("id", PStr "m1");
                 ("content",
                  PList [thinking "plan"; text "done";
                         tool_use "t1" "Write"
                           [("file_path", PStr "a.txt"); ("content", PStr "x")]]);
                 ("usage", PDict [("input_tokens", PInt 7);
                                  ("cache_read_input_tokens", PInt 2)])]);
         ("timestamp", PStr "2024-01-01T00:00:03Z")].

Definition full_result : pyval :=
  PDict [("type", PStr "user");
         ("message",
          PDict [("role", PStr "user");
                 ("content",
                  PList [PDict [("type", PStr "tool_result");
                                ("tool_use_id", PStr "t1");
                                ("content", PList [text "written"])]])]);
         ("toolUseResult", PDict [("durationMs", PInt 1500)]);
         ("timestamp", PStr "2024-01-01T00:00:02Z")].

(** The runtime of the examples. *)
Definition rt : PyRuntime :=
  runtime (three_turns ++ late_result ++ early_part ++ dangling ++ stray_array)
    stamps.

(** The turn with two tool calls as a transcript, and a runtime that
    reads it. *)
Definition answered_turn : list pyval := user "x" :: two_calls :: answers_swapped.

Definition rt_answered : PyRuntime := runtime answered_turn stamps.

End Example.

(** * Finding the transcript

    [find_latest_transcript] looks through [~/.claude/projects].  The
    directory is given as its entries in the order [iterdir] yields
    them, each project directory with its [*.jsonl] files in the order
    [glob] yields them; listing the directories and [stat] are taken to
    succeed. *)

(** A [*.jsonl] file of a project directory: the stem of its name, its
    modification time ([st_mtime], a float) and its text, [None] when
    reading it raises [IOError] or [UnicodeDecodeError]. *)
Record transcript_file : Type := {
  tf_stem : string;
  tf_mtime : float;
  tf_text : option string;
}.

(** An entry of the projects directory. *)
Inductive project_entry : Type :=
  | ProjectDir (transcripts : list transcript_file)
  | NotADir.

(** The debug lines of [find_latest_transcript] (written when [DEBUG]
    is on). *)
Inductive find_log : Type :=
  | DebugNoProjects
  | DebugFound (session_id : pyval)
  | DebugReadError
  | DebugNoTranscripts.

(** [except (json.JSONDecodeError, IOError, IndexError,
    UnicodeDecodeError)]: of the exceptions of the embedding, the clause
    catches [IndexError]; a [ValueError] that is no [JSONDecodeError]
    and a [RecursionError] pass through. *)
Definition find_catches (e : exn) : bool :=
  match e with IndexError => true | _ => false end.

Section Finding.
Context `{rt : PyRuntime}.

(** [if mtime > latest_mtime: latest_mtime = mtime; latest_file = ...] *)
Definition newer (latest : option transcript_file * float) (f : transcript_file)
  : option transcript_file * float :=
  if PrimFloat.ltb (snd latest) (tf_mtime f) then (Some f, tf_mtime f) else latest.

(** One iteration of [for project_dir in projects_dir.iterdir():]. *)
Definition scan_project (latest : option transcript_file * float)
    (entry : project_entry) : option transcript_file * float :=
  match entry with
  | ProjectDir transcripts => fold_left newer transcripts latest
  | NotADir => latest
  end.

(** [latest_file] after the loops; [latest_mtime] starts as the int 0,
    which compares with a float as the float 0 does. *)
Definition latest_transcript (entries : list project_entry) : option transcript_file :=
  fst (fold_left scan_project entries (None, 0%float)).

(** [find_latest_transcript]: the debug lines, and the session
    identifier with the file, or [None], or the exception that leaves
    the function. *)
Definition find_latest_transcript (projects : option (list project_entry))
  : list find_log * result (option (pyval * transcript_file)) :=
  match projects with
  | None => ([DebugNoProjects], Ok None)
  | Some entries =>
      match latest_transcript entries with
      | Some latest_file =>
          match tf_text latest_file with
          | None => ([DebugReadError], Ok None)
          | Some text =>
              match Py.split_lines text with
              | [] => ([DebugReadError], Ok None)
              | first_line :: _ =>
                  if negb (String.eqb first_line "") then
                    match json_loads first_line with
                    | Ok None => ([DebugReadError], Ok None)
                    | Raise e =>
                        if find_catches e then ([DebugReadError], Ok None)
                        else ([], Raise e)
                    | Ok (Some first_msg) =>
                        match Py.get first_msg "sessionId"
                                (PStr (tf_stem latest_file)) with
                        | Ok session_id =>
                            ([DebugFound session_id],
                             Ok (Some (session_id, latest_file)))
                        | Raise e => ([], Raise e)
                        end
                    end
                  else ([DebugNoTranscripts], Ok None)
              end
          end
      | None => ([DebugNoTranscripts], Ok None)
      end
  end.

(** The transcripts of the project directories, in the order in which
    the loops meet them. *)
Definition all_transcripts (entries : list project_entry) : list transcript_file :=
  concat (map (fun e => match e with
                        | ProjectDir transcripts => transcripts
                        | NotADir => []
                        end) entries).

(** What the loops keep true of [latest_file] and [latest_mtime], for
    the files gone through so far. *)
Definition latest_of (seen : list transcript_file)
    (latest : option transcript_file * float) : Prop :=
  (forall g, In g seen -> PrimFloat.ltb (snd latest) (tf_mtime g) = false) /\
  match fst latest with
  | Some f =>
      In f seen /\ snd latest = tf_mtime f /\
      PrimFloat.ltb 0%float (tf_mtime f) = true
  | None => snd latest = 0%float
  end.

End Finding.

(** * Vocabulary of the further properties *)

Section MoreVocabulary.
Context `{rt : PyRuntime}.

(** [len(s)] of a string. *)
Definition str_len (s : string) : Z := Z.of_nat (String.length s).

(** The tools whose object input is shown as a path or a command line. *)
Definition is_path_or_command (tool_name : pyval) : bool :=
  Py.eq_str tool_name "Read" || Py.eq_str tool_name "Bash"
  || Py.eq_str tool_name "Shell".

(** The string a content item of a tool output counts with: the text of
    a text block (the empty string when it has none), or the item itself
    when it is a string. *)
Definition output_text (item : pyval) : option string :=
  match item with
  | PDict d =>
      if Py.eq_str (Py.dict_get d "type" PNone) "text" then
        match Py.dict_get d "text" (PStr "") with
        | PStr t => Some t
        | _ => None
        end
      else None
  | PStr t => Some t
  | _ => None
  end.

(** The characters of a list of strings, together. *)
Definition total_len (ts : list string) : Z :=
  fold_right (fun t n => str_len t + n) 0 ts.

(** No character of [s] is a capital Z. *)
Fixpoint no_Z (s : string) : bool :=
  match s with
  | EmptyString => true
  | String c s' => negb (Ascii.eqb c "Z"%char) && no_Z s'
  end.

(** *** What the root span is built from *)

(** A field of the ["message"] object of the first assistant message,
    [None] when there is no such field. *)
Definition header_field (assistant_msgs : list pyval) (k : string) : pyval :=
  match head assistant_msgs with
  | Some first => default PNone (message_field first k)
  | None => PNone
  end.

(** The timestamp of the first assistant message; it is read only of a
    record with a ["message"] key. *)
Definition assistant_timestamp (assistant_msgs : list pyval) : pyval :=
  match head assistant_msgs with
  | Some (PDict d) =>
      if Py.contains d "message" then Py.dict_get d "timestamp" PNone else PNone
  | _ => PNone
  end.

(** The timestamp of the user message. *)
Definition user_timestamp (user_msg : pyval) : pyval :=
  default PNone (record_field user_msg "timestamp").

(** [v] when it is truthy: the condition under which optional fields are
    set. *)
Definition when_truthy (v : pyval) : option pyval :=
  if Py.truthy v then Some v else None.

(** The service tier named by a usage object. *)
Definition service_tier_of (usage : pyval) : pyval :=
  match usage with
  | PDict u => Py.dict_get u "service_tier" PNone
  | _ => PNone
  end.

(** A token count when it is positive. *)
Definition when_positive (z : Z) : option pyval :=
  if 0 <? z then Some (PInt z) else None.

(** The chat messages of the root span. *)
Definition chat_message (role text : string) : pyval :=
  PDict [("role", PStr role); ("content", PStr text)].

(** *** Thinking spans *)

(** The thinking spans of a span list, in order. *)
Definition thinking_spans_in (spans : list pyval) : list pyval :=
  List.filter (is_kind "generation") spans.

(** The text of a thinking block, when it is not empty. *)
Definition thinking_text (item : pyval) : option pyval :=
  match item with
  | PDict d =>
      if Py.eq_str (Py.dict_get d "type" PNone) "thinking"
      then when_truthy (Py.dict_get d "thinking" (PStr ""))
      else None
  | _ => None
  end.

(** The thinking texts of an assistant message, in order: those of the
    content under its ["message"] key. *)
Definition thinking_texts (assistant_msg : pyval) : list pyval :=
  match message_field assistant_msg "content" with
  | Some (PList items) => omap thinking_text items
  | _ => []
  end.

(** How a child span is told from its siblings: its identifier, its
    name and its output. *)
Definition span_label (span : pyval) : option pyval * option pyval * option pyval :=
  (record_field span "span_unique_id", record_field span "span_name",
   record_field span "output").

(** The label of the thinking span at index [i] (from 0) of turn [n]. *)
Definition thinking_label (n : Z) (i : nat) (text : pyval)
  : option pyval * option pyval * option pyval :=
  (Some (PStr ("turn_" +:+ pretty n +:+ "_thinking_" +:+ pretty (Z.of_nat (S i)))),
   Some (PStr ("Thinking " +:+ pretty (Z.of_nat (S i)))),
   Some text).

(** *** Tool calls and their results *)

(** The tool-use blocks of the assistant messages of a turn, in order. *)
Definition tool_use_blocks (assistant_msgs : list pyval) : list pyval :=
  concat (map (fun m => match get_tool_calls m with
                        | Ok blocks => blocks
                        | Raise _ => []
                        end) assistant_msgs).

(** [block.get(k, dflt)] of a block that is a dict. *)
Definition block_field (block : pyval) (k : string) (dflt : pyval) : pyval :=
  match block with
  | PDict d => Py.dict_get d k dflt
  | _ => dflt
  end.

(** The blocks that carry the identifier [s]; a block without
    identifier carries the empty one. *)
Definition blocks_with_id (s : string) (blocks : list pyval) : list pyval :=
  List.filter (fun b => Py.eq_str (block_field b "id" (PStr "")) s) blocks.

(** The keys of a stored call that a result does not set. *)
Definition call_key (k : string) : Prop :=
  k <> "output" /\ k <> "result_metadata" /\ k <> "result_timestamp".

(** The tool result records with an item that answers the call [key]. *)
Definition answering (key : pyval) (tool_results : list pyval) : list pyval :=
  List.filter (fun tr => nonempty (results_in key tr)) tool_results.

(** The metadata a tool result record hands to the calls it answers. *)
Definition metadata_of (tr : pyval) : option pyval :=
  match result_metadata tr with
  | Ok md => Some (PDict md)
  | Raise _ => None
  end.

(** What a stored call has of a tool-use block: its name and its input. *)
Definition call_of_block (data : pydict) (block : pyval) : Prop :=
  Py.lookup data "name" = Some (block_field block "name" (PStr "unknown")) /\
  Py.lookup data "input" = Some (block_field block "input" (PDict [])).

(** What the loops that collect the calls keep true of the map, for the
    blocks gone through so far: keys are distinct, a call with a string
    identifier holds the last block that carries it, and every
    identifier met has a call. *)
Definition calls_follow (blocks : list pyval) (m : call_map) : Prop :=
  keys_distinct m /\
  (forall i s data, m !! i = Some (PStr s, data) ->
     exists b, last (blocks_with_id s blocks) = Some b /\ call_of_block data b) /\
  (forall s, blocks_with_id s blocks <> [] ->
     exists i data, m !! i = Some (PStr s, data)).

(** *** Runs *)

(** What a line of the transcript adds to the new messages: nothing when
    it is blank or not JSON. *)
Definition parsed_line (line : string) : option pyval :=
  if String.eqb (str_strip line) "" then None
  else match json_loads line with Ok v => v | Raise _ => None end.

(** The exception that leaves the parsing loop at a line, if one does: a
    blank line is not given to [json.loads], and of what [json.loads]
    raises only [json.JSONDecodeError] is caught. *)
Definition line_error (line : string) : option exn :=
  if String.eqb (str_strip line) "" then None
  else match json_loads line with Raise e => Some e | Ok _ => None end.

(** The turns whose POST the log reports as failed, in order. *)
Definition failed_turns (log : list log_entry) : list Z :=
  omap (fun l => match l with ErrorSendFailed n => Some n | _ => None end) log.

(** The turns of the emissions that went through, or did not. *)
Definition turns_where (delivered : bool) (es : list emission) : list Z :=
  map em_turn_num (List.filter (fun e => Bool.eqb (em_delivered e) delivered) es).

(** The error entries of the log are the emissions that failed. *)
Definition log_matches (st : loop_state) : Prop :=
  failed_turns (logged st) = turns_where false (emitted st).

(** The trace identifier of turn [n] of a session. *)
Definition trace_id (session_id : string) (n : Z) : string :=
  session_id +:+ "_turn_" +:+ pretty n.

(** *** Transcripts whose records have the types of the log format *)

(** The timestamp of a record. *)
Definition record_timestamp (msg : pyval) : pyval :=
  default PNone (record_field msg "timestamp").

(** Two timestamps can be subtracted when both parse: both carry an
    offset or neither does. *)
Definition stamps_agree (a b : pyval) : bool :=
  match time_of a, time_of b with
  | Some x, Some y =>
      match sub_total_seconds y x with Some _ => true | None => false end
  | _, _ => true
  end.

(** Any two timestamps of the records can be subtracted. *)
Definition stamps_compatible (msgs : list pyval) : bool :=
  forallb (fun u =>
             forallb (fun a => stamps_agree (record_timestamp u) (record_timestamp a))
               msgs) msgs.

(** A record of the log format: an object whose fields, where they are
    there, have the types asked of the messages of a well-typed turn,
    whichever part the record comes to play in a turn. *)
Definition record_ok (msg : pyval) : bool :=
  Py.is_dict msg && assistant_ok msg && tool_result_ok msg
  && usage_ok (default PNone (message_field msg "usage")).

(** What the grouping loop keeps true of a record it holds: it is of the
    log format and its timestamp is one of [stamps]. *)
Definition held_ok (stamps : list pyval) (msg : pyval) : Prop :=
  record_ok msg = true /\ In (record_timestamp msg) stamps.

Definition loop_ok (stamps : list pyval) (st : loop_state) : Prop :=
  (Py.truthy (current_user st) = true -> held_ok stamps (current_user st)) /\
  Forall (held_ok stamps) (current_assistants st) /\
  Forall (held_ok stamps) (current_assistant_parts st) /\
  Forall (held_ok stamps) (current_tool_results st).

(** The blocks of a content list are well typed in each of the three
    ways a turn asks for. *)
Definition blocks_ok (blocks : list pyval) : Prop :=
  forallb text_item_ok blocks = true /\
  forallb tool_use_ok (List.filter (is_block "tool_use") blocks) = true /\
  forallb result_item_ok blocks = true.

End MoreVocabulary.

(** ** More examples *)

Module MoreExamples.

(** A text of [n] characters. *)
Definition text_of_length (n : nat) : string :=
  string_of_list_ascii (repeat "x"%char n).

(** A tool output: a short text, a text that does not fit, an image. *)
Definition long_output : list pyval :=
  [Example.text "abc"; PStr (text_of_length 4000);
   PDict [("type", PStr "image")]].

(** An assistant message with two tool calls under one identifier. *)
Definition same_id_twice : pyval :=
  Example.assistant "m1"
    [Example.tool_use "t1" "Read" [("file_path", PStr "a.txt")];
     Example.tool_use "t1" "Bash" [("command", PStr "ls")]].

(** A record that is neither a user nor an assistant record. *)
Definition summary : pyval := PDict [("type", PStr "summary")].

(** The first record of a transcript, with the session identifier. *)
Definition session_record : pyval :=
  PDict [("sessionId", PStr "abc"); ("type", PStr "user");
         ("message", PDict [("role", PStr "user"); ("content", PStr "hi")])].

Definition rt : PyRuntime :=
  Example.runtime [session_record; PList [PInt 1]] Example.stamps.

(** Two project directories and a stray file; the transcript modified
    last is the second of the first directory. *)
Definition older : transcript_file :=
  {| tf_stem := "older"; tf_mtime := 1%float;
     tf_text := Some (Example.transcript [session_record]) |}.

Definition newest : transcript_file :=
  {| tf_stem := "newest"; tf_mtime := 3%float;
     tf_text := Some (Example.transcript [session_record]) |}.

Definition middle : transcript_file :=
  {| tf_stem := "middle"; tf_mtime := 2%float; tf_text := None |}.

Definition projects : list project_entry :=
  [ProjectDir [older; newest]; NotADir; ProjectDir [middle]].

(** A transcript that was never modified after time 0. *)
Definition epoch : transcript_file :=
  {| tf_stem := "epoch"; tf_mtime := 0%float;
     tf_text := Some (Example.transcript [session_record]) |}.

(** A transcript whose first line is an array. *)
Definition array_first : transcript_file :=
  {| tf_stem := "array"; tf_mtime := 1%float;
     tf_text := Some (Example.transcript [PList [PInt 1]]) |}.

(** An integer literal of 4301 digits, one more than [json.loads]
    converts: the runtime [rt_limit] raises [ValueError] on it. *)
Definition many_digits : string :=
  string_of_list_ascii (repeat "1"%char 4301).

Definition rt_limit : PyRuntime :=
  {| datetime := @datetime rt;
     fromisoformat := @fromisoformat rt;
     sub_total_seconds := @sub_total_seconds rt;
     utcnow_isoformat := @utcnow_isoformat rt;
     str_strip := @str_strip rt;
     json_loads := fun s =>
       if String.eqb s many_digits then Raise ValueError else @json_loads rt s;
     json_dumps := @json_dumps rt;
     json_dumps_indent2 := @json_dumps_indent2 rt;
     py_repr := @py_repr rt |}.

(** A transcript whose first line is that literal. *)
Definition digits_first : transcript_file :=
  {| tf_stem := "digits"; tf_mtime := 1%float;
     tf_text := Some (many_digits +:+ Py.nl) |}.

End MoreExamples.

(** * Proof automation *)

(** Case analysis on the monadic steps of a computation that ends in [Ok]. *)
Ltac bind_ok H :=
  repeat match type of H with
    | context [mbind _ ?m] =>
        let E := fresh "E" in
        destruct m eqn:E; cbn [mbind result_bind] in H; [|discriminate H]
    end.

(** * Properties *)

(** ** Dict lemmas *)
Lemma lookup_set_eq (d : pydict) (k : string) (v : pyval) :
  Py.lookup (Py.set d k v) k = Some v.
Proof.
  induction d as [|[k' v'] d IH]; simpl.
  - now rewrite String.eqb_refl.
  - destruct (String.eqb k' k) eqn:E; simpl; rewrite E; auto.
Qed.

Lemma lookup_set_ne (d : pydict) (k k' : string) (v : pyval) :
  k <> k' -> Py.lookup (Py.set d k v) k' = Py.lookup d k'.
Proof.
  intros Hne. induction d as [|[k0 v0] d IH]; simpl.
  - destruct (String.eqb k k') eqn:E; auto.
    apply String.eqb_eq in E. contradiction.
  - destruct (String.eqb k0 k) eqn:E; simpl.
    + apply String.eqb_eq in E. subst k0.
      destruct (String.eqb k k') eqn:E'; auto.
      apply String.eqb_eq in E'. contradiction.
    + destruct (String.eqb k0 k'); auto.
Qed.

Section MergeFacts.
Context `{rt : PyRuntime}.

Lemma merged_content_lists (parts : list pyval) (blocks : list (list pyval)) :
  Forall2 (fun p bs => message_field p "content" = Some (PList bs)) parts blocks ->
  merged_content parts = Ok (concat blocks).
Proof.
  induction 1 as [|p bs parts blocks Hp _ IH]; simpl; auto.
  rewrite IH. unfold message_field in Hp.
  destruct p as [| | | | | |d]; try discriminate.
  simpl. destruct (Py.lookup d "message") as [[| | | | | |m]|] eqn:E; try discriminate.
  simpl. unfold Py.dict_get. rewrite Hp. reflexivity.
Qed.

(** C3. For every non-empty list of assistant fragments (in particular
    the fragments that share one message identifier), each with a list
    of content blocks, [merge_assistant_parts] returns a message whose
    content is the concatenation of the fragments' block lists in
    order, and whose other fields, under ["message"] (model, usage,
    requestId, stop_reason) and at the top (timestamp), are those of
    the first fragment. *)
Theorem merge_concatenates_blocks (first : pyval) (rest : list pyval)
    (blocks : list (list pyval)) :
  Forall2 (fun p bs => message_field p "content" = Some (PList bs))
    (first :: rest) blocks ->
  exists merged,
    merge_assistant_parts (first :: rest) = Ok merged /\
    message_field merged "content" = Some (PList (concat blocks)) /\
    (forall k, k <> "content" -> message_field merged k = message_field first k) /\
    (forall k, k <> "message" -> record_field merged k = record_field first k).
Proof.
  intros H. pose proof (merged_content_lists _ _ H) as Hm.
  inversion H as [|p bs ps bss Hp Hrest]; subst.
  unfold merge_assistant_parts. rewrite Hm. simpl.
  unfold message_field in Hp.
  destruct first as [| | | | | |d]; try discriminate.
  destruct (Py.lookup d "message") as [[| | | | | |m]|] eqn:E; try discriminate.
  eexists. split; [reflexivity|]. simpl. rewrite lookup_set_eq.
  repeat split.
  - apply lookup_set_eq.
  - intros k Hk. rewrite E. apply lookup_set_ne. congruence.
  - intros k Hk. apply lookup_set_ne. congruence.
Qed.
End MergeFacts.

Section DriverFacts.
Context `{rt : PyRuntime}.
Variable net : nat -> bool.
Variable session_id : string.
Variable k : Z.

Lemma finalize_message_effects st st' :
  finalize_message st = Ok st' ->
  emitted st' = emitted st /\ logged st' = logged st /\
  turns_processed st' = turns_processed st /\
  current_user st' = current_user st /\
  current_tool_results st' = current_tool_results st.
Proof.
  unfold finalize_message.
  destruct (Py.truthy (current_msg_id st) && nonempty (current_assistant_parts st)).
  - destruct (merge_assistant_parts (current_assistant_parts st)); simpl; try discriminate.
    intros [= <-]. simpl. auto.
  - intros [= <-]. auto.
Qed.

Lemma emit_turn_numbered st st' :
  numbered session_id k st -> emit_turn net session_id k st = Ok st' -> numbered session_id k st'.
Proof.
  intros (Htp & Hnum & Hsp). unfold emit_turn.
  destruct (Py.truthy (current_user st) && nonempty (current_assistants st)).
  2:{ intros [= <-]. repeat split; auto. }
  destruct (create_keywordsai_spans _ _ _ _ _) as [spans|] eqn:Hc; simpl; try discriminate.
  intros [= <-]. unfold numbered. simpl.
  rewrite length_app. simpl. rewrite Nat.add_1_r.
  repeat split.
  - lia.
  - rewrite map_app, seq_S, map_app, Hnum. simpl. do 2 f_equal. lia.
  - apply Forall_app. split; auto. constructor; auto. simpl.
    eauto.
Qed.

Lemma step_numbered st msg st' :
  numbered session_id k st -> step net session_id k st msg = Ok st' -> numbered session_id k st'.
Proof.
  intros Hn. unfold step.
  destruct (role_of msg) as [role|]; simpl; try discriminate.
  destruct (Py.eq_str role "user").
  - destruct (is_tool_result msg) as [[]|]; simpl; try discriminate.
    + intros [= <-]. exact Hn.
    + destruct (finalize_message st) as [st1|] eqn:Hf; simpl; try discriminate.
      destruct (emit_turn net session_id k st1) as [st2|] eqn:He; simpl; try discriminate.
      intros [= <-].
      apply finalize_message_effects in Hf as (He1 & _ & Ht1 & _).
      assert (numbered session_id k st1) as Hn1.
      { destruct Hn as (A & B & C). unfold numbered. rewrite He1, Ht1. auto. }
      apply (emit_turn_numbered _ _ Hn1) in He. exact He.
  - destruct (Py.eq_str role "assistant").
    2:{ intros [= <-]. exact Hn. }
    destruct (msg_id_of msg) as [mid|]; simpl; try discriminate.
    destruct (negb (Py.truthy mid)); [intros [= <-]; exact Hn|].
    destruct (Py.eqb mid (current_msg_id st)).
    + intros [= <-]. exact Hn.
    + destruct (finalize_message st) as [st1|] eqn:Hf; simpl; try discriminate.
      intros [= <-].
      apply finalize_message_effects in Hf as (He1 & _ & Ht1 & _).
      destruct Hn as (A & B & C). unfold numbered. simpl. rewrite He1, Ht1. auto.
Qed.

Lemma assemble_numbered msgs st st' err :
  numbered session_id k st -> assemble net session_id k msgs st = (st', err) -> numbered session_id k st'.
Proof.
  revert st. induction msgs as [|msg msgs IH]; simpl; intros st Hn.
  - intros [= <- _]. exact Hn.
  - destruct (step net session_id k st msg) as [st1|] eqn:Hs.
    + apply IH. eapply step_numbered; eauto.
    + intros [= <- _]. exact Hn.
Qed.
End DriverFacts.

Section RunFacts.
Context `{rt : PyRuntime}.

Lemma new_messages_caught_up lines last :
  Z.of_nat (length lines) <= last -> new_messages lines last = Ok [].
Proof.
  intros H. unfold new_messages.
  replace (Z.to_nat (Z.of_nat (length lines) - last)) with O by lia. reflexivity.
Qed.

Lemma initial_numbered sid k n : numbered sid k (initial_state n).
Proof. repeat split; simpl; auto. Qed.

Lemma process_transcript_caught_up net sid transcript state :
  total_lines transcript <= stored_last_line state sid ->
  process_transcript net sid transcript state
  = {| run_emitted := [];
       run_logged := [DebugNoNewLines (stored_last_line state sid)
                        (total_lines transcript)];
       run_saved := None;
       run_result := Ok 0 |}.
Proof.
  intros H. unfold process_transcript, total_lines in *.
  apply Z.leb_le in H. rewrite H. reflexivity.
Qed.

(** What a run that reaches the end of [process_transcript] leaves. *)
Lemma process_transcript_completed net sid transcript state msgs st st1 st2 :
  new_messages (read_lines transcript) (stored_last_line state sid) = Ok msgs ->
  msgs <> [] ->
  assemble net sid (stored_turns state sid) msgs (initial_state (length msgs))
    = (st, None) ->
  finalize_message st = Ok st1 ->
  emit_turn net sid (stored_turns state sid) st1 = Ok st2 ->
  process_transcript net sid transcript state
  = {| run_emitted := emitted st2;
       run_logged := logged st2;
       run_saved :=
         Some (<[sid := {| last_line := total_lines transcript;
                           turn_count := stored_turns state sid + turns_processed st2;
                           updated := utcnow_isoformat |}]> state);
       run_result := Ok (turns_processed st2) |}.
Proof.
  intros Hnew Hne Hasm Hfin Hemit. unfold process_transcript, total_lines.
  destruct (Z.of_nat (length (read_lines transcript)) <=? stored_last_line state sid) eqn:Hle.
  { apply Z.leb_le in Hle. rewrite (new_messages_caught_up _ _ Hle) in Hnew.
    congruence. }
  rewrite Hnew. destruct msgs as [|m ms]; [congruence|].
  rewrite Hasm, Hfin, Hemit. reflexivity.
Qed.

(** A run returns normally only by one of its three exits. *)
Lemma process_transcript_returns net sid transcript state n :
  run_result (process_transcript net sid transcript state) = Ok n ->
  (total_lines transcript <= stored_last_line state sid) \/
  (new_messages (read_lines transcript) (stored_last_line state sid) = Ok []) \/
  (exists msgs st st1 st2,
     new_messages (read_lines transcript) (stored_last_line state sid) = Ok msgs /\
     msgs <> [] /\
     assemble net sid (stored_turns state sid) msgs (initial_state (length msgs))
       = (st, None) /\
     finalize_message st = Ok st1 /\
     emit_turn net sid (stored_turns state sid) st1 = Ok st2 /\
     n = turns_processed st2).
Proof.
  unfold process_transcript, total_lines. cbv zeta.
  destruct (Z.of_nat (length (read_lines transcript)) <=? stored_last_line state sid) eqn:Hle.
  { left. now apply Z.leb_le. }
  destruct (new_messages _ _) as [[|m ms]|e] eqn:Hnew; cbn [run_result]; try discriminate.
  { right. left. reflexivity. }
  destruct (assemble net sid _ _ _) as [st [e|]] eqn:Hasm; cbn [run_result]; try discriminate.
  destruct (finalize_message st) as [st1|] eqn:Hfin; cbn [run_result]; try discriminate.
  destruct (emit_turn net sid _ st1) as [st2|] eqn:Hemit; cbn [run_result]; try discriminate.
  intros [= <-]. right. right. exists (m :: ms), st, st1, st2.
  repeat split; auto; discriminate.
Qed.

(** The loop state a completed run ends in is numbered. *)
Lemma completed_state_numbered net sid k msgs st st1 st2 :
  assemble net sid k msgs (initial_state (length msgs)) = (st, None) ->
  finalize_message st = Ok st1 ->
  emit_turn net sid k st1 = Ok st2 ->
  numbered sid k st2.
Proof.
  intros Hasm Hfin Hemit.
  pose proof (assemble_numbered net sid k _ _ _ _ (initial_numbered _ _ _) Hasm) as Hn.
  pose proof (finalize_message_effects _ _ Hfin) as (He1 & _ & Ht1 & _).
  assert (numbered sid k st1) as Hn1.
  { destruct Hn as (A & B & C). unfold numbered. rewrite He1, Ht1. auto. }
  exact (emit_turn_numbered _ _ _ _ _ Hn1 Hemit).
Qed.
End RunFacts.

Section Delivery.
Context `{rt : PyRuntime}.
Variable sid : string.
Variable k : Z.




End Delivery.

Section DeliveryRun.
Context `{rt : PyRuntime}.


End DeliveryRun.

Section Cursor.
Context `{rt : PyRuntime}.

Lemma py_index_drop (lines : list string) (i j : nat) :
  py_index lines (Z.of_nat (i + j)) = py_index (drop i lines) (Z.of_nat j).
Proof.
  unfold py_index. rewrite length_drop, lookup_drop.
  destruct (Z.of_nat (i + j) <? 0) eqn:E1; [apply Z.ltb_lt in E1; lia|].
  destruct (Z.of_nat j <? 0) eqn:E2; [apply Z.ltb_lt in E2; lia|].
  rewrite !Nat2Z.id.
  destruct (Z.of_nat (i + j) <? Z.of_nat (length lines)) eqn:E3;
    destruct (Z.of_nat j <? Z.of_nat (length lines - i)) eqn:E4;
    destruct (0 <=? Z.of_nat (i + j)) eqn:E5;
    destruct (0 <=? Z.of_nat j) eqn:E6; simpl; auto;
    rewrite ?Z.ltb_lt, ?Z.ltb_ge, ?Z.leb_le, ?Z.leb_gt in *; lia.
Qed.

Lemma parse_range_drop (lines : list string) (i : nat) (j : nat) (count : nat) :
  parse_range lines (Z.of_nat (i + j)) count
  = parse_range (drop i lines) (Z.of_nat j) count.
Proof.
  revert j. induction count as [|c IH]; simpl; intros j; auto.
  rewrite py_index_drop.
  replace (Z.of_nat (i + j) + 1) with (Z.of_nat (i + S j)) by lia.
  replace (Z.of_nat j + 1) with (Z.of_nat (S j)) by lia.
  rewrite IH. reflexivity.
Qed.

(** A run whose cursor is [n] reads the lines from index [n] on, and no
    line before. *)
Lemma new_messages_drop (lines : list string) (n : nat) :
  new_messages lines (Z.of_nat n)
  = parse_range (drop n lines) 0 (length lines - n).
Proof.
  unfold new_messages.
  replace (Z.to_nat (Z.of_nat (length lines) - Z.of_nat n)) with (length lines - n)%nat by lia.
  pose proof (parse_range_drop lines n 0 (length lines - n)) as H.
  rewrite Nat.add_0_r in H. exact H.
Qed.

Lemma process_transcript_nothing_parsed net sid transcript state :
  stored_last_line state sid < total_lines transcript ->
  new_messages (read_lines transcript) (stored_last_line state sid) = Ok [] ->
  process_transcript net sid transcript state
  = {| run_emitted := []; run_logged := []; run_saved := None; run_result := Ok 0 |}.
Proof.
  intros Hlt Hnew. unfold process_transcript, total_lines in *. cbv zeta.
  destruct (Z.of_nat (length (read_lines transcript)) <=? stored_last_line state sid) eqn:E.
  { apply Z.leb_le in E. lia. }
  rewrite Hnew. reflexivity.
Qed.

Lemma emit_turn_skips net sid k st :
  Py.truthy (current_user st) && nonempty (current_assistants st) = false ->
  emit_turn net sid k st = Ok st.
Proof. intros H. unfold emit_turn. rewrite H. reflexivity. Qed.

(** C6. When the loop reaches the end of the new records and the open
    turn, after the message in progress is finalized, has a user
    message but no assistant message, that turn is not compiled (the
    run emits what the loop emitted and nothing more), the run returns
    normally and the saved state has [last_line] at the total line
    count; so a later run, whatever the transcript has become, parses
    only the lines from that index on. *)
Theorem dangling_user_is_deferred net sid transcript state msgs st st1 :
  new_messages (read_lines transcript) (stored_last_line state sid) = Ok msgs ->
  assemble net sid (stored_turns state sid) msgs (initial_state (length msgs))
    = (st, None) ->
  finalize_message st = Ok st1 ->
  Py.truthy (current_user st1) = true ->
  current_assistants st1 = [] ->
  let r := process_transcript net sid transcript state in
  run_result r = Ok (turns_processed st) /\
  run_emitted r = emitted st /\
  run_saved r
    = Some (<[sid := {| last_line := total_lines transcript;
                        turn_count := stored_turns state sid + turns_processed st;
                        updated := utcnow_isoformat |}]> state) /\
  forall later : string,
    new_messages (read_lines later) (stored_last_line (persisted_after state r) sid)
    = parse_range (drop (length (read_lines transcript)) (read_lines later)) 0
        (length (read_lines later) - length (read_lines transcript)).
Proof.
  intros Hnew Hasm Hfin Huser Hnone.
  assert (msgs <> []) as Hne.
  { intros ->. simpl in Hasm. injection Hasm as <-.
    unfold finalize_message in Hfin. simpl in Hfin. injection Hfin as <-.
    simpl in Huser. discriminate. }
  assert (emit_turn net sid (stored_turns state sid) st1 = Ok st1) as Hemit.
  { apply emit_turn_skips. rewrite Hnone. apply andb_false_r. }
  pose proof (finalize_message_effects _ _ Hfin) as (He1 & _ & Ht1 & _).
  cbv zeta.
  rewrite (process_transcript_completed _ _ _ _ _ _ _ _ Hnew Hne Hasm Hfin Hemit).
  unfold persisted_after. simpl. rewrite He1, Ht1. repeat split.
  intros later. unfold stored_last_line. rewrite lookup_insert_eq. simpl.
  unfold total_lines. apply new_messages_drop.
Qed.
End Cursor.

Section Continuation.
Context `{rt : PyRuntime}.

Lemma merged_content_snoc (parts : list pyval) (f : pyval) bs c :
  merged_content parts = Ok bs -> get_content f = Ok c ->
  merged_content (parts ++ [f]) = Ok (bs ++ part_blocks c).
Proof.
  revert bs. induction parts as [|p parts IH]; simpl; intros bs Hbs Hc.
  - injection Hbs as <-. rewrite Hc. simpl. now rewrite app_nil_r.
  - destruct (get_content p) as [cp|]; simpl in *; try discriminate.
    destruct (merged_content parts) as [more|]; simpl in *; try discriminate.
    injection Hbs as <-. rewrite (IH more eq_refl Hc). simpl.
    now rewrite app_assoc.
Qed.

(** What [merge_assistant_parts] returns carries the merged blocks as
    its content. *)
Lemma merge_assistant_parts_content (parts : list pyval) (m : pyval) :
  parts <> [] -> merge_assistant_parts parts = Ok m ->
  exists bs, merged_content parts = Ok bs /\ get_content m = Ok (PList bs).
Proof.
  intros Hne. destruct parts as [|first rest]; [congruence|].
  unfold merge_assistant_parts.
  destruct (merged_content (first :: rest)) as [bs|]; simpl; try discriminate.
  intros H. exists bs. split; auto.
  destruct first as [| | | | | |d]; try discriminate.
  destruct (Py.lookup d "message") as [[| | | | | |md]|] eqn:E; try discriminate;
    injection H as <-; simpl.
  - rewrite lookup_set_eq. simpl. unfold Py.dict_get. now rewrite lookup_set_eq.
  - rewrite lookup_set_ne by discriminate. rewrite E.
    unfold Py.dict_get. now rewrite lookup_set_eq.
Qed.

Lemma merge_assistant_parts_snoc (parts : list pyval) (f m0 : pyval) bs c :
  parts <> [] -> merge_assistant_parts parts = Ok m0 ->
  merged_content parts = Ok bs -> get_content f = Ok c ->
  exists m1, merge_assistant_parts (parts ++ [f]) = Ok m1 /\
             get_content m1 = Ok (PList (bs ++ part_blocks c)).
Proof.
  intros Hne Hm Hbs Hc. destruct parts as [|first rest]; [congruence|].
  pose proof (merged_content_snoc _ _ _ _ Hbs Hc) as Hsnoc.
  assert (exists m1, merge_assistant_parts ((first :: rest) ++ [f]) = Ok m1) as [m1 Hm1].
  { revert Hm. unfold merge_assistant_parts. rewrite Hsnoc, Hbs. simpl.
    destruct first as [| | | | | |d]; try discriminate.
    destruct (Py.lookup d "message") as [[| | | | | |md]|]; try discriminate; eauto. }
  exists m1. split; auto.
  assert ((first :: rest) ++ [f] <> []) as Hne' by (simpl; discriminate).
  destruct (merge_assistant_parts_content _ _ Hne' Hm1) as (bs' & H1 & H2).
  rewrite Hsnoc in H1. injection H1 as <-. exact H2.
Qed.

Lemma msg_id_of_content (f id : pyval) :
  msg_id_of f = Ok id -> exists c, get_content f = Ok c.
Proof.
  unfold msg_id_of, get_content.
  destruct f as [| | | | | |d]; eauto.
  destruct (Py.lookup d "message") as [[| | | | | |md]|]; simpl; try discriminate; eauto.
Qed.

Lemma nonempty_true {A} (l : list A) : l <> [] -> nonempty l = true.
Proof. destruct l; [congruence|reflexivity]. Qed.

Lemma finalize_message_merges st m :
  Py.truthy (current_msg_id st) = true ->
  current_assistant_parts st <> [] ->
  merge_assistant_parts (current_assistant_parts st) = Ok m ->
  exists st', finalize_message st = Ok st' /\
              current_assistants st' = current_assistants st ++ [m].
Proof.
  intros Hid Hne Hm. unfold finalize_message.
  rewrite Hid, (nonempty_true _ Hne), Hm. simpl. eexists. split; reflexivity.
Qed.

(** C5 (amended). An assistant fragment without a message identifier
    that arrives while a message with an identifier is in progress is
    added to the parts of that message, and the assistant message
    finalized from them carries the blocks of the earlier parts
    followed by the blocks of the fragment. *)
Theorem idless_fragment_joins_open_message net sid k st f id m0 :
  Py.truthy (current_msg_id st) = true ->
  current_assistant_parts st <> [] ->
  role_of f = Ok (PStr "assistant") ->
  msg_id_of f = Ok id ->
  Py.truthy id = false ->
  merge_assistant_parts (current_assistant_parts st) = Ok m0 ->
  exists st' st'' c bs m1,
    step net sid k st f = Ok st' /\
    current_assistant_parts st' = current_assistant_parts st ++ [f] /\
    current_msg_id st' = current_msg_id st /\
    current_assistants st' = current_assistants st /\
    get_content f = Ok c /\
    get_content m0 = Ok (PList bs) /\
    finalize_message st' = Ok st'' /\
    current_assistants st'' = current_assistants st ++ [m1] /\
    get_content m1 = Ok (PList (bs ++ part_blocks c)).
Proof.
  intros Hid Hparts Hrole Hmid Hfalsy Hm0.
  destruct (msg_id_of_content _ _ Hmid) as [c Hc].
  destruct (merge_assistant_parts_content _ _ Hparts Hm0) as (bs & Hbs & Hg0).
  destruct (merge_assistant_parts_snoc _ f _ _ _ Hparts Hm0 Hbs Hc) as (m1 & Hm1 & Hg1).
  assert (exists st', step net sid k st f = Ok st' /\
            current_assistant_parts st' = current_assistant_parts st ++ [f] /\
            current_msg_id st' = current_msg_id st /\
            current_assistants st' = current_assistants st)
    as (st' & Hstep & Hp' & Hi' & Ha').
  { unfold step. rewrite Hrole. simpl. rewrite Hmid. simpl. rewrite Hfalsy. simpl.
    eexists. repeat split. }
  assert (current_assistant_parts st' <> []) as Hne'.
  { rewrite Hp'. intros E. apply app_eq_nil in E as [_ E]. discriminate. }
  rewrite <- Hp' in Hm1. rewrite <- Hi' in Hid.
  destruct (finalize_message_merges st' m1 Hid Hne' Hm1) as (st'' & Hfin & Hfa).
  exists st', st'', c, bs, m1. rewrite Ha' in Hfa. rewrite Hi' in Hid.
  repeat split; auto.
Qed.
End Continuation.

Section SpanShape.
Context `{rt : PyRuntime}.

Lemma lookup_add_usage (span : pydict) (u : option pydict) (k : string) :
  k <> "prompt_tokens" -> k <> "completion_tokens" -> k <> "total_tokens" ->
  k <> "cache_creation_prompt_tokens" -> k <> "prompt_tokens_details" ->
  Py.lookup (add_usage span u) k = Py.lookup span k.
Proof.
  intros H1 H2 H3 H4 H5. unfold add_usage. destruct u as [u|]; auto.
  repeat match goal with
    | |- context [match Py.lookup u ?key with _ => _ end] =>
        destruct (Py.lookup u key)
    end;
    rewrite ?lookup_set_ne by congruence; reflexivity.
Qed.

(** A field of the chat span that neither the usage block nor the
    latency touches is as the dict literal gives it. *)
Lemma chat_span_field sid ctx user_text final_output model metadata usage_obj
    latency (k : string) :
  k <> "prompt_tokens" -> k <> "completion_tokens" -> k <> "total_tokens" ->
  k <> "cache_creation_prompt_tokens" -> k <> "prompt_tokens_details" ->
  k <> "latency" ->
  record_field
    (chat_span sid ctx user_text final_output model metadata usage_obj latency) k
  = record_field
      (chat_span sid ctx user_text final_output model metadata None None) k.
Proof.
  intros H1 H2 H3 H4 H5 H6. unfold chat_span, record_field.
  destruct latency; rewrite ?lookup_set_ne by congruence;
    rewrite lookup_add_usage by assumption; reflexivity.
Qed.

Lemma chat_span_of_ctx sid n user_msg assistant_msgs chat ctx :
  chat_span_of sid n user_msg assistant_msgs = Ok (chat, ctx) ->
  exists user_text final_output model metadata usage_obj latency ts start,
    ctx = make_ctx sid n ts start /\
    chat = chat_span sid ctx user_text final_output model metadata usage_obj latency.
Proof.
  intros H. unfold chat_span_of in H. bind_ok H.
  repeat match type of H with
    | context [let '(_, _) := ?p in _] => destruct p
    end.
  bind_ok H.
  repeat match type of H with
    | context [let '(_, _) := ?p in _] => destruct p
    end.
  injection H as <- <-. do 8 eexists. split; reflexivity.
Qed.

Lemma thinking_of_items_children ctx ts items acc :
  Forall (child_of ctx "generation") acc ->
  Forall (child_of ctx "generation") (thinking_of_items ctx ts items acc).
Proof.
  revert acc. induction items as [|item items IH]; simpl; intros acc Hacc; auto.
  apply IH. destruct item; auto.
  destruct (Py.eq_str _ _); auto.
  destruct (Py.truthy _); auto.
  apply Forall_app. split; auto. constructor; auto.
  repeat split.
Qed.

Lemma thinking_of_msgs_children ctx msgs acc spans :
  Forall (child_of ctx "generation") acc ->
  thinking_of_msgs ctx msgs acc = Ok spans ->
  Forall (child_of ctx "generation") spans.
Proof.
  revert acc. induction msgs as [|msg msgs IH]; simpl; intros acc Hacc H.
  - now injection H as <-.
  - bind_ok H. eapply IH; [|exact H].
    destruct msg; try (injection E as <-; exact Hacc).
    destruct (Py.lookup d "message"); [|injection E as <-; exact Hacc].
    bind_ok E. destruct a0; injection E as <-; auto.
    now apply thinking_of_items_children.
Qed.

Lemma tool_span_child ctx num data span :
  tool_span ctx num data = Ok span -> child_of ctx "tool" span.
Proof.
  intros H. unfold tool_span in H. bind_ok H.
  destruct (Py.truthy (Py.dict_get data "result_metadata" PNone)).
  - bind_ok H. destruct (Py.truthy _).
    + bind_ok H. injection H as <-. unfold child_of, record_field.
      rewrite ?lookup_set_ne by discriminate. repeat split.
    + injection H as <-. unfold child_of, record_field.
      rewrite ?lookup_set_ne by discriminate. repeat split.
  - injection H as <-. repeat split.
Qed.

Lemma tool_spans_children ctx entries num spans :
  tool_spans ctx entries num = Ok spans ->
  Forall (child_of ctx "tool") spans /\ length spans = length entries.
Proof.
  revert num spans. induction entries as [|[key data] entries IH]; simpl;
    intros num spans H.
  - injection H as <-. auto.
  - bind_ok H. injection H as <-.
    destruct (IH _ _ E0) as [IH1 IH2]. split.
    + constructor; auto. eapply tool_span_child; eauto.
    + simpl. now rewrite IH2.
Qed.

Lemma create_keywordsai_spans_parts sid n user_msg assistant_msgs tool_results spans :
  create_keywordsai_spans sid n user_msg assistant_msgs tool_results = Ok spans ->
  exists chat ctx thinking calls calls' tools,
    chat_span_of sid n user_msg assistant_msgs = Ok (chat, ctx) /\
    thinking_of_msgs ctx assistant_msgs [] = Ok thinking /\
    collect_tool_calls assistant_msgs [] = Ok calls /\
    match_results tool_results calls = Ok calls' /\
    tool_spans ctx calls' 0 = Ok tools /\
    spans = chat :: thinking ++ tools.
Proof.
  intros H. unfold create_keywordsai_spans in H.
  destruct (chat_span_of sid n user_msg assistant_msgs) as [[chat ctx]|] eqn:E1;
    cbn [mbind result_bind] in H; [|discriminate].
  bind_ok H. injection H as <-.
  do 6 eexists. repeat split; eauto.
Qed.
End SpanShape.

Section ToolCalls.
Context `{rt : PyRuntime}.

Lemma map_set_Forall (P : pyval * pydict -> Prop) m k v :
  Forall P m -> P (k, v) -> (forall k' v', In (k', v') m -> P (k', v)) ->
  Forall P (map_set m k v).
Proof.
  induction m as [|[k' v'] m IH]; simpl; intros Hm Hk Hrep.
  - constructor; auto.
  - inversion Hm; subst. destruct (Py.key_eqb k' k).
    + constructor; [apply (Hrep k' v'); now left | assumption].
    + constructor; auto. apply IH; auto. intros k0 v0 Hin. apply (Hrep k0 v0). now right.
Qed.

Lemma add_tool_calls_fresh ts tool_calls m m' :
  Forall (fun e => fresh_call (snd e)) m ->
  add_tool_calls ts tool_calls m = Ok m' ->
  Forall (fun e => fresh_call (snd e)) m'.
Proof.
  revert m. induction tool_calls as [|tc tcs IH]; simpl; intros m Hm H.
  - now injection H as <-.
  - bind_ok H. destruct (Py.hashable a1); [|discriminate].
    eapply IH; [|exact H].
    apply map_set_Forall; auto; intros; split; reflexivity.
Qed.

Lemma collect_tool_calls_fresh msgs m m' :
  Forall (fun e => fresh_call (snd e)) m ->
  collect_tool_calls msgs m = Ok m' ->
  Forall (fun e => fresh_call (snd e)) m'.
Proof.
  revert m. induction msgs as [|msg msgs IH]; simpl; intros m Hm H.
  - now injection H as <-.
  - bind_ok H. eapply IH; [|exact H]. eapply add_tool_calls_fresh; eauto.
Qed.

(** *** Results that answer no call leave the call as it is *)

Lemma map_update_other (m : call_map) (i : nat) key data u f :
  m !! i = Some (key, data) -> Py.key_eqb key u = false ->
  map_update m u f !! i = Some (key, data).
Proof.
  revert i. induction m as [|[k' v'] m IH]; simpl; intros i Hi Hu; [discriminate|].
  destruct i as [|i]; simpl in *.
  - injection Hi as -> ->. rewrite Hu. reflexivity.
  - destruct (Py.key_eqb k' u); simpl; auto.
Qed.

Lemma map_update_length (m : call_map) u f : length (map_update m u f) = length m.
Proof.
  induction m as [|[k' v'] m IH]; simpl; auto.
  destruct (Py.key_eqb k' u); simpl; auto.
Qed.

Lemma match_items_length md ts items m m' :
  match_items md ts items m = Ok m' -> length m' = length m.
Proof.
  revert m. induction items as [|item items IH]; simpl; intros m H.
  - now injection H as <-.
  - destruct item; try (now apply IH).
    destruct (Py.eq_str _ _); [|now apply IH].
    destruct (Py.hashable _); [|discriminate].
    apply IH in H. rewrite H.
    destruct (map_mem m _); auto using map_update_length.
Qed.

Lemma match_results_length trs m m' :
  match_results trs m = Ok m' -> length m' = length m.
Proof.
  revert m. induction trs as [|tr trs IH]; simpl; intros m H.
  - now injection H as <-.
  - bind_ok H. apply IH in H. rewrite H.
    destruct a; try (now injection E1 as <-).
    destruct tr; try (now injection E1 as <-).
    eapply match_items_length; eauto.
Qed.

Lemma match_items_unanswered md ts items m m' i key data :
  match_items md ts items m = Ok m' ->
  m !! i = Some (key, data) -> answers key items = [] ->
  m' !! i = Some (key, data).
Proof.
  revert m. induction items as [|item items IH]; simpl; intros m H Hi Hans.
  - now injection H as <-.
  - unfold answers in Hans. simpl in Hans.
    destruct item as [| | | | | |d]; simpl in Hans; try (eapply IH; eauto; fail).
    destruct (Py.eq_str (Py.dict_get d "type" PNone) "tool_result") eqn:Et;
      simpl in Hans; [|eapply IH; eauto].
    destruct (Py.hashable _); [|discriminate].
    destruct (Py.key_eqb key (Py.dict_get d "tool_use_id" PNone)) eqn:Ek;
      simpl in Hans; [discriminate|].
    eapply IH; [exact H| |exact Hans].
    destruct (map_mem m _); auto using map_update_other.
Qed.

Lemma match_results_unanswered trs m m' i key data :
  match_results trs m = Ok m' ->
  m !! i = Some (key, data) -> results_for key trs = [] ->
  m' !! i = Some (key, data).
Proof.
  revert m. induction trs as [|tr trs IH]; simpl; intros m H Hi Hres.
  - now injection H as <-.
  - unfold results_for in Hres. simpl in Hres.
    apply app_eq_nil in Hres as [Hhere Hrest].
    bind_ok H. eapply IH; [exact H| |exact Hrest].
    unfold results_in in Hhere. rewrite E in Hhere.
    destruct a; try (now injection E1 as <-).
    destruct tr; try (now injection E1 as <-).
    eapply match_items_unanswered; eauto.
Qed.
End ToolCalls.

Section ToolSpans.
Context `{rt : PyRuntime}.

Lemma tool_spans_nth ctx entries num spans i key data :
  tool_spans ctx entries num = Ok spans ->
  entries !! i = Some (key, data) ->
  exists span, spans !! i = Some span /\
               tool_span ctx (num + Z.of_nat (S i)) data = Ok span.
Proof.
  revert num spans i. induction entries as [|[k d] entries IH]; simpl;
    intros num spans i H Hi; [destruct i; discriminate|].
  bind_ok H. injection H as <-. destruct i as [|i]; simpl in *.
  - injection Hi as -> ->. exists a. split; auto.
  - destruct (IH _ _ _ E0 Hi) as (span & Hs & Ht). exists span. split; auto.
    rewrite <- Ht. f_equal. lia.
Qed.

Lemma format_tool_output_none name : format_tool_output name PNone = Ok "".
Proof. reflexivity. Qed.

(** The span of a call that got no result. *)
Lemma tool_span_fresh ctx num data span :
  fresh_call data -> tool_span ctx num data = Ok span ->
  record_field span "output" = Some (PStr "") /\
  record_field span "latency" = None /\
  record_field span "span_unique_id"
    = Some (PStr ("turn_" +:+ pretty (ctx_turn_num ctx) +:+ "_tool_" +:+ pretty num)).
Proof.
  intros [Hout Hmd] H. unfold tool_span in H.
  assert (Py.dict_get data "output" PNone = PNone) as Eo
    by (unfold Py.dict_get; now rewrite Hout).
  assert (Py.dict_get data "result_metadata" PNone = PNone) as Em
    by (unfold Py.dict_get; now rewrite Hmd).
  rewrite Eo, Em, format_tool_output_none in H. bind_ok H. simpl in H.
  injection H as <-. repeat split.
Qed.

Lemma tool_span_output ctx num data span :
  tool_span ctx num data = Ok span ->
  exists out,
    format_tool_output (Py.dict_get data "name" PNone)
      (Py.dict_get data "output" PNone) = Ok out /\
    record_field span "output" = Some (PStr out).
Proof.
  intros H. unfold tool_span in H. bind_ok H.
  exists a0. split; auto.
  destruct (Py.truthy (Py.dict_get data "result_metadata" PNone)).
  - bind_ok H. destruct (Py.truthy _).
    + bind_ok H. injection H as <-. reflexivity.
    + injection H as <-. reflexivity.
  - injection H as <-. reflexivity.
Qed.

Lemma filter_kind_children ctx kind kind' spans :
  Forall (child_of ctx kind) spans ->
  List.filter (is_kind kind') spans = if String.eqb kind kind' then spans else [].
Proof.
  induction 1 as [|span spans (Hk & _ & _) _ IH]; simpl.
  - now destruct (String.eqb kind kind').
  - unfold is_kind at 1. rewrite Hk. simpl. rewrite IH.
    now destruct (String.eqb kind kind').
Qed.

Lemma tool_spans_in_create sid n user_msg assistant_msgs tool_results spans :
  create_keywordsai_spans sid n user_msg assistant_msgs tool_results = Ok spans ->
  exists ctx calls calls',
    ctx_turn_num ctx = n /\
    collect_tool_calls assistant_msgs [] = Ok calls /\
    match_results tool_results calls = Ok calls' /\
    tool_spans ctx calls' 0 = Ok (tool_spans_in spans).
Proof.
  intros H.
  destruct (create_keywordsai_spans_parts _ _ _ _ _ _ H)
    as (chat & ctx & thinking & calls & calls' & tools & H1 & H2 & H3 & H4 & H5 & ->).
  exists ctx, calls, calls'.
  destruct (chat_span_of_ctx _ _ _ _ _ _ H1)
    as (ut & fo & model & md & uo & lat & ts & start & Hctx & Hchat).
  repeat split; auto.
  { rewrite Hctx. reflexivity. }
  unfold tool_spans_in. simpl.
  assert (is_kind "tool" chat = false) as ->.
  { unfold is_kind. rewrite Hchat, chat_span_field by discriminate. reflexivity. }
  rewrite List.filter_app.
  rewrite (filter_kind_children ctx "generation" "tool" thinking).
  2:{ eapply thinking_of_msgs_children; [constructor|exact H2]. }
  rewrite (filter_kind_children ctx "tool" "tool" tools).
  2:{ eapply tool_spans_children; eauto. }
  simpl. exact H5.
Qed.
End ToolSpans.

Section Correlation.
Context `{rt : PyRuntime}.

Lemma latest_app prev cs ds : latest (latest prev cs) ds = latest prev (cs ++ ds).
Proof.
  unfold latest. destruct ds as [|d ds _] using rev_ind.
  - now rewrite app_nil_r.
  - now rewrite app_assoc, !last_snoc.
Qed.

Lemma latest_cons prev c cs : latest (Some c) cs = latest prev (c :: cs).
Proof. apply (latest_app prev [c] cs). Qed.

Lemma key_eqb_str s u : Py.key_eqb (PStr s) u = true -> u = PStr s.
Proof.
  unfold Py.key_eqb. simpl. destruct u; try discriminate.
  intros H. apply String.eqb_eq in H. now subst.
Qed.

Lemma key_eqb_str_refl s : Py.key_eqb (PStr s) (PStr s) = true.
Proof. unfold Py.key_eqb. simpl. apply String.eqb_refl. Qed.

Lemma map_set_keys (P : pyval -> Prop) m k v :
  Forall (fun e => P (fst e)) m -> P k -> Forall (fun e => P (fst e)) (map_set m k v).
Proof.
  induction m as [|[k' v'] m IH]; simpl; intros Hm Hk.
  - constructor; auto.
  - inversion Hm; subst. destruct (Py.key_eqb k' k); constructor; auto.
Qed.

Lemma map_set_distinct m k v : keys_distinct m -> keys_distinct (map_set m k v).
Proof.
  induction m as [|[k' v'] m IH]; simpl; intros Hm.
  - split; constructor.
  - destruct Hm as [Hk' Hm]. destruct (Py.key_eqb k' k) eqn:E; simpl.
    + split; auto.
    + split; auto. apply (map_set_keys (fun x => Py.key_eqb k' x = false)); auto.
Qed.

Lemma add_tool_calls_distinct ts tool_calls m m' :
  keys_distinct m -> add_tool_calls ts tool_calls m = Ok m' -> keys_distinct m'.
Proof.
  revert m. induction tool_calls as [|tc tcs IH]; simpl; intros m Hm H.
  - now injection H as <-.
  - bind_ok H. destruct (Py.hashable a1); [|discriminate].
    eapply IH; [|exact H]. now apply map_set_distinct.
Qed.

Lemma collect_tool_calls_distinct msgs m m' :
  keys_distinct m -> collect_tool_calls msgs m = Ok m' -> keys_distinct m'.
Proof.
  revert m. induction msgs as [|msg msgs IH]; simpl; intros m Hm H.
  - now injection H as <-.
  - bind_ok H. eapply IH; [|exact H]. eapply add_tool_calls_distinct; eauto.
Qed.

Lemma map_update_keys m u f : map fst (map_update m u f) = map fst m.
Proof.
  induction m as [|[k' v'] m IH]; simpl; auto.
  destruct (Py.key_eqb k' u); simpl; congruence.
Qed.

Lemma keys_distinct_keys m m' : map fst m' = map fst m -> keys_distinct m -> keys_distinct m'.
Proof.
  revert m'. induction m as [|[k v] m IH]; intros [|[k' v'] m'] E; simpl in *;
    try discriminate; auto.
  injection E as -> E. intros [H1 H2]. split; [|now apply IH].
  clear -H1 E. rewrite List.Forall_forall in *. intros [k0 v0] Hin.
  apply (in_map fst) in Hin. rewrite E in Hin.
  apply in_map_iff in Hin as ([k1 v1] & Hk & Hin). simpl in *. subst.
  apply (H1 _ Hin).
Qed.

Lemma map_update_distinct m u f : keys_distinct m -> keys_distinct (map_update m u f).
Proof. apply keys_distinct_keys, map_update_keys. Qed.

(** [map_update] reaches the entry of a string key exactly when the
    updated key is that string. *)
Lemma map_update_at (m : call_map) i s v u f :
  keys_distinct m -> m !! i = Some (PStr s, v) ->
  map_update m u f !! i
  = Some (PStr s, if Py.key_eqb (PStr s) u then f v else v).
Proof.
  revert i. induction m as [|[k' v'] m IH]; simpl; intros i Hd Hi;
    [destruct i; discriminate|].
  destruct Hd as [Hk Hm]. destruct i as [|i]; simpl in *.
  - injection Hi as -> ->. destruct (Py.key_eqb (PStr s) u); reflexivity.
  - destruct (Py.key_eqb k' u) eqn:E; simpl; [|now apply IH].
    rewrite Hi. destruct (Py.key_eqb (PStr s) u) eqn:E'; auto.
    apply key_eqb_str in E'. subst u.
    rewrite List.Forall_forall in Hk.
    assert (In (PStr s, v) m) as Hin.
    { apply list_elem_of_In. eapply list_elem_of_lookup_2; eauto. }
    specialize (Hk _ Hin). simpl in Hk. congruence.
Qed.

Lemma map_mem_lookup (m : call_map) i k v :
  m !! i = Some (k, v) -> forall u, Py.key_eqb k u = true -> map_mem m u = true.
Proof.
  intros Hi u Hu. unfold map_mem. apply existsb_exists.
  exists (k, v). split; auto.
  apply list_elem_of_In. eapply list_elem_of_lookup_2; eauto.
Qed.
End Correlation.

(** ** Keys that name one slot

    On the values that can be keys, two keys that equal a third equal
    each other: integers, booleans and floats are compared exactly. *)

Lemma digits2_pos_bounds m :
  2 ^ (Z.pos (digits2_pos m) - 1) <= Z.pos m < 2 ^ Z.pos (digits2_pos m).
Proof.
  induction m as [p IH|p IH|]; cbn [digits2_pos].
  - rewrite Pos2Z.inj_succ. replace (Z.succ (Z.pos (digits2_pos p)) - 1)
      with (Z.succ (Z.pos (digits2_pos p) - 1)) by lia.
    rewrite !Z.pow_succ_r by lia. lia.
  - rewrite Pos2Z.inj_succ. replace (Z.succ (Z.pos (digits2_pos p)) - 1)
      with (Z.succ (Z.pos (digits2_pos p) - 1)) by lia.
    rewrite !Z.pow_succ_r by lia. lia.
  - simpl. lia.
Qed.

(** What [float_eq_Z] says of a finite float: the integer is the
    mantissa scaled by the exponent. *)
Lemma float_eq_Z_finite (s : bool) (m : positive) (e z : Z) :
  (if 0 <=? e then z =? (if s then Z.neg m else Z.pos m) * 2 ^ e
   else ((if s then Z.neg m else Z.pos m) mod 2 ^ (- e) =? 0)
        && (z =? (if s then Z.neg m else Z.pos m) / 2 ^ (- e))) = true ->
  s = (z <? 0) /\
  forall E, 0 <= E -> 0 <= e + E -> Z.abs z * 2 ^ E = Z.pos m * 2 ^ (e + E).
Proof.
  set (v := if s then Z.neg m else Z.pos m).
  assert (Z.abs v = Z.pos m) as Hv by (unfold v; now destruct s).
  assert (s = (v <? 0)) as Hs by (unfold v; now destruct s).
  intros H. destruct (0 <=? e) eqn:Ee.
  - apply Z.leb_le in Ee. apply Z.eqb_eq in H.
    assert (0 < 2 ^ e) by (apply Z.pow_pos_nonneg; lia).
    split.
    + rewrite Hs. subst z. destruct (v <? 0) eqn:A, (v * 2 ^ e <? 0) eqn:B; auto.
      * apply Z.ltb_lt in A. apply Z.ltb_ge in B. nia.
      * apply Z.ltb_ge in A. apply Z.ltb_lt in B. nia.
    + intros E HE _. subst z. rewrite Z.abs_mul, Hv, (Z.abs_eq (2 ^ e)) by lia.
      rewrite Z.pow_add_r by lia. ring.
  - apply Z.leb_gt in Ee. apply andb_true_iff in H as [Hm Hz].
    apply Z.eqb_eq in Hm. apply Z.eqb_eq in Hz.
    assert (0 < 2 ^ (- e)) as Hp by (apply Z.pow_pos_nonneg; lia).
    assert (v = z * 2 ^ (- e)) as Hvz.
    { rewrite Hz. rewrite (Z.div_mod v (2 ^ (- e))) at 1 by lia. lia. }
    split.
    + rewrite Hs. destruct (v <? 0) eqn:A, (z <? 0) eqn:B; auto.
      * apply Z.ltb_lt in A. apply Z.ltb_ge in B. nia.
      * apply Z.ltb_ge in A. apply Z.ltb_lt in B. nia.
    + intros E HE HeE. rewrite <- Hv, Hvz, Z.abs_mul, (Z.abs_eq (2 ^ (- e))) by lia.
      rewrite <- Z.mul_assoc, <- Z.pow_add_r by lia. f_equal. f_equal. lia.
Qed.

Lemma SFeqb_refl_finite s m e : SFeqb (S754_finite s m e) (S754_finite s m e) = true.
Proof.
  unfold SFeqb, SFcompare. rewrite Z.compare_refl.
  change (Pos.compare_cont Eq m m) with (Pos.compare m m).
  rewrite Pos.compare_refl. now destruct s.
Qed.

(** Two floats that equal the same integer are the same float. *)
Lemma float_eq_Z_same f g z :
  Py.float_eq_Z f z = true -> Py.float_eq_Z g z = true -> PrimFloat.eqb f g = true.
Proof.
  unfold Py.float_eq_Z. rewrite FloatAxioms.eqb_spec.
  pose proof (Prim2SF_valid f) as Vf. pose proof (Prim2SF_valid g) as Vg.
  destruct (Prim2SF f) as [sf|sf| |sf mf ef], (Prim2SF g) as [sg|sg| |sg mg eg];
    try discriminate.
  - reflexivity.
  - intros Hz Hg. apply Z.eqb_eq in Hz. subst z.
    apply float_eq_Z_finite in Hg as [_ Hg].
    specialize (Hg (Z.max 0 (- eg)) ltac:(lia) ltac:(lia)). simpl in Hg.
    assert (0 < 2 ^ (eg + Z.max 0 (- eg))) by (apply Z.pow_pos_nonneg; lia). lia.
  - intros Hf Hz. apply Z.eqb_eq in Hz. subst z.
    apply float_eq_Z_finite in Hf as [_ Hf].
    specialize (Hf (Z.max 0 (- ef)) ltac:(lia) ltac:(lia)). simpl in Hf.
    assert (0 < 2 ^ (ef + Z.max 0 (- ef))) by (apply Z.pow_pos_nonneg; lia). lia.
  - intros Hf Hg.
    apply float_eq_Z_finite in Hf as [Hsf Hf].
    apply float_eq_Z_finite in Hg as [Hsg Hg].
    set (E := Z.max 0 (Z.max (- ef) (- eg))).
    specialize (Hf E ltac:(lia) ltac:(lia)). specialize (Hg E ltac:(lia) ltac:(lia)).
    simpl in Vf, Vg. unfold bounded, canonical_mantissa, fexp, emin in Vf, Vg.
    apply andb_true_iff in Vf as [Vf _]. apply andb_true_iff in Vg as [Vg _].
    apply Z.eqb_eq in Vf. apply Z.eqb_eq in Vg.
    pose proof (digits2_pos_bounds mf) as Bf. pose proof (digits2_pos_bounds mg) as Bg.
    set (df := Z.pos (digits2_pos mf)) in *. set (dg := Z.pos (digits2_pos mg)) in *.
    assert (0 < df) by (unfold df; lia). assert (0 < dg) by (unfold dg; lia).
    set (N := Z.abs z * 2 ^ E) in *.
    assert (0 < 2 ^ (ef + E)) as Pf by (apply Z.pow_pos_nonneg; lia).
    assert (0 < 2 ^ (eg + E)) as Pg by (apply Z.pow_pos_nonneg; lia).
    assert (2 ^ (df + ef + E - 1) <= N < 2 ^ (df + ef + E)) as Nf.
    { replace (df + ef + E - 1) with ((df - 1) + (ef + E)) by lia.
      replace (df + ef + E) with (df + (ef + E)) by lia.
      rewrite (Z.pow_add_r 2 (df - 1) (ef + E)), (Z.pow_add_r 2 df (ef + E)) by lia.
      rewrite Hf. split.
      - apply Z.mul_le_mono_nonneg_r; lia.
      - apply Z.mul_lt_mono_pos_r; lia. }
    assert (2 ^ (dg + eg + E - 1) <= N < 2 ^ (dg + eg + E)) as Ng.
    { replace (dg + eg + E - 1) with ((dg - 1) + (eg + E)) by lia.
      replace (dg + eg + E) with (dg + (eg + E)) by lia.
      rewrite (Z.pow_add_r 2 (dg - 1) (eg + E)), (Z.pow_add_r 2 dg (eg + E)) by lia.
      rewrite Hg. split.
      - apply Z.mul_le_mono_nonneg_r; lia.
      - apply Z.mul_lt_mono_pos_r; lia. }
    assert (df + ef = dg + eg) as Hb.
    { destruct (Z.lt_trichotomy (df + ef) (dg + eg)) as [L|[L|L]]; auto.
      - pose proof (Z.pow_le_mono_r 2 (df + ef + E) (dg + eg + E - 1)
                      ltac:(lia) ltac:(lia)). lia.
      - pose proof (Z.pow_le_mono_r 2 (dg + eg + E) (df + ef + E - 1)
                      ltac:(lia) ltac:(lia)). lia. }
    assert (ef = eg) as He by (rewrite Hb in Vf; lia). subst eg.
    assert (mf = mg) as Hm.
    { assert (Z.pos mf = Z.pos mg) by nia. congruence. }
    subst mg. rewrite Hsf, Hsg.
    apply SFeqb_refl_finite.
Qed.

Lemma float_eq_Z_inj f x y :
  Py.float_eq_Z f x = true -> Py.float_eq_Z f y = true -> x = y.
Proof.
  unfold Py.float_eq_Z. destruct (Prim2SF f) as [s|s| |s m e]; try discriminate.
  - intros A B. apply Z.eqb_eq in A. apply Z.eqb_eq in B. congruence.
  - destruct (0 <=? e).
    + intros A B. apply Z.eqb_eq in A. apply Z.eqb_eq in B. congruence.
    + intros [_ A]%andb_true_iff [_ B]%andb_true_iff.
      apply Z.eqb_eq in A. apply Z.eqb_eq in B. congruence.
Qed.

(** Floats that compare equal are both zero or the same float. *)
Lemma SFeqb_cases x y :
  SFeqb x y = true ->
  (exists s t, x = S754_zero s /\ y = S754_zero t) \/
  (exists s, x = S754_infinity s /\ y = S754_infinity s) \/
  (exists s m e, x = S754_finite s m e /\ y = S754_finite s m e).
Proof.
  unfold SFeqb, SFcompare.
  destruct x as [sx|sx| |sx mx ex], y as [sy|sy| |sy my ey]; try discriminate;
    try (destruct sx, sy; discriminate).
  - intros _. left. eauto.
  - intros H. right. left. exists sx. destruct sx, sy; try discriminate; auto.
  - intros H. right. right. exists sx, mx, ex.
    destruct sx, sy; try discriminate.
    + destruct (Z.compare_spec ex ey); try discriminate. subst.
      change (Pos.compare_cont Eq mx my) with (Pos.compare mx my) in H.
      destruct (Pos.compare_spec mx my); try discriminate. subst. auto.
    + destruct (Z.compare_spec ex ey); try discriminate. subst.
      change (Pos.compare_cont Eq mx my) with (Pos.compare mx my) in H.
      destruct (Pos.compare_spec mx my); try discriminate. subst. auto.
Qed.

Lemma float_eqb_eq_Z f g z :
  PrimFloat.eqb f g = true -> Py.float_eq_Z g z = true -> Py.float_eq_Z f z = true.
Proof.
  rewrite FloatAxioms.eqb_spec. unfold Py.float_eq_Z. intros H.
  destruct (SFeqb_cases _ _ H) as [(s & t & -> & ->)|[(s & -> & ->)|(s & m & e & -> & ->)]];
    auto.
Qed.

Lemma float_eqb_sym f g : PrimFloat.eqb f g = true -> PrimFloat.eqb g f = true.
Proof.
  rewrite !FloatAxioms.eqb_spec. intros H.
  destruct (SFeqb_cases _ _ H) as [(s & t & -> & ->)|[(s & -> & ->)|(s & m & e & -> & ->)]].
  - reflexivity.
  - now destruct s.
  - apply SFeqb_refl_finite.
Qed.

Lemma float_eqb_trans f g h :
  PrimFloat.eqb f g = true -> PrimFloat.eqb g h = true -> PrimFloat.eqb f h = true.
Proof.
  rewrite !FloatAxioms.eqb_spec. intros H1 H2.
  destruct (SFeqb_cases _ _ H1) as [(s & t & E1 & E2)|[(s & E1 & E2)|(s & m & e & E1 & E2)]];
    rewrite E1; rewrite E2 in H2; auto.
Qed.

Lemma float_nan_eqb f g : PrimFloat.is_nan f = true -> PrimFloat.eqb g f = false.
Proof.
  unfold PrimFloat.is_nan. rewrite !FloatAxioms.eqb_spec. intros H.
  destruct (SFeqb (Prim2SF g) (Prim2SF f)) eqn:E; auto.
  destruct (SFeqb_cases _ _ E) as [(s & t & E1 & E2)|[(s & E1 & E2)|(s & m & e & E1 & E2)]];
    rewrite E2 in H; try discriminate.
  - now destruct s.
  - now rewrite SFeqb_refl_finite in H.
Qed.

Lemma float_nan_eq_Z f z : PrimFloat.is_nan f = true -> Py.float_eq_Z f z = false.
Proof.
  unfold PrimFloat.is_nan, Py.float_eq_Z. rewrite FloatAxioms.eqb_spec.
  destruct (Prim2SF f) as [s|s| |s m e]; auto; try discriminate.
  now rewrite SFeqb_refl_finite.
Qed.

Lemma key_eqb_float f g :
  Py.key_eqb (PFloat f) (PFloat g)
  = (PrimFloat.is_nan f && PrimFloat.is_nan g) || PrimFloat.eqb f g.
Proof. reflexivity. Qed.

Lemma float_keys_euclid f g h :
  Py.key_eqb (PFloat f) (PFloat h) = true -> Py.key_eqb (PFloat g) (PFloat h) = true ->
  Py.key_eqb (PFloat f) (PFloat g) = true.
Proof.
  rewrite !key_eqb_float. intros H1 H2.
  destruct (PrimFloat.is_nan h) eqn:Nh.
  - rewrite (float_nan_eqb h f Nh), andb_true_r, orb_false_r in H1.
    rewrite (float_nan_eqb h g Nh), andb_true_r, orb_false_r in H2.
    now rewrite H1, H2.
  - rewrite andb_false_r in H1, H2. simpl in H1, H2.
    rewrite (float_eqb_trans f h g H1 (float_eqb_sym _ _ H2)). apply orb_true_r.
Qed.

Lemma float_key_eq_Z g h z :
  (PrimFloat.is_nan g && PrimFloat.is_nan h) || PrimFloat.eqb g h = true ->
  Py.float_eq_Z h z = true -> Py.float_eq_Z g z = true.
Proof.
  intros H Hz. destruct (PrimFloat.is_nan h) eqn:Nh.
  - now rewrite (float_nan_eq_Z h z Nh) in Hz.
  - rewrite andb_false_r in H. simpl in H. eapply float_eqb_eq_Z; eauto.
Qed.

Ltac key_cases :=
  repeat match goal with
  | H : String.eqb _ _ = true |- _ => apply String.eqb_eq in H; subst
  | H : Z.eqb _ _ = true |- _ => apply Z.eqb_eq in H
  | H : Bool.eqb _ _ = true |- _ => apply Bool.eqb_prop in H; subst
  | H : (_ && false) || _ = true |- _ => rewrite andb_false_r in H; simpl in H
  end.

(** Keys that equal the same key equal each other. *)
Lemma key_eqb_euclid a b u :
  Py.hashable a = true -> Py.hashable b = true -> Py.hashable u = true ->
  Py.key_eqb a u = true -> Py.key_eqb b u = true -> Py.key_eqb a b = true.
Proof.
  intros Ha Hb Hu.
  destruct a as [|x|x|f|s| |], b as [|y|y|g|t| |], u as [|w|w|h|r| |];
    try discriminate; try (intros; reflexivity);
    try (intros; eapply float_keys_euclid; eauto; fail);
    unfold Py.key_eqb; cbn; rewrite ?andb_false_r; cbn; intros H1 H2; key_cases.
  all: try (apply Bool.eqb_reflx).
  all: try (apply String.eqb_refl).
  all: try (apply Z.eqb_eq; congruence).
  all: try (apply Z.eqb_eq; eapply float_eq_Z_inj; eauto; fail).
  all: try (destruct x, y; try reflexivity; exfalso;
            pose proof (float_eq_Z_inj _ _ _ H1 H2); discriminate).
  all: try (destruct x; simpl in *; try lia; destruct y; simpl in *; lia).
  all: try (destruct x; simpl in *; try lia; destruct w; simpl in *; lia).
  all: try (destruct y; simpl in *; try lia; destruct w; simpl in *; lia).
  all: try congruence.
  all: try (eapply float_key_eq_Z; eauto; fail).
  all: rewrite (float_eq_Z_same _ _ _ H1 H2); apply orb_true_r.
Qed.

Section Answered.
Context `{rt : PyRuntime}.

Lemma attach_result_output o md ts d :
  Py.lookup (attach_result o md ts d) "output" = Some o.
Proof.
  unfold attach_result. rewrite !lookup_set_ne by discriminate. apply lookup_set_eq.
Qed.

Lemma attach_result_name o md ts d :
  Py.lookup (attach_result o md ts d) "name" = Py.lookup d "name".
Proof. unfold attach_result. now rewrite !lookup_set_ne by discriminate. Qed.

Lemma map_update_hashable m u f : hashable_keys m -> hashable_keys (map_update m u f).
Proof.
  unfold hashable_keys. rewrite !List.Forall_forall. intros H [k v] Hin.
  apply (in_map fst) in Hin. rewrite map_update_keys in Hin.
  apply in_map_iff in Hin as (e & <- & Hin). now apply H.
Qed.

Lemma add_tool_calls_hashable ts tool_calls m m' :
  hashable_keys m -> add_tool_calls ts tool_calls m = Ok m' -> hashable_keys m'.
Proof.
  revert m. induction tool_calls as [|tc tcs IH]; simpl; intros m Hm H.
  - now injection H as <-.
  - bind_ok H. destruct (Py.hashable a1) eqn:Eh; [|discriminate].
    eapply IH; [|exact H].
    apply (map_set_keys (fun x => Py.hashable x = true)); auto.
Qed.

Lemma collect_tool_calls_hashable msgs m m' :
  hashable_keys m -> collect_tool_calls msgs m = Ok m' -> hashable_keys m'.
Proof.
  revert m. induction msgs as [|msg msgs IH]; simpl; intros m Hm H.
  - now injection H as <-.
  - bind_ok H. eapply IH; [|exact H]. eapply add_tool_calls_hashable; eauto.
Qed.

(** [map_update] reaches the entry of a key exactly when the updated key
    equals it. *)
Lemma map_update_at_key (m : call_map) i k v u f :
  keys_distinct m -> hashable_keys m -> Py.hashable u = true ->
  m !! i = Some (k, v) ->
  map_update m u f !! i = Some (k, if Py.key_eqb k u then f v else v).
Proof.
  revert i. induction m as [|[k' v'] m IH]; simpl; intros i Hd Hh Hu Hi;
    [destruct i; discriminate|].
  destruct Hd as [Hk Hm]. inversion Hh as [|? ? Hk' Hh']; subst. simpl in Hk'.
  destruct i as [|i]; simpl in *.
  - injection Hi as -> ->. destruct (Py.key_eqb k u); reflexivity.
  - destruct (Py.key_eqb k' u) eqn:E; simpl; [|now apply IH].
    rewrite Hi. destruct (Py.key_eqb k u) eqn:E'; auto.
    assert (In (k, v) m) as Hin.
    { apply list_elem_of_In. eapply list_elem_of_lookup_2; eauto. }
    rewrite List.Forall_forall in Hk. specialize (Hk _ Hin). simpl in Hk.
    rewrite List.Forall_forall in Hh'. specialize (Hh' _ Hin). simpl in Hh'.
    rewrite (key_eqb_euclid k' k u Hk' Hh' Hu E E') in Hk. discriminate.
Qed.

Lemma match_items_answered md ts items m m' i k v :
  match_items md ts items m = Ok m' ->
  keys_distinct m -> hashable_keys m -> m !! i = Some (k, v) ->
  exists v', m' !! i = Some (k, v') /\
             Py.lookup v' "name" = Py.lookup v "name" /\
             Py.lookup v' "output"
             = latest (Py.lookup v "output") (answers k items) /\
             keys_distinct m' /\ hashable_keys m'.
Proof.
  revert m v. induction items as [|item items IH]; simpl; intros m v H Hd Hh Hi.
  - injection H as <-. exists v. auto.
  - unfold answers. simpl. fold (answers k items).
    destruct item as [| | | | | |d]; simpl; try (eapply IH; eauto; fail).
    destruct (Py.eq_str (Py.dict_get d "type" PNone) "tool_result") eqn:Et;
      simpl; [|eapply IH; eauto].
    destruct (Py.hashable (Py.dict_get d "tool_use_id" PNone)) eqn:Eu; [|discriminate].
    set (u := Py.dict_get d "tool_use_id" PNone) in *.
    set (f := attach_result (Py.dict_get d "content" PNone) md ts) in *.
    destruct (Py.key_eqb k u) eqn:Ek; simpl.
    + rewrite (map_mem_lookup _ _ _ _ Hi u Ek) in H.
      pose proof (map_update_at_key m i k v u f Hd Hh Eu Hi) as Hi'. rewrite Ek in Hi'.
      destruct (IH _ _ H (map_update_distinct _ u f Hd) (map_update_hashable _ u f Hh) Hi')
        as (v' & A & B & C & D).
      exists v'. repeat split; try tauto.
      * rewrite B. apply attach_result_name.
      * rewrite C. unfold f. rewrite attach_result_output. apply latest_cons.
    + assert ((if map_mem m u then map_update m u f else m) !! i = Some (k, v))
        as Hi'.
      { destruct (map_mem m u); auto.
        rewrite (map_update_at_key m i k v u f Hd Hh Eu Hi), Ek. reflexivity. }
      assert (keys_distinct (if map_mem m u then map_update m u f else m)) as Hd'.
      { destruct (map_mem m u); auto using map_update_distinct. }
      assert (hashable_keys (if map_mem m u then map_update m u f else m)) as Hh'.
      { destruct (map_mem m u); auto using map_update_hashable. }
      apply (IH _ _ H Hd' Hh' Hi').
Qed.

Lemma match_results_answered trs m m' i k v :
  match_results trs m = Ok m' ->
  keys_distinct m -> hashable_keys m -> m !! i = Some (k, v) ->
  exists v', m' !! i = Some (k, v') /\
             Py.lookup v' "name" = Py.lookup v "name" /\
             Py.lookup v' "output"
             = latest (Py.lookup v "output") (results_for k trs).
Proof.
  revert m v. induction trs as [|tr trs IH]; simpl; intros m v H Hd Hh Hi.
  - injection H as <-. exists v. auto.
  - bind_ok H. unfold results_for. simpl. fold (results_for k trs).
    unfold results_in. rewrite E.
    assert (exists v1, a1 !! i = Some (k, v1) /\
              Py.lookup v1 "name" = Py.lookup v "name" /\
              Py.lookup v1 "output"
              = latest (Py.lookup v "output")
                  match a with PList items => answers k items | _ => [] end /\
              keys_distinct a1 /\ hashable_keys a1) as (v1 & A & B & C & D & D').
    { destruct a; try (injection E1 as <-; exists v; auto).
      destruct tr; try (injection E1 as <-; exists v; auto; fail);
        try (unfold get_content in E; discriminate).
      eapply match_items_answered; eauto. }
    destruct (IH _ _ H D D' A) as (v' & A' & B' & C').
    exists v'. repeat split; auto; try congruence.
    rewrite C', C. apply latest_app.
Qed.

(** The output of the span of a call is the formatted content of the last
    item that answers it among the result records given to the compiler. *)
Lemma create_attaches_results sid n user_msg assistant_msgs tool_results spans calls i
    key data :
  create_keywordsai_spans sid n user_msg assistant_msgs tool_results = Ok spans ->
  collect_tool_calls assistant_msgs [] = Ok calls ->
  calls !! i = Some (key, data) ->
  exists span out,
    tool_spans_in spans !! i = Some span /\
    format_tool_output (Py.dict_get data "name" PNone)
      (default PNone (last (results_for key tool_results))) = Ok out /\
    record_field span "output" = Some (PStr out).
Proof.
  intros H Hc Hi.
  destruct (tool_spans_in_create _ _ _ _ _ _ H)
    as (ctx & calls0 & calls' & Hn & Hc0 & Hm & Ht).
  rewrite Hc in Hc0. injection Hc0 as <-.
  pose proof (collect_tool_calls_distinct _ [] _ I Hc) as Hd.
  pose proof (collect_tool_calls_hashable _ [] _ (List.Forall_nil _) Hc) as Hh.
  pose proof (collect_tool_calls_fresh _ [] _ (List.Forall_nil _) Hc) as Hf.
  rewrite List.Forall_forall in Hf.
  assert (fresh_call data) as [Hout _].
  { apply (Hf (key, data)). apply list_elem_of_In.
    eapply list_elem_of_lookup_2; eauto. }
  destruct (match_results_answered _ _ _ _ _ _ Hm Hd Hh Hi) as (v' & A & B & C).
  destruct (tool_spans_nth _ _ _ _ _ _ _ Ht A) as (span & Hs & Hts).
  destruct (tool_span_output _ _ _ _ Hts) as (out & Ho & Hr).
  exists span, out. repeat split; auto.
  rewrite <- Ho. unfold Py.dict_get. rewrite B, C, Hout. unfold latest.
  destruct (last (results_for key tool_results)); reflexivity.
Qed.

(** C8. For every tool call of a turn that no tool result item of the
    turn names, the compiled span list has one tool span per call of
    the call map, and the span at the position of this call has an
    empty output and no latency field. *)
Theorem unresolved_tool_call_span sid n user_msg assistant_msgs tool_results spans calls i
    key data :
  create_keywordsai_spans sid n user_msg assistant_msgs tool_results = Ok spans ->
  collect_tool_calls assistant_msgs [] = Ok calls ->
  calls !! i = Some (key, data) ->
  results_for key tool_results = [] ->
  length (tool_spans_in spans) = length calls /\
  exists span,
    tool_spans_in spans !! i = Some span /\
    record_field span "output" = Some (PStr "") /\
    record_field span "latency" = None /\
    record_field span "span_unique_id"
      = Some (PStr ("turn_" +:+ pretty n +:+ "_tool_" +:+ pretty (Z.of_nat (S i)))).
Proof.
  intros H Hc Hi Hnone.
  destruct (tool_spans_in_create _ _ _ _ _ _ H)
    as (ctx & calls0 & calls' & Hn & Hc0 & Hm & Ht).
  rewrite Hc in Hc0. injection Hc0 as <-.
  pose proof (collect_tool_calls_fresh _ [] _ (List.Forall_nil _) Hc) as Hf.
  rewrite List.Forall_forall in Hf.
  assert (fresh_call data) as Hfresh.
  { apply (Hf (key, data)). apply list_elem_of_In.
    eapply list_elem_of_lookup_2; eauto. }
  pose proof (match_results_unanswered _ _ _ _ _ _ Hm Hi Hnone) as Hi'.
  split.
  { destruct (tool_spans_children _ _ _ _ Ht) as [_ Hlen].
    rewrite Hlen. eapply match_results_length; eauto. }
  destruct (tool_spans_nth _ _ _ _ _ _ _ Ht Hi') as (span & Hs & Hts).
  destruct (tool_span_fresh _ _ _ _ Hfresh Hts) as (A & B & C).
  exists span. rewrite Hn in C. repeat split; auto.
Qed.
End Answered.

Section TurnResults.
Context `{rt : PyRuntime}.
Variable net : nat -> bool.
Variable session_id : string.
Variable k : Z.

Lemma opens_turn_truthy user : opens_turn user = true -> Py.truthy user = true.
Proof.
  unfold opens_turn, role_of. destruct user as [| | | | | |d]; try discriminate.
  destruct d; [discriminate|reflexivity].
Qed.

(** A plain user message starts the turn with no tool result. *)
Lemma step_opens st user st0 :
  opens_turn user = true ->
  step net session_id k st user = Ok st0 ->
  current_user st0 = user /\ current_tool_results st0 = [].
Proof.
  unfold opens_turn, step.
  destruct (role_of user) as [role|]; try discriminate.
  destruct (is_tool_result user) as [[]|]; try discriminate.
  intros Hr. cbn [mbind result_bind]. rewrite Hr. cbn [mbind result_bind].
  intros H. bind_ok H. injection H as <-. auto.
Qed.

(** Until the next plain user message, the loop keeps the user message,
    posts nothing and files the tool result records in order. *)
Lemma step_within_turn st msg st' :
  opens_turn msg = false ->
  step net session_id k st msg = Ok st' ->
  current_user st' = current_user st /\
  emitted st' = emitted st /\
  current_tool_results st'
  = current_tool_results st ++ (if files_result msg then [msg] else []).
Proof.
  unfold opens_turn, files_result, step.
  destruct (role_of msg) as [role|]; cbn [mbind result_bind]; try discriminate.
  destruct (Py.eq_str role "user").
  - destruct (is_tool_result msg) as [[]|]; cbn [mbind result_bind]; try discriminate.
    intros _ [= <-]. auto.
  - intros _.
    assert (current_tool_results st
            ++ (if match is_tool_result msg with
                   | Ok true => false
                   | _ => false
                   end then [msg] else [])
            = current_tool_results st) as ->.
    { destruct (is_tool_result msg) as [[]|]; apply app_nil_r. }
    destruct (Py.eq_str role "assistant"); [|intros [= <-]; auto].
    destruct (msg_id_of msg) as [mid|]; cbn [mbind result_bind]; try discriminate.
    destruct (negb (Py.truthy mid)); [intros [= <-]; auto|].
    destruct (Py.eqb mid (current_msg_id st)); [intros [= <-]; auto|].
    destruct (finalize_message st) as [st1|] eqn:Hf; cbn [mbind result_bind];
      try discriminate.
    intros [= <-]. cbn.
    apply finalize_message_effects in Hf as (A & _ & _ & B & C). auto.
Qed.

Lemma assemble_within_turn records st st' :
  forallb (fun msg => negb (opens_turn msg)) records = true ->
  assemble net session_id k records st = (st', None) ->
  current_user st' = current_user st /\
  emitted st' = emitted st /\
  current_tool_results st' = current_tool_results st ++ turn_results records.
Proof.
  revert st. induction records as [|msg records IH]; simpl; intros st Hn H.
  - injection H as <-. rewrite app_nil_r. auto.
  - apply andb_true_iff in Hn as [Hm Hn]. apply negb_true_iff in Hm.
    destruct (step net session_id k st msg) as [st1|] eqn:Hs; [|discriminate].
    destruct (step_within_turn _ _ _ Hm Hs) as (A & B & C).
    destruct (IH _ Hn H) as (A' & B' & C').
    rewrite A', B', C', A, B, C. repeat split; auto.
    rewrite <- app_assoc. f_equal. unfold turn_results. simpl.
    destruct (files_result msg); reflexivity.
Qed.

(** A turn with a user message and an assistant message is compiled from
    the loop variables and posted. *)
Lemma emit_turn_compiles st st' :
  Py.truthy (current_user st) = true -> current_assistants st <> [] ->
  emit_turn net session_id k st = Ok st' ->
  exists e,
    emitted st' = emitted st ++ [e] /\
    create_keywordsai_spans session_id (em_turn_num e) (current_user st)
      (current_assistants st) (current_tool_results st) = Ok (em_spans e).
Proof.
  intros Hu Ha. unfold emit_turn. rewrite Hu.
  destruct (current_assistants st) as [|a l] eqn:Ea; [congruence|]. cbn [nonempty andb].
  destruct (create_keywordsai_spans _ _ _ _ _) as [spans|] eqn:Hc;
    cbn [mbind result_bind]; try discriminate.
  intros [= <-]. eexists. split; [reflexivity|]. exact Hc.
Qed.

(** Closing a turn leaves it as it was filed: the open message is merged,
    the user message and the tool results are kept. *)
Lemma step_closes st next st' :
  opens_turn next = true ->
  step net session_id k st next = Ok st' ->
  exists st1 st2,
    finalize_message st = Ok st1 /\ emit_turn net session_id k st1 = Ok st2 /\
    emitted st' = emitted st2.
Proof.
  unfold opens_turn, step.
  destruct (role_of next) as [role|]; try discriminate.
  destruct (is_tool_result next) as [[]|]; try discriminate.
  intros Hr. cbn [mbind result_bind]. rewrite Hr. cbn [mbind result_bind].
  intros H. bind_ok H. injection H as <-. eauto.
Qed.

(** C4 (amended). A plain user message [user] opens a turn; [records]
    are the records the loop reads next, none of them a plain user
    message; the turn is then closed, as the next plain user message
    does and as the end of the new records does: the open assistant
    message is merged and the turn is emitted.  Then the turn is compiled
    with exactly the tool result records among [records], in the order
    read, and for every tool invocation of the turn, whatever its
    identifier, the tool span at its position has as output the formatted
    content of the last tool result item among these records that
    carries the identifier (the formatted [None], the empty string, when
    there is none). *)
Theorem result_in_turn_is_attached st user records st0 st1 st2 st3 calls i key data :
  opens_turn user = true ->
  step net session_id k st user = Ok st0 ->
  forallb (fun msg => negb (opens_turn msg)) records = true ->
  assemble net session_id k records st0 = (st1, None) ->
  finalize_message st1 = Ok st2 ->
  emit_turn net session_id k st2 = Ok st3 ->
  collect_tool_calls (current_assistants st2) [] = Ok calls ->
  calls !! i = Some (key, data) ->
  (forall next st', opens_turn next = true ->
     step net session_id k st1 next = Ok st' -> emitted st' = emitted st3) /\
  exists e span out,
    emitted st3 = emitted st0 ++ [e] /\
    create_keywordsai_spans session_id (em_turn_num e) user (current_assistants st2)
      (turn_results records) = Ok (em_spans e) /\
    tool_spans_in (em_spans e) !! i = Some span /\
    format_tool_output (Py.dict_get data "name" PNone)
      (default PNone (last (results_for key (turn_results records)))) = Ok out /\
    record_field span "output" = Some (PStr out).
Proof.
  intros Hu Hs Hn Ha Hf He Hc Hi. split.
  { intros next st' Hnext Hstep.
    destruct (step_closes _ _ _ Hnext Hstep) as (s1 & s2 & A & B & C).
    congruence. }
  destruct (step_opens _ _ _ Hu Hs) as (U0 & R0).
  destruct (assemble_within_turn _ _ _ Hn Ha) as (U1 & E1 & R1).
  destruct (finalize_message_effects _ _ Hf) as (E2 & _ & _ & U2 & R2).
  assert (current_user st2 = user) as U by congruence.
  assert (current_tool_results st2 = turn_results records) as R.
  { rewrite R2, R1, R0. reflexivity. }
  assert (current_assistants st2 <> []) as Hne.
  { intros Heq. rewrite Heq in Hc. injection Hc as <-. destruct i; discriminate. }
  assert (Py.truthy (current_user st2) = true) as Ht.
  { rewrite U. now apply opens_turn_truthy. }
  destruct (emit_turn_compiles _ _ Ht Hne He) as (e & Ee & Hcr).
  rewrite U, R in Hcr.
  destruct (create_attaches_results _ _ _ _ _ _ _ _ _ _ Hcr Hc Hi)
    as (span & out & A & B & C).
  exists e, span, out. repeat split; auto. congruence.
Qed.
End TurnResults.

Section NoRaise.
Context `{rt : PyRuntime}.

Lemma get_content_ok msg : message_ok msg = true -> exists c, get_content msg = Ok c.
Proof.
  unfold message_ok, get_content. destruct msg as [| | | | | |d]; eauto.
  destruct (Py.lookup d "message") as [[| | | | | |m]|]; simpl; try discriminate; eauto.
Qed.

Lemma join_nl_ok parts :
  Forall (fun p => exists s, p = PStr s) parts -> exists s, Py.join_nl parts = Ok s.
Proof.
  induction 1 as [|p parts [s ->] _ [r IH]]; simpl; eauto.
  destruct parts; eauto. rewrite IH. simpl. eauto.
Qed.

Lemma text_parts_str items :
  forallb text_item_ok items = true ->
  Forall (fun p => exists s, p = PStr s) (omap text_part items).
Proof.
  induction items as [|item items IH]; simpl; intros H; [constructor|].
  apply andb_prop in H as [H1 H2]. unfold text_item_ok in H1.
  destruct (text_part item) as [[]|]; try discriminate; auto.
  constructor; eauto.
Qed.

Lemma get_text_content_ok msg c :
  get_content msg = Ok c -> texts_ok c = true ->
  exists s, get_text_content msg = Ok s.
Proof.
  intros Hc Ht. unfold get_text_content. rewrite Hc. simpl.
  destruct c; eauto. apply join_nl_ok, text_parts_str, Ht.
Qed.

Lemma assistant_header_ok msgs :
  forallb message_ok msgs = true -> exists h, assistant_header msgs = Ok h.
Proof.
  unfold assistant_header. destruct msgs as [|first rest]; simpl; eauto.
  intros H. apply andb_prop in H as [H _]. unfold message_ok in H.
  destruct first as [| | | | | |d]; eauto.
  destruct (Py.lookup d "message") as [[| | | | | |m]|]; simpl in *;
    try discriminate; eauto.
Qed.

Lemma count_int u k : count_ok u k = true -> exists z, Py.dict_get u k (PInt 0) = PInt z.
Proof.
  unfold count_ok, Py.dict_get.
  destruct (Py.lookup u k) as [[]|]; try discriminate; eauto.
Qed.

Lemma build_usage_ok usage metadata :
  usage_ok usage = true -> exists r, build_usage usage metadata = Ok r.
Proof.
  intros H. unfold build_usage. destruct (Py.truthy usage) eqn:Et; eauto.
  destruct usage as [| | | | | |u];
    try (unfold usage_ok in H; rewrite Et in H; discriminate).
  unfold usage_ok in H. repeat (apply andb_prop in H as [H ?]).
  unfold Py.get. cbn [mbind result_bind].
  destruct (count_int _ _ H) as [z1 ->].
  destruct (count_int _ _ H2) as [z2 ->].
  destruct (count_int _ _ H1) as [z3 ->].
  destruct (count_int _ _ H0) as [z4 ->].
  simpl. eauto.
Qed.

Lemma thinking_of_msgs_ok ctx msgs acc :
  forallb message_ok msgs = true -> exists spans, thinking_of_msgs ctx msgs acc = Ok spans.
Proof.
  revert acc. induction msgs as [|msg msgs IH]; simpl; intros acc H; eauto.
  apply andb_prop in H as [H1 H2]. unfold message_ok in H1.
  destruct msg as [| | | | | |d]; simpl; auto.
  destruct (Py.lookup d "message") as [[| | | | | |m]|]; simpl in *;
    try discriminate; auto.
  destruct (Py.dict_get m "content" (PList [])); simpl; auto.
Qed.
End NoRaise.

Section NoRaiseTools.
Context `{rt : PyRuntime}.

Lemma format_tool_input_ok name input :
  input_ok name input = true -> exists s, format_tool_input name input = Ok s.
Proof.
  intros H. unfold format_tool_input.
  destruct (negb (Py.truthy input)); eauto.
  destruct input as [| | | | | |d]; eauto.
  unfold input_ok, is_write in H.
  destruct (Py.eq_str name "Write" || Py.eq_str name "Edit"
            || Py.eq_str name "MultiEdit").
  - assert (exists c, Py.dict_get d "content" (PStr "") = PStr c) as [c ->].
    { unfold Py.dict_get.
      destruct (Py.lookup d "content") as [[]|]; try discriminate; eauto. }
    destruct (Py.truthy (PStr c)); eauto.
    cbn [Py.len mbind result_bind].
    destruct (2000 <? Z.of_nat (String.length c)); cbn [mbind result_bind]; eauto.
  - destruct (Py.eq_str name "Read"); eauto.
    destruct (Py.eq_str name "Bash" || Py.eq_str name "Shell"); eauto.
Qed.

Lemma output_parts_ok items n :
  forallb text_item_ok items = true ->
  exists parts, output_parts items n = Ok parts /\
                Forall (fun p => exists s, p = PStr s) parts.
Proof.
  revert n. induction items as [|item items IH]; intros n H.
  - exists []. split; [reflexivity|constructor].
  - simpl in H. apply andb_prop in H as [H1 H2]. simpl.
    assert (forall s,
               exists parts,
                 (Py.len (PStr s) ≫= λ k : Z,
                    if max_length <? n + k
                    then if 100 <? max_length - n
                         then cut_text (PStr s) (max_length - n) ≫= λ t, Ok [t]
                         else Ok []
                    else output_parts items (n + k) ≫= λ ps, Ok (PStr s :: ps))
                 = Ok parts /\ Forall (fun p => exists s, p = PStr s) parts) as Hb.
    { intros s. cbn [Py.len mbind result_bind].
      destruct (max_length <? n + Z.of_nat (String.length s)).
      - destruct (100 <? max_length - n); simpl.
        + eexists. split; [reflexivity|]. constructor; eauto.
        + eexists. split; [reflexivity|]. constructor.
      - destruct (IH (n + Z.of_nat (String.length s)) H2) as (ps & -> & Hps).
        simpl. eexists. split; [reflexivity|]. constructor; eauto. }
    destruct item as [| | | |s| |d].
    1-4,6: apply IH; assumption.
    + apply Hb.
    + unfold text_item_ok, text_part in H1.
      destruct (Py.eq_str (Py.dict_get d "type" PNone) "text").
      * destruct (Py.dict_get d "text" (PStr "")); try discriminate. apply Hb.
      * destruct (Py.eq_str (Py.dict_get d "type" PNone) "image").
        -- destruct (IH n H2) as (ps & -> & Hps). simpl.
           eexists. split; [reflexivity|]. constructor; eauto.
        -- match goal with |- context [output_parts items ?k] =>
             destruct (IH k H2) as (ps & -> & Hps) end.
           simpl. eexists. split; [reflexivity|]. constructor; eauto.
Qed.

Lemma format_tool_output_ok name output :
  texts_ok output = true -> exists s, format_tool_output name output = Ok s.
Proof.
  intros H. unfold format_tool_output.
  destruct (negb (Py.truthy output)); eauto.
  destruct output as [| | | |o|l|d]; eauto.
  - destruct (max_length <? Z.of_nat (String.length o)); eauto.
  - destruct (output_parts_ok l 0 H) as (parts & -> & Hp). simpl.
    now apply join_nl_ok.
  - destruct (Py.contains d "success"); eauto.
Qed.

Lemma tool_span_ok ctx num data :
  call_ok data -> exists span, tool_span ctx num data = Ok span.
Proof.
  intros (Hin & Hout & Hmd). unfold tool_span.
  destruct (format_tool_input_ok _ _ Hin) as [fi ->].
  destruct (format_tool_output_ok (Py.dict_get data "name" PNone) _ Hout) as [fo ->].
  cbn [mbind result_bind].
  destruct (Py.truthy (Py.dict_get data "result_metadata" PNone)) eqn:Et; eauto.
  unfold md_ok in Hmd.
  destruct (Py.dict_get data "result_metadata" PNone) as [| | | | | |md];
    try (rewrite Et in Hmd; discriminate).
  unfold Py.get. cbn [mbind result_bind].
  unfold duration_ok in Hmd.
  assert (Py.dict_get md "duration_ms" PNone = PNone \/
          exists z, Py.dict_get md "duration_ms" PNone = PInt z /\
                    (Z.abs z <? Py.float_max_int) = true) as [-> | (z & -> & Hz)].
  { unfold Py.dict_get.
    destruct (Py.lookup md "duration_ms") as [[]|]; try discriminate; eauto. }
  - simpl. eauto.
  - destruct (Py.truthy (PInt z)); eauto.
    unfold Py.div1000, Py.float_of_Z. rewrite Hz. simpl. eauto.
Qed.

Lemma tool_spans_ok ctx entries num :
  Forall (fun e => call_ok (snd e)) entries ->
  exists spans, tool_spans ctx entries num = Ok spans.
Proof.
  intros H. revert num. induction H as [|[key data] entries Hd _ IH]; intros num; simpl.
  - eauto.
  - destruct (tool_span_ok ctx (num + 1) data Hd) as [span ->].
    destruct (IH (num + 1)) as [more ->]. simpl. eauto.
Qed.
End NoRaiseTools.

Section NoRaiseTurn.
Context `{rt : PyRuntime}.

Lemma map_set_call_ok m k v :
  Forall (fun e => call_ok (snd e)) m -> call_ok v ->
  Forall (fun e => call_ok (snd e)) (map_set m k v).
Proof. intros Hm Hv. apply map_set_Forall; auto. Qed.

Lemma map_update_call_ok m u f :
  Forall (fun e => call_ok (snd e)) m -> (forall d, call_ok d -> call_ok (f d)) ->
  Forall (fun e => call_ok (snd e)) (map_update m u f).
Proof.
  intros Hm Hf. induction Hm as [|[k v] m Hv Hm IH]; simpl; [constructor|].
  destruct (Py.key_eqb k u); constructor; simpl in *; auto.
Qed.

Lemma add_tool_calls_ok ts tool_calls m :
  Forall (fun e => call_ok (snd e)) m ->
  forallb (is_block "tool_use") tool_calls = true ->
  forallb tool_use_ok tool_calls = true ->
  exists m', add_tool_calls ts tool_calls m = Ok m' /\
             Forall (fun e => call_ok (snd e)) m'.
Proof.
  revert m. induction tool_calls as [|tc tcs IH]; simpl; intros m Hm Hb Hok; eauto.
  apply andb_prop in Hb as [Hb1 Hb2]. apply andb_prop in Hok as [Hok1 Hok2].
  destruct tc as [| | | | | |d]; try discriminate.
  unfold tool_use_ok in Hok1. apply andb_prop in Hok1 as [Hh Hi].
  cbn [Py.get mbind result_bind]. rewrite Hh.
  apply IH; auto. apply map_set_call_ok; auto.
  repeat split; auto.
Qed.

Lemma filter_all {A} (p : A -> bool) l : forallb p (List.filter p l) = true.
Proof.
  induction l as [|x l IH]; simpl; auto.
  destruct (p x) eqn:E; simpl; auto. now rewrite E.
Qed.

Lemma collect_tool_calls_ok msgs m :
  Forall (fun e => call_ok (snd e)) m ->
  forallb assistant_ok msgs = true ->
  exists m', collect_tool_calls msgs m = Ok m' /\
             Forall (fun e => call_ok (snd e)) m'.
Proof.
  revert m. induction msgs as [|msg msgs IH]; simpl; intros m Hm H; eauto.
  apply andb_prop in H as [H1 H2]. unfold assistant_ok in H1.
  apply andb_prop in H1 as [Hmsg Hc].
  destruct (get_content_ok _ Hmsg) as [c Ec]. rewrite Ec in Hc.
  apply andb_prop in Hc as [_ Hu].
  unfold get_tool_calls. rewrite Ec. cbn [mbind result_bind].
  set (ts := match msg with PDict d => Py.dict_get d "timestamp" PNone | _ => PNone end).
  destruct c as [| | | | |items|]; cbn [mbind result_bind add_tool_calls]; auto.
  destruct (add_tool_calls_ok ts (List.filter (is_block "tool_use") items) m Hm
              (filter_all _ _) Hu) as (m1 & -> & Hm1).
  cbn [mbind result_bind]. auto.
Qed.

Lemma copy_key_dict t key name md :
  copy_key (PDict t) key name md
  = Ok (match Py.lookup t key with Some v => Py.set md name v | None => md end).
Proof. unfold copy_key. now destruct (Py.lookup t key). Qed.

Lemma result_metadata_ok tr :
  tool_use_result_ok tr = true ->
  exists md, result_metadata tr = Ok md /\ duration_ok md "duration_ms" = true.
Proof.
  unfold tool_use_result_ok, result_metadata.
  destruct tr as [| | | | | |d]; try (intros _; exists []; split; reflexivity).
  destruct (Py.truthy (Py.dict_get d "toolUseResult" (PDict []))) eqn:Et.
  2:{ intros _. exists []. split; reflexivity. }
  destruct (Py.dict_get d "toolUseResult" (PDict [])) as [| | | | | |t];
    try (rewrite Et; discriminate).
  intros H. rewrite !copy_key_dict. cbn [mbind result_bind].
  rewrite !copy_key_dict. cbn [mbind result_bind].
  rewrite !copy_key_dict. cbn [mbind result_bind].
  rewrite !copy_key_dict.
  eexists. split; [reflexivity|].
  unfold duration_ok in *.
  repeat match goal with
    | |- context [match Py.lookup t ?k with _ => _ end] =>
        destruct (Py.lookup t k) eqn:?
    end;
    rewrite ?lookup_set_ne by discriminate;
    rewrite ?lookup_set_eq; simpl; auto.
Qed.

Lemma attach_result_other o md ts d k :
  k <> "output" -> k <> "result_metadata" -> k <> "result_timestamp" ->
  Py.lookup (attach_result o md ts d) k = Py.lookup d k.
Proof. intros. unfold attach_result. now rewrite !lookup_set_ne by congruence. Qed.

Lemma attach_result_md o md ts d :
  Py.lookup (attach_result o md ts d) "result_metadata" = Some (PDict md).
Proof.
  unfold attach_result. rewrite lookup_set_ne by discriminate. apply lookup_set_eq.
Qed.

Lemma attach_result_call_ok o md ts d :
  texts_ok o = true -> duration_ok md "duration_ms" = true ->
  call_ok d -> call_ok (attach_result o md ts d).
Proof.
  intros Ho Hmd (A & B & C). unfold call_ok, Py.dict_get.
  rewrite !attach_result_other by discriminate.
  rewrite attach_result_output, attach_result_md. repeat split; auto.
Qed.

Lemma match_items_ok md ts items m :
  duration_ok md "duration_ms" = true ->
  Forall (fun e => call_ok (snd e)) m ->
  forallb result_item_ok items = true ->
  exists m', match_items md ts items m = Ok m' /\
             Forall (fun e => call_ok (snd e)) m'.
Proof.
  intros Hmd. revert m. induction items as [|item items IH]; simpl; intros m Hm H; eauto.
  apply andb_prop in H as [H1 H2]. unfold result_item_ok, is_block in H1.
  destruct item as [| | | | | |d]; auto.
  destruct (Py.eq_str (Py.dict_get d "type" PNone) "tool_result"); auto.
  apply andb_prop in H1 as [Hh Ht]. simpl in Hh, Ht. rewrite Hh.
  apply IH; auto.
  destruct (map_mem m _); auto.
  apply map_update_call_ok; auto. intros d0. now apply attach_result_call_ok.
Qed.

Lemma match_results_ok trs m :
  Forall (fun e => call_ok (snd e)) m ->
  forallb tool_result_ok trs = true ->
  exists m', match_results trs m = Ok m' /\
             Forall (fun e => call_ok (snd e)) m'.
Proof.
  revert m. induction trs as [|tr trs IH]; simpl; intros m Hm H; eauto.
  apply andb_prop in H as [H1 H2]. unfold tool_result_ok in H1.
  apply andb_prop in H1 as [H1 Hitems]. apply andb_prop in H1 as [Hmsg Htur].
  destruct (get_content_ok _ Hmsg) as [c Ec]. rewrite Ec in *.
  destruct (result_metadata_ok _ Htur) as (md & -> & Hmd).
  cbn [mbind result_bind].
  assert (exists m1,
             match c, tr with
             | PList items, PDict d =>
                 match_items md (Py.dict_get d "timestamp" PNone) items m
             | _, _ => Ok m
             end = Ok m1 /\ Forall (fun e => call_ok (snd e)) m1) as (m1 & -> & Hm1).
  { destruct c; eauto. destruct tr; eauto. now apply match_items_ok. }
  cbn [mbind result_bind]. auto.
Qed.
End NoRaiseTurn.

Section NoRaiseChat.
Context `{rt : PyRuntime}.

Lemma forallb_last {A} (p : A -> bool) (l : list A) x :
  forallb p l = true -> last l = Some x -> p x = true.
Proof.
  intros H Hl. rewrite forallb_forall in H. apply H.
  apply list_elem_of_In. rewrite last_lookup in Hl.
  eapply list_elem_of_lookup_2; eauto.
Qed.

Lemma forallb_weaken {A} (p q : A -> bool) (l : list A) :
  (forall x, p x = true -> q x = true) -> forallb p l = true -> forallb q l = true.
Proof.
  intros Hpq. induction l as [|x l IH]; simpl; auto.
  intros H. apply andb_prop in H as [H1 H2]. rewrite (Hpq _ H1), IH; auto.
Qed.

Lemma assistant_ok_message msg : assistant_ok msg = true -> message_ok msg = true.
Proof. unfold assistant_ok. intros H. now apply andb_prop in H as [H _]. Qed.

Lemma assistant_ok_text msg :
  assistant_ok msg = true -> exists s, get_text_content msg = Ok s.
Proof.
  intros H. unfold assistant_ok in H. apply andb_prop in H as [Hm Hc].
  destruct (get_content_ok _ Hm) as [c Ec]. rewrite Ec in Hc.
  apply andb_prop in Hc as [Ht _]. eapply get_text_content_ok; eauto.
Qed.

(** The model and usage the header reads when the first assistant
    message has none. *)
Lemma assistant_header_defaults msgs model usage rid stop ts :
  assistant_header msgs = Ok (model, usage, rid, stop, ts) ->
  ((forall first, head msgs = Some first -> message_field first "model" = None) ->
   model = PStr "claude") /\
  ((forall first, head msgs = Some first -> message_field first "usage" = None) ->
   usage = PNone).
Proof.
  unfold assistant_header. destruct msgs as [|first rest]; simpl.
  { intros [= <- <- <- <- <-]. auto. }
  destruct first as [| | | | | |d]; try (intros [= <- <- <- <- <-]; auto).
  destruct (Py.lookup d "message") as [m|] eqn:Em;
    [|intros [= <- <- <- <- <-]; auto].
  destruct m as [| | | | | |md]; try discriminate.
  cbn [Py.get mbind result_bind]. intros [= <- <- <- <- <-].
  split; intros H; specialize (H _ eq_refl); unfold message_field in H;
    rewrite Em in H; unfold Py.dict_get; now rewrite H.
Qed.

Lemma chat_span_of_ok sid n user_msg assistant_msgs :
  Py.is_dict user_msg = true ->
  message_ok user_msg = true ->
  match get_content user_msg with Ok c => texts_ok c | Raise _ => true end = true ->
  forallb assistant_ok assistant_msgs = true ->
  header_usage_ok assistant_msgs = true ->
  timestamps_ok user_msg assistant_msgs = true ->
  exists chat ctx,
    chat_span_of sid n user_msg assistant_msgs = Ok (chat, ctx) /\
    ((forall first, head assistant_msgs = Some first ->
                    message_field first "model" = None) ->
     record_field chat "model" = Some (PStr "claude")) /\
    ((forall first, head assistant_msgs = Some first ->
                    message_field first "usage" = None) ->
     record_field chat "prompt_tokens" = None).
Proof.
  intros Hd Hm Ht Ha Hu Hts. unfold chat_span_of.
  destruct (get_content_ok _ Hm) as [c Ec]. rewrite Ec in Ht.
  destruct (get_text_content_ok _ _ Ec Ht) as [user_text ->].
  destruct user_msg as [| | | | | |ud]; try discriminate.
  cbn [Py.get mbind result_bind].
  assert (exists final_output,
             match last assistant_msgs with
             | Some m => get_text_content m
             | None => Ok ""
             end = Ok final_output) as [final_output ->].
  { destruct (last assistant_msgs) as [m|] eqn:El; eauto.
    apply assistant_ok_text. eapply forallb_last; eauto. }
  cbn [mbind result_bind].
  destruct (assistant_header_ok assistant_msgs
              (forallb_weaken _ _ _ assistant_ok_message Ha))
    as [[[[[model usage] rid] stop] ts] Eh].
  unfold header_usage_ok in Hu. unfold timestamps_ok in Hts.
  rewrite Eh in *. cbn [mbind result_bind].
  assert (exists lat, turn_latency (time_of (Py.dict_get ud "timestamp" PNone))
                        (time_of ts) = Ok lat) as [lat ->].
  { unfold turn_latency.
    destruct (time_of (Py.dict_get ud "timestamp" PNone)); eauto.
    destruct (time_of ts); eauto.
    destruct (sub_total_seconds d0 d); [eauto|discriminate]. }
  cbn [mbind result_bind].
  destruct (build_usage_ok usage (turn_metadata n rid stop) Hu) as [[uo md] Eb].
  rewrite Eb. cbn [mbind result_bind].
  eexists _, _. split; [reflexivity|].
  destruct (assistant_header_defaults _ _ _ _ _ _ Eh) as [Dm Du].
  split; intros H.
  - rewrite chat_span_field by discriminate. rewrite (Dm H). reflexivity.
  - rewrite (Du H) in Eb. simpl in Eb. injection Eb as <- <-.
    unfold chat_span, record_field. cbn [add_usage].
    destruct lat; rewrite ?lookup_set_ne by discriminate; reflexivity.
Qed.

(** C9 (amended). For every turn whose fields, where present, have the
    types of the log format ([well_typed_turn]),
    [create_keywordsai_spans] returns a span list and raises nothing;
    absent fields fall back to defaults: without a model in the first
    assistant message the root span's model is ["claude"], and without
    usage the root span has no token fields. *)
Theorem well_typed_turn_never_raises sid n user_msg assistant_msgs tool_results :
  well_typed_turn user_msg assistant_msgs tool_results = true ->
  exists spans root,
    create_keywordsai_spans sid n user_msg assistant_msgs tool_results = Ok spans /\
    head spans = Some root /\
    ((forall first, head assistant_msgs = Some first ->
                    message_field first "model" = None) ->
     record_field root "model" = Some (PStr "claude")) /\
    ((forall first, head assistant_msgs = Some first ->
                    message_field first "usage" = None) ->
     record_field root "prompt_tokens" = None).
Proof.
  intros H. unfold well_typed_turn in H.
  repeat match type of H with
    | (_ && _) = true => let H' := fresh "W" in apply andb_prop in H as [H H']
    end.
  destruct (chat_span_of_ok sid n _ _ H W4 W3 W2 W1 W0)
    as (chat & ctx & Ec & Dm & Du).
  unfold create_keywordsai_spans. rewrite Ec. cbn [mbind result_bind].
  destruct (thinking_of_msgs_ok ctx assistant_msgs []
              (forallb_weaken _ _ _ assistant_ok_message W2)) as [thinking ->].
  cbn [mbind result_bind].
  destruct (collect_tool_calls_ok assistant_msgs [] (List.Forall_nil _) W2)
    as (calls & -> & Hcalls).
  cbn [mbind result_bind].
  destruct (match_results_ok tool_results calls Hcalls W) as (calls' & -> & Hcalls').
  cbn [mbind result_bind].
  destruct (tool_spans_ok ctx calls' 0 Hcalls') as [tools ->].
  cbn [mbind result_bind].
  exists (chat :: thinking ++ tools), chat. auto.
Qed.
End NoRaiseChat.

(** * The run-level claims *)

Section RunClaims.
Context `{rt : PyRuntime}.

(** The trace identifier of turn [n] of a session. *)
Lemma make_ctx_trace sid n ts start :
  ctx_trace_unique_id (make_ctx sid n ts start) = sid +:+ "_turn_" +:+ pretty n.
Proof. reflexivity. Qed.


(** C1. For every transcript and stored state whose cursor is at or
    past the total number of lines, a run returns 0, builds no turn,
    POSTs nothing and leaves the state file alone. *)
Theorem replay_at_cursor_is_noop net sid transcript state :
  total_lines transcript <= stored_last_line state sid ->
  process_transcript net sid transcript state
  = {| run_emitted := [];
       run_logged := [DebugNoNewLines (stored_last_line state sid)
                        (total_lines transcript)];
       run_saved := None;
       run_result := Ok 0 |}.
Proof.
  intros H. unfold process_transcript, total_lines in *.
  apply Z.leb_le in H. rewrite H. reflexivity.
Qed.

(** C2 (amended). For every stored turn counter [k] and every run that
    parses at least one new record and returns [n]: the run emitted [n]
    turns, numbered [k + 1] to [k + n] in order, each with the spans
    compiled under its number, and the saved state has [turn_count]
    [k + n] and [last_line] the total line count. *)
Theorem turn_numbers_continue net sid transcript state msgs n :
  new_messages (read_lines transcript) (stored_last_line state sid) = Ok msgs ->
  msgs <> [] ->
  run_result (process_transcript net sid transcript state) = Ok n ->
  let r := process_transcript net sid transcript state in
  let k := stored_turns state sid in
  n = Z.of_nat (length (run_emitted r)) /\
  map em_turn_num (run_emitted r)
    = map (fun i => k + Z.of_nat i) (seq 1 (length (run_emitted r))) /\
  Forall (fun e => exists user assistants results,
            create_keywordsai_spans sid (em_turn_num e) user assistants results
            = Ok (em_spans e)) (run_emitted r) /\
  run_saved r
    = Some (<[sid := {| last_line := total_lines transcript;
                        turn_count := k + n;
                        updated := utcnow_isoformat |}]> state).
Proof.
  intros Hnew Hne Hres. cbv zeta.
  destruct (process_transcript_returns _ _ _ _ _ Hres)
    as [Hle | [Hnone | (msgs' & st & st1 & st2 & Hnew' & Hne' & Hasm & Hfin & Hemit & ->)]].
  - unfold total_lines in Hle. rewrite (new_messages_caught_up _ _ Hle) in Hnew.
    congruence.
  - congruence.
  - rewrite (process_transcript_completed _ _ _ _ _ _ _ _ Hnew' Hne' Hasm Hfin Hemit).
    destruct (completed_state_numbered _ _ _ _ _ _ _ Hasm Hfin Hemit) as (A & B & C).
    simpl. repeat split; auto.
Qed.


(** C10. Every span list the compiler returns is the root span, then
    the thinking spans, then the tool spans: the root has [log_type]
    ["agent"] and a null parent, every other span has the root's
    [span_unique_id] as parent, and all carry the trace identifier
    [{session_id}_turn_{turn_num}]. *)
Theorem span_tree_shape sid n user_msg assistant_msgs tool_results spans :
  create_keywordsai_spans sid n user_msg assistant_msgs tool_results = Ok spans ->
  let trace := sid +:+ "_turn_" +:+ pretty n in
  let root_id := "turn_" +:+ pretty n +:+ "_chat" in
  exists root thinking tools,
    spans = root :: thinking ++ tools /\
    span_has "agent" PNone trace root /\
    record_field root "span_unique_id" = Some (PStr root_id) /\
    Forall (span_has "generation" (PStr root_id) trace) thinking /\
    Forall (span_has "tool" (PStr root_id) trace) tools.
Proof.
  intros H. cbv zeta.
  destruct (create_keywordsai_spans_parts _ _ _ _ _ _ H)
    as (chat & ctx & thinking & calls & calls' & tools & H1 & H2 & H3 & H4 & H5 & ->).
  destruct (chat_span_of_ctx _ _ _ _ _ _ H1)
    as (ut & fo & model & md & uo & lat & ts & start & Hctx & Hchat).
  exists chat, thinking, tools.
  assert (Forall (child_of ctx "generation") thinking) as Hth.
  { eapply thinking_of_msgs_children; [constructor|exact H2]. }
  destruct (tool_spans_children _ _ _ _ H5) as [Hto _].
  subst ctx. repeat split; auto;
    try (rewrite Hchat, chat_span_field by discriminate; reflexivity).
Qed.
End RunClaims.

(** * The claims on the examples *)

(** C1 on the session of three turns, all three already consumed. *)
Lemma replay_at_cursor_is_noop_witness :
  @total_lines Example.rt (Example.transcript Example.three_turns)
    <= stored_last_line Example.after_three_turns "s" /\
  @process_transcript Example.rt (fun _ => true) "s"
    (Example.transcript Example.three_turns) Example.after_three_turns
  = {| run_emitted := []; run_logged := [DebugNoNewLines 6 6];
       run_saved := None; run_result := Ok 0 |}.
Proof.
  assert (@total_lines Example.rt (Example.transcript Example.three_turns)
            <= stored_last_line Example.after_three_turns "s") as H
    by (vm_compute; discriminate).
  split; [exact H|].
  exact (@replay_at_cursor_is_noop Example.rt (fun _ => true) "s" _ _ H).
Defined.

(** C2 as stated fails on a run that parses nothing new: the transcript
    has three lines, the third not valid JSON; the run returns 0 turns
    and [last_line] stays 2 in the state file, not 3. *)
Lemma unparsed_tail_keeps_old_cursor :
  run_result (@process_transcript Example.rt (fun _ => true) "s"
                Example.one_turn_and_a_half Example.after_one_turn) = Ok 0 /\
  @total_lines Example.rt Example.one_turn_and_a_half = 3 /\
  last_line <$> (persisted_after Example.after_one_turn
                   (@process_transcript Example.rt (fun _ => true) "s"
                      Example.one_turn_and_a_half Example.after_one_turn) !! "s")
  = Some 2.
Proof. vm_compute. repeat split. Qed.

(** A run stopped by an exception saves nothing either: the array has no
    [get], the turn emitted before it is not counted in the state file. *)
Lemma raising_record_saves_nothing :
  @process_transcript Example.rt (fun _ => true) "s"
    (Example.transcript Example.stray_array) ∅
  = {| run_emitted :=
         run_emitted (@process_transcript Example.rt (fun _ => true) "s"
                        (Example.transcript Example.one_turn) ∅);
       run_logged := [DebugProcessing 4; DebugSent 1 1];
       run_saved := None;
       run_result := Raise AttributeError |}.
Proof. vm_compute. reflexivity. Qed.

(** C2 (amended) on the third turn of a session whose first two turns
    were emitted by an earlier run: exactly turn 3 is emitted. *)
Lemma turn_numbers_continue_witness :
  @new_messages Example.rt
    (@read_lines Example.rt (Example.transcript Example.three_turns))
    (stored_last_line Example.after_two_turns "s")
  = Ok [Example.user "third"; Example.assistant "m3" [Example.text "three"]] /\
  run_result (@process_transcript Example.rt (fun _ => false) "s"
                (Example.transcript Example.three_turns) Example.after_two_turns)
  = Ok 1 /\
  map em_turn_num
    (run_emitted (@process_transcript Example.rt (fun _ => false) "s"
                    (Example.transcript Example.three_turns) Example.after_two_turns))
  = [3] /\
  run_saved (@process_transcript Example.rt (fun _ => false) "s"
               (Example.transcript Example.three_turns) Example.after_two_turns)
  = Some (<["s" := {| last_line := 6; turn_count := 3;
                      updated := @utcnow_isoformat Example.rt |}]>
            Example.after_two_turns).
Proof.
  assert (@new_messages Example.rt
            (@read_lines Example.rt (Example.transcript Example.three_turns))
            (stored_last_line Example.after_two_turns "s")
          = Ok [Example.user "third"; Example.assistant "m3" [Example.text "three"]])
    as H1 by (vm_compute; reflexivity).
  assert ([Example.user "third"; Example.assistant "m3" [Example.text "three"]] <> [])
    as H2 by discriminate.
  assert (run_result (@process_transcript Example.rt (fun _ => false) "s"
                        (Example.transcript Example.three_turns)
                        Example.after_two_turns) = Ok 1)
    as H3 by (vm_compute; reflexivity).
  destruct (@turn_numbers_continue Example.rt (fun _ => false) "s" _ _ _ _ H1 H2 H3)
    as (_ & _ & _ & S).
  split; [exact H1|]. split; [exact H3|]. split; [vm_compute; reflexivity|].
  rewrite S. reflexivity.
Defined.

(** C3 on a message in three fragments. *)
Lemma merge_concatenates_blocks_witness :
  Forall2 (fun p bs => message_field p "content" = Some (PList bs))
    Example.fragments
    [[Example.thinking "hm"; Example.text "a"]; [Example.text "b"];
     [Example.tool_use "t1" "Bash" [("command", PStr "ls")]]] /\
  exists merged,
    @merge_assistant_parts Example.rt Example.fragments = Ok merged /\
    message_field merged "content"
    = Some (PList [Example.thinking "hm"; Example.text "a"; Example.text "b";
                   Example.tool_use "t1" "Bash" [("command", PStr "ls")]]) /\
    message_field merged "model" = Some (PStr "x") /\
    record_field merged "timestamp" = Some (PStr "2024-01-01T00:00:01Z").
Proof.
  assert (Forall2 (fun p bs => message_field p "content" = Some (PList bs))
            Example.fragments
            [[Example.thinking "hm"; Example.text "a"]; [Example.text "b"];
             [Example.tool_use "t1" "Bash" [("command", PStr "ls")]]]) as H
    by (repeat constructor).
  split; [exact H|].
  destruct (@merge_concatenates_blocks Example.rt _ _ _ H) as (merged & A & B & C & D).
  exists merged. split; [exact A|]. split; [exact B|]. split.
  - rewrite C by discriminate. reflexivity.
  - rewrite D by discriminate. reflexivity.
Defined.

(** C4 as stated fails when the result arrives after the next user
    message: turn 1 is compiled with an empty tool output, and turn 2,
    which receives the result record, has no tool span to attach it to. *)
Lemma late_result_is_dropped :
  map (fun e => map (fun span => (record_field span "span_unique_id",
                                  record_field span "output"))
                  (tool_spans_in (em_spans e)))
    (run_emitted (@process_transcript Example.rt (fun _ => true) "s"
                    (Example.transcript Example.late_result) ∅))
  = [[(Some (PStr "turn_1_tool_1"), Some (PStr ""))]; []].
Proof. vm_compute. reflexivity. Qed.

(** C4 (amended) on a turn with two calls answered in the other order:
    the loop files both result records, the run over the transcript of
    the turn posts what the loop emitted, and the span of the second
    call has the content of the first record. *)
Lemma result_in_turn_is_attached_witness :
  let net := fun _ : nat => true in
  let records := Example.two_calls :: Example.answers_swapped in
  exists st0 st1 st2 st3 e span,
    @step Example.rt_answered net "s" 0 (initial_state 4) (Example.user "x") = Ok st0 /\
    @assemble Example.rt_answered net "s" 0 records st0 = (st1, None) /\
    @finalize_message Example.rt_answered st1 = Ok st2 /\
    @emit_turn Example.rt_answered net "s" 0 st2 = Ok st3 /\
    turn_results records = Example.answers_swapped /\
    emitted st3 = [e] /\
    run_emitted (@process_transcript Example.rt_answered net "s"
                   (Example.transcript Example.answered_turn) ∅) = [e] /\
    tool_spans_in (em_spans e) !! 1%nat = Some span /\
    record_field span "output" = Some (PStr "two").
Proof.
  intros net records.
  let v := eval vm_compute in
    (@step Example.rt_answered net "s" 0 (initial_state 4) (Example.user "x")) in
  match v with Ok ?s => pose (st0 := s) end.
  assert (@step Example.rt_answered net "s" 0 (initial_state 4) (Example.user "x")
          = Ok st0) as H0 by (vm_compute; reflexivity).
  let v := eval vm_compute in (@assemble Example.rt_answered net "s" 0 records st0) in
  match v with (?s, _) => pose (st1 := s) end.
  assert (@assemble Example.rt_answered net "s" 0 records st0 = (st1, None))
    as H1 by (vm_compute; reflexivity).
  let v := eval vm_compute in (@finalize_message Example.rt_answered st1) in
  match v with Ok ?s => pose (st2 := s) end.
  assert (@finalize_message Example.rt_answered st1 = Ok st2)
    as H2 by (vm_compute; reflexivity).
  let v := eval vm_compute in (@emit_turn Example.rt_answered net "s" 0 st2) in
  match v with Ok ?s => pose (st3 := s) end.
  assert (@emit_turn Example.rt_answered net "s" 0 st2 = Ok st3)
    as H3 by (vm_compute; reflexivity).
  let v := eval vm_compute in (collect_tool_calls (current_assistants st2) []) in
  match v with Ok ?c => pose (calls := c) end.
  assert (collect_tool_calls (current_assistants st2) [] = Ok calls)
    as H4 by (vm_compute; reflexivity).
  let v := eval vm_compute in (calls !! 1%nat) in
  match v with Some (_, ?d) => pose (data := d) end.
  assert (calls !! 1%nat = Some (PStr "t2", data)) as H5 by (vm_compute; reflexivity).
  assert (run_emitted (@process_transcript Example.rt_answered net "s"
                         (Example.transcript Example.answered_turn) ∅)
          = emitted st3) as H6 by (vm_compute; reflexivity).
  destruct (@result_in_turn_is_attached Example.rt_answered net "s" 0 (initial_state 4)
              (Example.user "x") records st0 st1 st2 st3 calls 1%nat (PStr "t2") data
              eq_refl H0 eq_refl H1 H2 H3 H4 H5)
    as (_ & e & span & out & A & B & C & D & E).
  exists st0, st1, st2, st3, e, span.
  split; [exact H0|]. split; [exact H1|]. split; [exact H2|].
  split; [exact H3|]. split; [reflexivity|].
  split; [exact A|]. split; [rewrite H6; exact A|]. split; [exact C|].
  rewrite E. vm_compute in D. injection D as <-. reflexivity.
Defined.

(** C5 as stated fails when no message with an identifier is open: the
    fragment is held but never finalized; the turn's only assistant
    message is the later one, and the root span's completion has its
    text alone. *)
Lemma idless_fragment_without_open_message_is_lost :
  current_assistants <$>
    @finalize_message Example.rt
      (fst (@assemble Example.rt (fun _ => true) "s" 0 Example.early_part
              (initial_state 3)))
  = Ok [Example.assistant "m1" [Example.text "kept"]] /\
  map (fun e => record_field (default PNone (head (em_spans e))) "completion_message")
    (run_emitted (@process_transcript Example.rt (fun _ => true) "s"
                    (Example.transcript Example.early_part) ∅))
  = [Some (PDict [("role", PStr "assistant"); ("content", PStr "kept")])].
Proof. vm_compute. split; reflexivity. Qed.

(** C5 (amended) on a fragment that follows a first fragment of [m1]. *)
Lemma idless_fragment_joins_open_message_witness :
  Py.truthy (current_msg_id Example.open_message) = true /\
  role_of (Example.assistant_part [Example.text "b"]) = Ok (PStr "assistant") /\
  msg_id_of (Example.assistant_part [Example.text "b"]) = Ok PNone /\
  @merge_assistant_parts Example.rt (current_assistant_parts Example.open_message)
  = Ok (Example.assistant "m1" [Example.text "a"]) /\
  exists st' st'' m1,
    @step Example.rt (fun _ => true) "s" 0 Example.open_message
      (Example.assistant_part [Example.text "b"]) = Ok st' /\
    @finalize_message Example.rt st' = Ok st'' /\
    current_assistants st'' = [m1] /\
    get_content m1 = Ok (PList [Example.text "a"; Example.text "b"]).
Proof.
  assert (current_assistant_parts Example.open_message <> []) as Hne by discriminate.
  destruct (@idless_fragment_joins_open_message Example.rt (fun _ => true) "s" 0
              Example.open_message (Example.assistant_part [Example.text "b"])
              PNone (Example.assistant "m1" [Example.text "a"])
              eq_refl Hne eq_refl eq_refl eq_refl eq_refl)
    as (st' & st'' & c & bs & m1 & A & B & C & D & E & F & G & H & I).
  repeat (split; [reflexivity|]).
  exists st', st'', m1. split; [exact A|]. split; [exact G|]. split; [exact H|].
  rewrite I. vm_compute in E. injection E as <-. vm_compute in F. injection F as <-.
  reflexivity.
Defined.

(** C6 on a turn followed by the user message of the next. *)
Lemma dangling_user_is_deferred_witness :
  exists st st1,
    @assemble Example.rt (fun _ => true) "s" (stored_turns ∅ "s") Example.dangling
      (initial_state (length Example.dangling)) = (st, None) /\
    @finalize_message Example.rt st = Ok st1 /\
    current_user st1 = Example.user "second" /\
    current_assistants st1 = [] /\
    run_result (@process_transcript Example.rt (fun _ => true) "s"
                  (Example.transcript Example.dangling) ∅) = Ok 1 /\
    map em_turn_num
      (run_emitted (@process_transcript Example.rt (fun _ => true) "s"
                      (Example.transcript Example.dangling) ∅)) = [1] /\
    stored_last_line
      (persisted_after ∅ (@process_transcript Example.rt (fun _ => true) "s"
                            (Example.transcript Example.dangling) ∅)) "s" = 3.
Proof.
  eexists _, _.
  split; [vm_compute; reflexivity|].
  split; [vm_compute; reflexivity|].
  split; [reflexivity|]. split; [reflexivity|].
  assert (@new_messages Example.rt
            (@read_lines Example.rt (Example.transcript Example.dangling))
            (stored_last_line ∅ "s") = Ok Example.dangling) as Hnew
    by (vm_compute; reflexivity).
  destruct (@dangling_user_is_deferred Example.rt (fun _ => true) "s"
              (Example.transcript Example.dangling) ∅ Example.dangling _ _
              Hnew eq_refl eq_refl eq_refl eq_refl) as (A & B & C & D).
  split; [rewrite A; reflexivity|]. split; [rewrite B; reflexivity|].
  unfold persisted_after. rewrite C. vm_compute. reflexivity.
Defined.

(** C8 on a turn whose one tool call got no result. *)
Lemma unresolved_tool_call_span_witness :
  exists spans calls data,
    @create_keywordsai_spans Example.rt "s" 1 (Example.user "x")
      [Example.two_calls] [Example.tool_result "t2" "two"] = Ok spans /\
    collect_tool_calls [Example.two_calls] [] = Ok calls /\
    calls !! 0%nat = Some (PStr "t1", data) /\
    results_for (PStr "t1") [Example.tool_result "t2" "two"] = [] /\
    length (tool_spans_in spans) = 2%nat /\
    exists span,
      tool_spans_in spans !! 0%nat = Some span /\
      record_field span "output" = Some (PStr "") /\
      record_field span "latency" = None /\
      record_field span "span_unique_id" = Some (PStr "turn_1_tool_1").
Proof.
  eexists _, _, _.
  split; [vm_compute; reflexivity|].
  split; [vm_compute; reflexivity|].
  split; [reflexivity|].
  split; [reflexivity|].
  destruct (@unresolved_tool_call_span Example.rt "s" 1 (Example.user "x")
              [Example.two_calls] [Example.tool_result "t2" "two"] _ _ 0%nat
              (PStr "t1") _ eq_refl eq_refl eq_refl eq_refl)
    as (L & span & A & B & C & D).
  split; [exact L|]. exists span. repeat split; assumption.
Defined.

(** C9 as stated fails on a usage object with a null token count:
    [None + 5] raises [TypeError] in the compiler. *)
Lemma null_token_count_raises :
  @create_keywordsai_spans Example.rt "s" 1 (Example.user "x")
    [Example.null_count] [] = Raise TypeError.
Proof. vm_compute. reflexivity. Qed.

(** C9 (amended) on a turn with text, thinking, a tool call, its result
    with a duration, usage and timestamps, and no model. *)
Lemma well_typed_turn_never_raises_witness :
  @well_typed_turn Example.rt Example.full_user [Example.full_assistant]
    [Example.full_result] = true /\
  exists spans root,
    @create_keywordsai_spans Example.rt "s" 1 Example.full_user
      [Example.full_assistant] [Example.full_result] = Ok spans /\
    head spans = Some root /\
    record_field root "model" = Some (PStr "claude").
Proof.
  assert (@well_typed_turn Example.rt Example.full_user [Example.full_assistant]
            [Example.full_result] = true) as H by (vm_compute; reflexivity).
  split; [exact H|].
  destruct (@well_typed_turn_never_raises Example.rt "s" 1 _ _ _ H)
    as (spans & root & A & B & C & _).
  exists spans, root. split; [exact A|]. split; [exact B|].
  apply C. intros first [= <-]. reflexivity.
Defined.

(** C10 on the same turn: root, one thinking span, one tool span. *)
Lemma span_tree_shape_witness :
  exists spans root thinking tools,
    @create_keywordsai_spans Example.rt "s" 1 Example.full_user
      [Example.full_assistant] [Example.full_result] = Ok spans /\
    spans = root :: thinking ++ tools /\
    span_has "agent" PNone "s_turn_1" root /\
    record_field root "span_unique_id" = Some (PStr "turn_1_chat") /\
    Forall (span_has "generation" (PStr "turn_1_chat") "s_turn_1") thinking /\
    Forall (span_has "tool" (PStr "turn_1_chat") "s_turn_1") tools.
Proof.
  eexists.
  destruct (@span_tree_shape Example.rt "s" 1 Example.full_user
              [Example.full_assistant] [Example.full_result] _ eq_refl)
    as (root & thinking & tools & R).
  exists root, thinking, tools. split; [reflexivity|]. exact R.
Defined.

(** * Further properties of the hook *)

(** ** Dicts *)
Lemma set_same (d : pydict) (k : string) (v : pyval) :
  Py.lookup d k = Some v -> Py.set d k v = d.
Proof.
  induction d as [|[k' v'] d IH]; simpl; [discriminate|].
  destruct (String.eqb k' k) eqn:E.
  - now intros [= ->].
  - intros H. now rewrite IH.
Qed.

Lemma set_set (d : pydict) (k : string) (v w : pyval) :
  Py.set (Py.set d k v) k w = Py.set d k w.
Proof.
  induction d as [|[k' v'] d IH]; simpl.
  - now rewrite String.eqb_refl.
  - destruct (String.eqb k' k) eqn:E; simpl; rewrite E; [reflexivity|].
    now rewrite IH.
Qed.

(** ** Merging, once more *)

Section MergeMore.
Context `{rt : PyRuntime}.

(** The blocks a part adds that are tool calls are its tool calls. *)
Lemma part_blocks_tool_calls (part c : pyval) :
  get_content part = Ok c ->
  get_tool_calls part = Ok (List.filter (is_block "tool_use") (part_blocks c)).
Proof.
  intros H. unfold get_tool_calls. rewrite H. cbn [mbind result_bind].
  destruct c; simpl; try reflexivity; match goal with
  | |- context [if ?b then _ else _] => destruct b; reflexivity
  end.
Qed.

Lemma merged_content_tool_calls (parts : list pyval) (bs : list pyval) :
  merged_content parts = Ok bs ->
  exists calls,
    Forall2 (fun p cs => get_tool_calls p = Ok cs) parts calls /\
    List.filter (is_block "tool_use") bs = concat calls.
Proof.
  revert bs. induction parts as [|p parts IH]; intros bs H; simpl in H.
  - injection H as <-. exists []. split; [constructor|reflexivity].
  - bind_ok H. injection H as <-.
    destruct (IH _ eq_refl) as (calls & F & E').
    exists (List.filter (is_block "tool_use") (part_blocks a) :: calls). split.
    + constructor; [now apply part_blocks_tool_calls|exact F].
    + rewrite List.filter_app, E'. reflexivity.
Qed.

(** X1. Merging is idempotent: the message merged from a non-empty list
    of parts, merged again on its own, is that message unchanged. *)
Theorem merge_is_idempotent (parts : list pyval) (m : pyval) :
  parts <> [] ->
  merge_assistant_parts parts = Ok m ->
  merge_assistant_parts [m] = Ok m.
Proof.
  intros Hne H. destruct parts as [|first rest]; [congruence|].
  unfold merge_assistant_parts in H.
  destruct (merged_content (first :: rest)) as [merged|] eqn:Em;
    cbn [mbind result_bind] in H; [|discriminate].
  destruct first as [| | | | |l|d]; try discriminate.
  destruct (Py.lookup d "message") as [[| | | | |l|mm]|] eqn:El; try discriminate;
    injection H as <-.
  - unfold merge_assistant_parts, merged_content, get_content.
    rewrite lookup_set_eq. cbn [Py.get mbind result_bind].
    unfold Py.dict_get. rewrite lookup_set_eq. cbn [part_blocks].
    rewrite app_nil_r, !set_set. reflexivity.
  - unfold merge_assistant_parts, merged_content, get_content.
    rewrite lookup_set_ne by discriminate. rewrite El.
    unfold Py.dict_get. rewrite lookup_set_eq. cbn [mbind result_bind part_blocks].
    rewrite app_nil_r, set_set. reflexivity.
Qed.

(** X2. Merging keeps the tool calls: the tool-use blocks of the merged
    message are those of the parts, one part after the other. *)
Theorem merge_keeps_tool_calls (parts : list pyval) (m : pyval) :
  parts <> [] ->
  merge_assistant_parts parts = Ok m ->
  exists calls,
    Forall2 (fun p cs => get_tool_calls p = Ok cs) parts calls /\
    get_tool_calls m = Ok (concat calls).
Proof.
  intros Hne H.
  destruct (merge_assistant_parts_content _ _ Hne H) as (bs & Hbs & Hc).
  destruct (merged_content_tool_calls _ _ Hbs) as (calls & F & E).
  exists calls. split; [exact F|].
  unfold get_tool_calls. rewrite Hc. cbn [mbind result_bind]. now rewrite E.
Qed.

End MergeMore.

(** ** Strings *)

Lemma length_app (a b : string) :
  String.length (a +:+ b) = (String.length a + String.length b)%nat.
Proof. induction a; simpl; auto. Qed.

Lemma length_substring0 (n : nat) (s : string) :
  String.length (String.substring 0 n s) = Nat.min n (String.length s).
Proof.
  revert n. induction s as [|c s IH]; intros [|n]; simpl; auto.
Qed.

Lemma str_take_len (n : Z) (s : string) :
  0 <= n -> str_len (Py.str_take n s) <= n.
Proof.
  intros H. unfold str_len, Py.str_take. rewrite length_substring0. lia.
Qed.

Lemma str_take_all (n : Z) (s : string) :
  str_len s <= n -> Py.str_take n s = s.
Proof.
  unfold str_len, Py.str_take. intros H.
  assert (String.length s <= Z.to_nat n)%nat as H' by lia. clear H.
  revert H'. generalize (Z.to_nat n). induction s as [|c s IH]; intros [|k] H;
    simpl in *; try reflexivity; try lia.
  f_equal. apply IH. lia.
Qed.

Section Formatting.
Context `{rt : PyRuntime}.

Lemma dumps_truncated_len (v : pyval) : str_len (dumps_truncated v) <= max_length + 16.
Proof.
  unfold dumps_truncated.
  destruct (max_length <? Z.of_nat (String.length (json_dumps_indent2 v))) eqn:E.
  - unfold str_len. rewrite !length_app.
    pose proof (str_take_len max_length (json_dumps_indent2 v)) as H.
    unfold str_len in H. simpl String.length. unfold max_length in *. lia.
  - apply Z.ltb_ge in E. unfold str_len. lia.
Qed.

(** X3. The formatted input of a tool call is at most [max_length + 16]
    characters long, and at most [max_length] for the file-writing tools
    called with an object, except for [Read], [Bash] and [Shell] called
    with an object: their path or command is passed on in full. *)
Theorem format_tool_input_bounded (name input : pyval) (s : string) :
  format_tool_input name input = Ok s ->
  Py.is_dict input && is_path_or_command name = false ->
  str_len s <= max_length + 16 /\
  (Py.is_dict input && is_write name = true -> str_len s <= max_length).
Proof.
  unfold format_tool_input, is_path_or_command, is_write. intros H Hn.
  destruct (negb (Py.truthy input)).
  { injection H as <-. split; intros; vm_compute; discriminate. }
  pose proof (dumps_truncated_len input) as Hd.
  destruct input as [| | | | | |d]; simpl in Hn |- *;
    try (injection H as <-; split; [exact Hd|discriminate]).
  destruct (Py.eq_str name "Write" || Py.eq_str name "Edit"
            || Py.eq_str name "MultiEdit") eqn:Ew.
  - assert (str_len s <= max_length) as Hs.
    { destruct (Py.truthy (Py.dict_get d "content" (PStr ""))).
      - bind_ok H. injection H as <-. now apply str_take_len.
      - injection H as <-. now apply str_take_len. }
    split; [lia|auto].
  - apply orb_false_iff in Hn as [Hn Hs]. apply orb_false_iff in Hn as [Hr Hb].
    rewrite Hr, Hb, Hs in H. simpl in H. injection H as <-.
    split; [exact Hd|discriminate].
Qed.

(** X4. A string output is passed on unchanged up to [max_length]
    characters; a longer one is cut to its first [max_length] characters
    and marked, [max_length + 16] characters in all. *)
Theorem format_tool_output_of_string (name : pyval) (o : string) :
  exists s,
    format_tool_output name (PStr o) = Ok s /\
    str_len s <= max_length + 16 /\
    (str_len o <= max_length -> s = o) /\
    (max_length < str_len o ->
     s = Py.str_take max_length o +:+ Py.nl +:+ "... (truncated)" /\
     str_len s = max_length + 16).
Proof.
  unfold format_tool_output. simpl Py.truthy.
  destruct (String.eqb o "") eqn:Eo.
  { apply String.eqb_eq in Eo as ->. exists "". cbn.
    repeat split; try discriminate; intros H; vm_compute in H; discriminate. }
  cbn [negb]. fold (str_len o).
  destruct (max_length <? str_len o) eqn:E.
  - apply Z.ltb_lt in E. eexists. split; [reflexivity|].
    assert (str_len (Py.str_take max_length o +:+ Py.nl +:+ "... (truncated)")
            = max_length + 16) as Hl.
    { unfold str_len, Py.str_take in *. rewrite !length_app, length_substring0.
      simpl String.length. unfold max_length in *. lia. }
    repeat split; try lia; auto.
  - apply Z.ltb_ge in E. exists o. unfold max_length in *.
    repeat split; auto; lia.
Qed.

Lemma join_nl_strs (ts : list string) :
  Py.join_nl (map PStr ts) = Ok (String.concat Py.nl ts).
Proof.
  induction ts as [|t ts IH]; [reflexivity|].
  destruct ts as [|u ts]; [reflexivity|].
  change (map PStr (t :: u :: ts)) with (PStr t :: map PStr (u :: ts)).
  change (Py.join_nl (PStr t :: map PStr (u :: ts)))
    with (r ← Py.join_nl (map PStr (u :: ts)); Ok (t +:+ Py.nl +:+ r)).
  rewrite IH. reflexivity.
Qed.

(** Text items that fit the budget are all taken, and the loop goes on
    with what follows them. *)
Lemma output_parts_fitting (items : list pyval) (ts : list string)
    (rest : list pyval) (n : Z) :
  Forall2 (fun item t => output_text item = Some t) items ts ->
  n + total_len ts <= max_length ->
  output_parts (items ++ rest) n
  = (ps ← output_parts rest (n + total_len ts); Ok (map PStr ts ++ ps)).
Proof.
  intros F. revert n. induction F as [|item t items ts Ht F IH]; intros n Hn.
  - simpl. rewrite Z.add_0_r. now destruct (output_parts rest n).
  - assert (0 <= total_len ts) as Hpos.
    { clear. induction ts; simpl; unfold str_len in *; lia. }
    simpl total_len in *. simpl app.
    assert (forall text, text = PStr t ->
              (len ← Py.len text;
               if max_length <? n + len then
                 let remaining := max_length - n in
                 if 100 <? remaining
                 then (c ← cut_text text remaining; Ok [c])
                 else Ok []
               else (ps ← output_parts (items ++ rest) (n + len); Ok (text :: ps)))
              = (ps ← output_parts rest (n + (str_len t + total_len ts));
                 Ok (PStr t :: map PStr ts ++ ps))) as Hb.
    { intros text ->. cbn [Py.len mbind result_bind]. fold (str_len t).
      assert ((max_length <? n + str_len t) = false) as ->
        by (apply Z.ltb_ge; lia).
      rewrite IH by lia. rewrite Z.add_assoc.
      now destruct (output_parts rest (n + str_len t + total_len ts)). }
    destruct item as [| | | |u| |d]; simpl in Ht; try discriminate.
    + injection Ht as ->. cbn [output_parts]. now apply Hb.
    + cbn [output_parts].
      destruct (Py.eq_str (Py.dict_get d "type" PNone) "text"); [|discriminate].
      destruct (Py.dict_get d "text" (PStr "")) eqn:Et; try discriminate.
      injection Ht as ->. now apply Hb.
Qed.

(** X5. A tool output that is a list of text blocks and strings of at
    most [max_length] characters in all is formatted as their texts, one
    per line, none of them cut. *)
Theorem format_tool_output_of_texts (name : pyval) (items : list pyval)
    (ts : list string) :
  Forall2 (fun item t => output_text item = Some t) items ts ->
  total_len ts <= max_length ->
  format_tool_output name (PList items) = Ok (String.concat Py.nl ts).
Proof.
  intros F Hn. unfold format_tool_output.
  destruct items as [|i items]; [now inversion F|]. cbn [Py.truthy negb].
  pose proof (output_parts_fitting _ _ [] 0 F) as H.
  rewrite app_nil_r in H. rewrite H by lia. cbn [output_parts mbind result_bind].
  rewrite app_nil_r. apply join_nl_strs.
Qed.

(** X6. The first text of a list output that does not fit the budget
    ends the output: it is cut to the characters left and marked when
    more than 100 are left, left out otherwise, and whatever follows it
    in the list, images too, is dropped. *)
Theorem format_tool_output_over_budget (name : pyval) (pre post : list pyval)
    (big : pyval) (ts : list string) (t : string) :
  Forall2 (fun item t => output_text item = Some t) pre ts ->
  output_text big = Some t ->
  total_len ts <= max_length ->
  max_length < total_len ts + str_len t ->
  let remaining := max_length - total_len ts in
  format_tool_output name (PList (pre ++ big :: post))
  = Ok (String.concat Py.nl
          (ts ++ if 100 <? remaining
                 then [Py.str_take remaining t +:+ "... (truncated)"]
                 else [])).
Proof.
  intros F Hb Hn Hover remaining. unfold format_tool_output.
  assert (Py.truthy (PList (pre ++ big :: post)) = true) as ->
    by (now destruct pre).
  cbn [negb]. rewrite (output_parts_fitting _ _ _ 0 F) by lia.
  rewrite Z.add_0_l. fold remaining.
  assert (output_parts (big :: post) (total_len ts)
          = Ok (map PStr (if 100 <? remaining
                          then [Py.str_take remaining t +:+ "... (truncated)"]
                          else []))) as ->.
  { assert (forall text, text = PStr t ->
              (len ← Py.len text;
               if max_length <? total_len ts + len then
                 let remaining := max_length - total_len ts in
                 if 100 <? remaining
                 then (c ← cut_text text remaining; Ok [c])
                 else Ok []
               else (ps ← output_parts post (total_len ts + len); Ok (text :: ps)))
              = Ok (map PStr (if 100 <? remaining
                              then [Py.str_take remaining t +:+ "... (truncated)"]
                              else []))) as Hcut.
    { intros text ->. cbn [Py.len mbind result_bind]. fold (str_len t).
      assert ((max_length <? total_len ts + str_len t) = true) as ->
        by (apply Z.ltb_lt; lia).
      cbv zeta. fold remaining. now destruct (100 <? remaining). }
    destruct big as [| | | |u| |d]; simpl in Hb; try discriminate.
    - injection Hb as ->. cbn [output_parts]. now apply Hcut.
    - cbn [output_parts].
      destruct (Py.eq_str (Py.dict_get d "type" PNone) "text"); [|discriminate].
      destruct (Py.dict_get d "text" (PStr "")) eqn:Et; try discriminate.
      injection Hb as ->. now apply Hcut. }
  cbn [mbind result_bind]. rewrite <- map_app. apply join_nl_strs.
Qed.

End Formatting.

(** ** Timestamps *)

Lemma replace_no_Z (s : string) : no_Z s = true -> Py.replace "Z" "+00:00" s = s.
Proof.
  unfold Py.replace. induction s as [|c s IH]; [reflexivity|]. simpl no_Z.
  intros [Hc Hs]%andb_prop. cbn [Py.replace_from String.prefix].
  destruct (ascii_dec "Z" c) as [<-|_]; [discriminate|].
  now rewrite IH.
Qed.

Lemma no_Z_app (a b : string) : no_Z (a +:+ b) = no_Z a && no_Z b.
Proof. induction a as [|c a IH]; simpl; [reflexivity|]. now rewrite IH, andb_assoc. Qed.

Lemma endswith_Z_no_Z (s : string) : no_Z s = true -> Py.endswith_Z s = false.
Proof.
  induction s as [|c s IH]; [reflexivity|]. simpl no_Z.
  intros [Hc Hs]%andb_prop. simpl. destruct s; [now apply negb_true_iff|auto].
Qed.

Lemma endswith_Z_snoc (s : string) : Py.endswith_Z (s +:+ "Z") = true.
Proof.
  induction s as [|c s IH]; [reflexivity|].
  change (String c s +:+ "Z") with (String c (s +:+ "Z")).
  simpl. destruct (s +:+ "Z") eqn:E; [now destruct s|exact IH].
Qed.

Lemma drop_last_snoc (s : string) : Py.drop_last (s +:+ "Z") = s.
Proof.
  induction s as [|c s IH]; [reflexivity|].
  change (String c s +:+ "Z") with (String c (s +:+ "Z")).
  simpl. destruct (s +:+ "Z") eqn:E; [now destruct s|now rewrite IH].
Qed.

Section Timestamps.
Context `{rt : PyRuntime}.

(** X7. A timestamp that writes UTC as a final [Z] is read as the same
    time with the offset [+00:00]; one without any [Z] is handed to
    [fromisoformat] as it is. *)
Theorem parse_timestamp_utc_suffix (s : string) :
  no_Z s = true ->
  parse_timestamp (PStr (s +:+ "Z")) = fromisoformat (s +:+ "+00:00") /\
  parse_timestamp (PStr s) = fromisoformat s.
Proof.
  intros H. unfold parse_timestamp.
  rewrite endswith_Z_snoc, drop_last_snoc, (endswith_Z_no_Z _ H).
  rewrite !replace_no_Z; auto.
  rewrite no_Z_app, H. reflexivity.
Qed.

End Timestamps.

(** ** The root span of a turn *)

Section RootSpan.
Context `{rt : PyRuntime}.

(** What [chat_span_of] computed when it returned. *)
Lemma chat_span_of_inv sid n user_msg assistant_msgs chat ctx :
  chat_span_of sid n user_msg assistant_msgs = Ok (chat, ctx) ->
  exists user_text uts final_output model usage rid stop ats latency usage_obj md,
    get_text_content user_msg = Ok user_text /\
    Py.get user_msg "timestamp" PNone = Ok uts /\
    match last assistant_msgs with
    | Some m => get_text_content m
    | None => Ok ""
    end = Ok final_output /\
    assistant_header assistant_msgs = Ok (model, usage, rid, stop, ats) /\
    turn_latency (time_of uts) (time_of ats) = Ok latency /\
    build_usage usage (turn_metadata n rid stop) = Ok (usage_obj, md) /\
    ctx = make_ctx sid n (if Py.truthy ats then ats else utcnow_z)
            (if Py.truthy uts then uts
             else if Py.truthy ats then ats else utcnow_z) /\
    chat = chat_span sid ctx user_text final_output model md usage_obj latency.
Proof.
  unfold chat_span_of. intros H.
  destruct (get_text_content user_msg) as [user_text|] eqn:E1;
    cbn [mbind result_bind] in H; [|discriminate].
  destruct (Py.get user_msg "timestamp" PNone) as [uts|] eqn:E2;
    cbn [mbind result_bind] in H; [|discriminate].
  destruct (match last assistant_msgs with
            | Some m => get_text_content m
            | None => Ok ""
            end) as [final_output|] eqn:E3;
    cbn [mbind result_bind] in H; [|discriminate].
  destruct (assistant_header assistant_msgs) as [[[[[model usage] rid] stop] ats]|]
    eqn:E4; cbn [mbind result_bind] in H; [|discriminate].
  destruct (turn_latency (time_of uts) (time_of ats)) as [latency|] eqn:E5;
    cbn [mbind result_bind] in H; [|discriminate].
  destruct (build_usage usage (turn_metadata n rid stop)) as [[usage_obj md]|] eqn:E6;
    cbn [mbind result_bind] in H; [|discriminate].
  injection H as <- <-.
  exists user_text, uts, final_output, model, usage, rid, stop, ats, latency,
    usage_obj, md.
  repeat split; auto.
Qed.

(** The first span of a compiled turn is its chat span. *)
Lemma create_root sid n user_msg assistant_msgs tool_results spans :
  create_keywordsai_spans sid n user_msg assistant_msgs tool_results = Ok spans ->
  exists root rest ctx,
    spans = root :: rest /\
    chat_span_of sid n user_msg assistant_msgs = Ok (root, ctx).
Proof.
  intros H.
  destruct (create_keywordsai_spans_parts _ _ _ _ _ _ H)
    as (chat & ctx & thinking & calls & calls' & tools & Hc & _ & _ & _ & _ & ->).
  now exists chat, (thinking ++ tools), ctx.
Qed.

(** What the header read, in terms of the first assistant message. *)
Lemma assistant_header_fields msgs model usage rid stop ats :
  assistant_header msgs = Ok (model, usage, rid, stop, ats) ->
  usage = header_field msgs "usage" /\
  rid = header_field msgs "requestId" /\
  stop = header_field msgs "stop_reason" /\
  ats = assistant_timestamp msgs.
Proof.
  unfold assistant_header, header_field, assistant_timestamp, Py.contains.
  destruct msgs as [|first rest]; simpl.
  { intros [= <- <- <- <- <-]. auto. }
  destruct first as [| | | | | |d]; try (intros [= <- <- <- <- <-]; auto).
  unfold message_field.
  destruct (Py.lookup d "message") as [m|] eqn:Em;
    [|intros [= <- <- <- <- <-]; auto].
  destruct m as [| | | | | |md]; try discriminate.
  cbn [Py.get mbind result_bind]. intros [= <- <- <- <- <-].
  unfold Py.dict_get. repeat split;
    match goal with |- context [Py.lookup md ?k] => now destruct (Py.lookup md k) end.
Qed.

Lemma get_timestamp user_msg uts :
  Py.get user_msg "timestamp" PNone = Ok uts -> uts = user_timestamp user_msg.
Proof.
  destruct user_msg; try discriminate. simpl. intros [= <-].
  unfold user_timestamp, Py.dict_get. simpl. now destruct (Py.lookup d "timestamp").
Qed.

(** One usage key copied onto the span. *)
Lemma lookup_copy (u span : pydict) (key k : string) :
  Py.lookup match Py.lookup u key with
            | Some v => Py.set span key v
            | None => span
            end k
  = if String.eqb key k
    then match Py.lookup u key with Some v => Some v | None => Py.lookup span k end
    else Py.lookup span k.
Proof.
  destruct (String.eqb key k) eqn:E.
  - apply String.eqb_eq in E as <-. destruct (Py.lookup u key); [|reflexivity].
    apply lookup_set_eq.
  - apply String.eqb_neq in E. destruct (Py.lookup u key); [|reflexivity].
    now apply lookup_set_ne.
Qed.

(** The usage keys of the chat span are those of the usage object. *)
Lemma chat_span_usage sid ctx user_text final_output model md uo latency k :
  In k ["prompt_tokens"; "completion_tokens"; "total_tokens";
        "cache_creation_prompt_tokens"; "prompt_tokens_details"] ->
  record_field
    (chat_span sid ctx user_text final_output model md (Some uo) latency) k
  = Py.lookup uo k.
Proof.
  intros Hk. unfold chat_span, record_field.
  assert (k <> "latency") as Hl
    by (intros ->; simpl in Hk; intuition discriminate).
  match goal with
  | |- Py.lookup match latency with Some secs => Py.set ?s _ _ | None => _ end _ = _ =>
      assert (Py.lookup match latency with
                        | Some secs => Py.set s "latency" (PFloat secs)
                        | None => s
                        end k = Py.lookup s k) as ->
        by (destruct latency; [apply lookup_set_ne; congruence|reflexivity])
  end.
  unfold add_usage. rewrite !lookup_copy.
  simpl in Hk. decompose [or] Hk; subst; try contradiction; simpl;
    match goal with |- context [Py.lookup uo ?key] => now destruct (Py.lookup uo key) end.
Qed.

(** The token counts of the usage object, for integer counts. *)
Lemma build_usage_counts (u : pydict) (md0 : pydict) r i o :
  build_usage (PDict u) md0 = Ok r ->
  u <> [] ->
  Py.dict_get u "input_tokens" (PInt 0) = PInt i ->
  Py.dict_get u "output_tokens" (PInt 0) = PInt o ->
  exists uo, fst r = Some uo /\
    Py.lookup uo "prompt_tokens" = Some (PInt i) /\
    Py.lookup uo "completion_tokens" = Some (PInt o) /\
    Py.lookup uo "total_tokens" = when_positive (i + o).
Proof.
  intros H Hu Hi Ho. unfold build_usage in H.
  assert (Py.truthy (PDict u) = true) as Ht by (now destruct u). rewrite Ht in H.
  cbn [Py.get mbind result_bind] in H. rewrite Hi, Ho in H.
  cbn [Py.add Py.gt0 mbind result_bind] in H.
  destruct (Py.gt0 (Py.dict_get u "cache_creation_input_tokens" (PInt 0)))
    as [created|]; cbn [mbind result_bind] in H; [|discriminate].
  destruct (Py.gt0 (Py.dict_get u "cache_read_input_tokens" (PInt 0)))
    as [cached|]; cbn [mbind result_bind] in H; [|discriminate].
  injection H as <-. eexists. split; [reflexivity|]. unfold when_positive.
  destruct (0 <? i + o), created, cached; cbn; auto.
Qed.

(** X8. When the first assistant message reports a usage with integer
    token counts, the root span of the turn carries the input count as
    [prompt_tokens], the output count as [completion_tokens] (0 for a
    count that is not reported) and their sum as [total_tokens]; the
    sum is left out when it is not positive. *)
Theorem root_span_token_counts sid n user_msg assistant_msgs tool_results spans
    (u : pydict) (i o : Z) :
  create_keywordsai_spans sid n user_msg assistant_msgs tool_results = Ok spans ->
  header_field assistant_msgs "usage" = PDict u ->
  u <> [] ->
  Py.dict_get u "input_tokens" (PInt 0) = PInt i ->
  Py.dict_get u "output_tokens" (PInt 0) = PInt o ->
  exists root rest,
    spans = root :: rest /\
    record_field root "prompt_tokens" = Some (PInt i) /\
    record_field root "completion_tokens" = Some (PInt o) /\
    record_field root "total_tokens" = when_positive (i + o).
Proof.
  intros H Hu Hne Hi Ho.
  destruct (create_root _ _ _ _ _ _ H) as (root & rest & ctx & -> & Hc).
  destruct (chat_span_of_inv _ _ _ _ _ _ Hc)
    as (ut & uts & fo & model & usage & rid & stop & ats & lat & uo & md
        & _ & _ & _ & Hh & _ & Hb & _ & ->).
  destruct (assistant_header_fields _ _ _ _ _ _ Hh) as (-> & _).
  rewrite Hu in Hb.
  destruct (build_usage_counts _ _ _ _ _ Hb Hne Hi Ho) as (uo' & E & P & C & T).
  simpl in E. subst uo.
  exists (chat_span sid ctx ut fo model md (Some uo') lat), rest.
  rewrite !chat_span_usage by (simpl; auto 6). auto.
Qed.

(** The cache counts of the usage object, for integer counts. *)
Lemma build_usage_cache (u : pydict) (md0 : pydict) r c rd :
  build_usage (PDict u) md0 = Ok r ->
  u <> [] ->
  Py.dict_get u "cache_creation_input_tokens" (PInt 0) = PInt c ->
  Py.dict_get u "cache_read_input_tokens" (PInt 0) = PInt rd ->
  exists uo, fst r = Some uo /\
    Py.lookup uo "cache_creation_prompt_tokens" = when_positive c /\
    Py.lookup uo "prompt_tokens_details"
    = if (0 <? c) || (0 <? rd)
      then Some (PDict ((if 0 <? c then [("cache_creation_tokens", PInt c)] else [])
                        ++ (if 0 <? rd then [("cached_tokens", PInt rd)] else [])))
      else None.
Proof.
  intros H Hu Hc Hr. unfold build_usage in H.
  assert (Py.truthy (PDict u) = true) as Ht by (now destruct u). rewrite Ht in H.
  cbn [Py.get mbind result_bind] in H. rewrite Hc, Hr in H.
  destruct (Py.add (Py.dict_get u "input_tokens" (PInt 0))
              (Py.dict_get u "output_tokens" (PInt 0))) as [total|];
    cbn [mbind result_bind] in H; [|discriminate].
  destruct (Py.gt0 total) as [positive|]; cbn [mbind result_bind] in H; [|discriminate].
  cbn [Py.gt0 mbind result_bind] in H.
  injection H as <-. eexists. split; [reflexivity|]. unfold when_positive.
  destruct positive, (0 <? c), (0 <? rd); cbn; auto.
Qed.

(** X9. With integer cache counts in the usage of the first assistant
    message, the root span names the tokens written to the cache as
    [cache_creation_prompt_tokens] when there are some, and carries
    [prompt_tokens_details] exactly when tokens were written to or read
    from the cache: the written ones as [cache_creation_tokens], the read
    ones as [cached_tokens]. *)
Theorem root_span_cache_counts sid n user_msg assistant_msgs tool_results spans
    (u : pydict) (c rd : Z) :
  create_keywordsai_spans sid n user_msg assistant_msgs tool_results = Ok spans ->
  header_field assistant_msgs "usage" = PDict u ->
  u <> [] ->
  Py.dict_get u "cache_creation_input_tokens" (PInt 0) = PInt c ->
  Py.dict_get u "cache_read_input_tokens" (PInt 0) = PInt rd ->
  exists root rest,
    spans = root :: rest /\
    record_field root "cache_creation_prompt_tokens" = when_positive c /\
    record_field root "prompt_tokens_details"
    = if (0 <? c) || (0 <? rd)
      then Some (PDict ((if 0 <? c then [("cache_creation_tokens", PInt c)] else [])
                        ++ (if 0 <? rd then [("cached_tokens", PInt rd)] else [])))
      else None.
Proof.
  intros H Hu Hne Hc Hr.
  destruct (create_root _ _ _ _ _ _ H) as (root & rest & ctx & -> & Hcs).
  destruct (chat_span_of_inv _ _ _ _ _ _ Hcs)
    as (ut & uts & fo & model & usage & rid & stop & ats & lat & uo & md
        & _ & _ & _ & Hh & _ & Hb & _ & ->).
  destruct (assistant_header_fields _ _ _ _ _ _ Hh) as (-> & _).
  rewrite Hu in Hb.
  destruct (build_usage_cache _ _ _ _ _ Hb Hne Hc Hr) as (uo' & E & P & D).
  simpl in E. subst uo.
  exists (chat_span sid ctx ut fo model md (Some uo') lat), rest.
  rewrite !chat_span_usage by (simpl; auto 6). auto.
Qed.

(** The metadata after the usage block: the service tier is added when
    the usage names one. *)
Lemma build_usage_metadata usage md0 uo md :
  build_usage usage md0 = Ok (uo, md) ->
  md = if Py.truthy (service_tier_of usage)
       then Py.set md0 "service_tier" (service_tier_of usage)
       else md0.
Proof.
  unfold build_usage. destruct (Py.truthy usage) eqn:Et.
  - destruct usage as [| | | | | |u]; try discriminate.
    cbn [Py.get mbind result_bind]. intros H. bind_ok H. now injection H as _ <-.
  - intros [= _ <-].
    destruct usage as [| | | | | |u]; try reflexivity.
    destruct u; [reflexivity|discriminate].
Qed.

(** A field of the chat span that is neither a usage key nor the latency. *)
Lemma chat_span_plain sid ctx user_text final_output model md uo latency k :
  ~ In k ["prompt_tokens"; "completion_tokens"; "total_tokens";
          "cache_creation_prompt_tokens"; "prompt_tokens_details"; "latency"] ->
  record_field (chat_span sid ctx user_text final_output model md uo latency) k
  = record_field (chat_span sid ctx user_text final_output model md None None) k.
Proof.
  intros Hk. apply chat_span_field; intros ->; apply Hk; simpl; auto 7.
Qed.

(** X10. The metadata of the root span always holds the turn number as
    [claude_code_turn]; the request id and the stop reason of the first
    assistant message and the service tier of its usage are added when
    they are there and truthy, and left out otherwise. *)
Theorem root_span_metadata sid n user_msg assistant_msgs tool_results spans :
  create_keywordsai_spans sid n user_msg assistant_msgs tool_results = Ok spans ->
  exists root rest md,
    spans = root :: rest /\
    record_field root "metadata" = Some (PDict md) /\
    Py.lookup md "claude_code_turn" = Some (PInt n) /\
    Py.lookup md "request_id"
    = when_truthy (header_field assistant_msgs "requestId") /\
    Py.lookup md "stop_reason"
    = when_truthy (header_field assistant_msgs "stop_reason") /\
    Py.lookup md "service_tier"
    = when_truthy (service_tier_of (header_field assistant_msgs "usage")).
Proof.
  intros H.
  destruct (create_root _ _ _ _ _ _ H) as (root & rest & ctx & -> & Hcs).
  destruct (chat_span_of_inv _ _ _ _ _ _ Hcs)
    as (ut & uts & fo & model & usage & rid & stop & ats & lat & uo & md
        & _ & _ & _ & Hh & _ & Hb & _ & ->).
  destruct (assistant_header_fields _ _ _ _ _ _ Hh) as (-> & -> & -> & _).
  apply build_usage_metadata in Hb.
  eexists _, rest, md. split; [reflexivity|].
  split. { rewrite chat_span_plain by (simpl; intuition discriminate). reflexivity. }
  subst md. unfold turn_metadata, when_truthy.
  destruct (Py.truthy (header_field assistant_msgs "requestId")),
    (Py.truthy (header_field assistant_msgs "stop_reason")),
    (Py.truthy (service_tier_of (header_field assistant_msgs "usage")));
    cbn; auto.
Qed.

(** X11. The timestamps of the records are the times of the root span:
    when the first assistant message has a timestamp, the root span is
    stamped with it; the root span starts at the timestamp of the user
    message when it has one, and otherwise at the timestamp of the first
    assistant message when that has one.  (Only a timestamp that is
    missing or empty is replaced by a reading of the clock.) *)
Theorem root_span_timestamps sid n user_msg assistant_msgs tool_results spans :
  create_keywordsai_spans sid n user_msg assistant_msgs tool_results = Ok spans ->
  let uts := user_timestamp user_msg in
  let ats := assistant_timestamp assistant_msgs in
  exists root rest,
    spans = root :: rest /\
    (Py.truthy ats = true -> record_field root "timestamp" = Some ats) /\
    (Py.truthy uts = true -> record_field root "start_time" = Some uts) /\
    (Py.truthy uts = false -> Py.truthy ats = true ->
     record_field root "start_time" = Some ats).
Proof.
  intros H uts ats.
  destruct (create_root _ _ _ _ _ _ H) as (root & rest & ctx & -> & Hcs).
  destruct (chat_span_of_inv _ _ _ _ _ _ Hcs)
    as (ut & uts' & fo & model & usage & rid & stop & ats' & lat & uo & md
        & _ & Hu & _ & Hh & _ & _ & -> & ->).
  destruct (assistant_header_fields _ _ _ _ _ _ Hh) as (_ & _ & _ & ->).
  apply get_timestamp in Hu. subst uts'. fold uts ats.
  eexists _, rest. split; [reflexivity|].
  split; [|split].
  - intros Ha. rewrite chat_span_plain by (simpl; intuition discriminate).
    cbn [ctx_timestamp_str]. now rewrite Ha.
  - intros Hu. rewrite chat_span_plain by (simpl; intuition discriminate).
    cbn [ctx_start_time_str]. now rewrite Hu.
  - intros Hu Ha. rewrite chat_span_plain by (simpl; intuition discriminate).
    cbn [ctx_start_time_str]. now rewrite Hu, Ha.
Qed.

(** The latency field of the chat span. *)
Lemma chat_span_latency sid ctx user_text final_output model md uo latency :
  record_field (chat_span sid ctx user_text final_output model md uo latency)
    "latency"
  = PFloat <$> latency.
Proof.
  unfold chat_span, record_field. destruct latency as [secs|]; simpl fmap.
  - apply lookup_set_eq.
  - rewrite lookup_add_usage by discriminate. reflexivity.
Qed.

(** X12. The root span has a latency exactly when the timestamps of the
    user message and of the first assistant message are both there and
    both parse; it is then the seconds from the one to the other. *)
Theorem root_span_latency sid n user_msg assistant_msgs tool_results spans :
  create_keywordsai_spans sid n user_msg assistant_msgs tool_results = Ok spans ->
  exists root rest,
    spans = root :: rest /\
    record_field root "latency"
    = match time_of (user_timestamp user_msg),
            time_of (assistant_timestamp assistant_msgs) with
      | Some u, Some a => PFloat <$> sub_total_seconds a u
      | _, _ => None
      end.
Proof.
  intros H.
  destruct (create_root _ _ _ _ _ _ H) as (root & rest & ctx & -> & Hcs).
  destruct (chat_span_of_inv _ _ _ _ _ _ Hcs)
    as (ut & uts' & fo & model & usage & rid & stop & ats' & lat & uo & md
        & _ & Hu & _ & Hh & Hl & _ & _ & ->).
  destruct (assistant_header_fields _ _ _ _ _ _ Hh) as (_ & _ & _ & ->).
  apply get_timestamp in Hu. subst uts'.
  eexists _, rest. split; [reflexivity|]. rewrite chat_span_latency.
  unfold turn_latency in Hl.
  destruct (time_of (user_timestamp user_msg)) as [u|];
    [|injection Hl as <-; reflexivity].
  destruct (time_of (assistant_timestamp assistant_msgs)) as [a|];
    [|injection Hl as <-; reflexivity].
  destruct (sub_total_seconds a u); [|discriminate]. now injection Hl as <-.
Qed.

(** X13. The root span quotes the text of the user message as its only
    prompt message and the text of the last assistant message, not of
    the earlier ones, as its completion; an empty text gives no message
    and an empty [input] or [output]. *)
Theorem root_span_messages sid n user_msg assistant_msgs tool_results spans :
  create_keywordsai_spans sid n user_msg assistant_msgs tool_results = Ok spans ->
  exists root rest user_text final_output,
    spans = root :: rest /\
    get_text_content user_msg = Ok user_text /\
    match last assistant_msgs with
    | Some m => get_text_content m
    | None => Ok ""
    end = Ok final_output /\
    record_field root "prompt_messages"
    = Some (PList (if String.eqb user_text "" then []
                   else [chat_message "user" user_text])) /\
    record_field root "input"
    = Some (PStr (if String.eqb user_text "" then ""
                  else json_dumps (PList [chat_message "user" user_text]))) /\
    record_field root "completion_message"
    = Some (if String.eqb final_output "" then PNone
            else chat_message "assistant" final_output) /\
    record_field root "output"
    = Some (PStr (if String.eqb final_output "" then ""
                  else json_dumps (chat_message "assistant" final_output))).
Proof.
  intros H.
  destruct (create_root _ _ _ _ _ _ H) as (root & rest & ctx & -> & Hcs).
  destruct (chat_span_of_inv _ _ _ _ _ _ Hcs)
    as (ut & uts' & fo & model & usage & rid & stop & ats' & lat & uo & md
        & Hut & _ & Hfo & _ & _ & _ & _ & ->).
  eexists _, rest, ut, fo. split; [reflexivity|].
  split; [exact Hut|]. split; [exact Hfo|].
  repeat split; rewrite chat_span_plain by (simpl; intuition discriminate);
    unfold chat_span, chat_message; cbn [add_usage record_field];
    destruct (String.eqb ut ""), (String.eqb fo ""); reflexivity.
Qed.

End RootSpan.

(** ** The thinking spans of a turn *)

Section ThinkingSpans.
Context `{rt : PyRuntime}.

Lemma thinking_of_items_labels ctx ts items acc texts :
  map span_label acc = imap (thinking_label (ctx_turn_num ctx)) texts ->
  map span_label (thinking_of_items ctx ts items acc)
  = imap (thinking_label (ctx_turn_num ctx)) (texts ++ omap thinking_text items).
Proof.
  revert acc texts. induction items as [|item items IH]; intros acc texts H.
  - simpl. now rewrite app_nil_r.
  - cbn [thinking_of_items].
    assert (length acc = length texts) as Hlen.
    { apply (f_equal (@length _)) in H. now rewrite length_map, length_imap in H. }
    destruct item as [| | | | | |d]; try (now apply IH).
    cbn [omap list_omap thinking_text].
    destruct (Py.eq_str (Py.dict_get d "type" PNone) "thinking"); [|now apply IH].
    unfold when_truthy.
    destruct (Py.truthy (Py.dict_get d "thinking" (PStr ""))); [|now apply IH].
    rewrite (IH _ (texts ++ [Py.dict_get d "thinking" (PStr "")])).
    + now rewrite <- app_assoc.
    + rewrite map_app, imap_app, H. simpl. rewrite Hlen, Nat.add_0_r. reflexivity.
Qed.

Lemma thinking_of_msgs_labels ctx msgs acc texts spans :
  map span_label acc = imap (thinking_label (ctx_turn_num ctx)) texts ->
  thinking_of_msgs ctx msgs acc = Ok spans ->
  map span_label spans
  = imap (thinking_label (ctx_turn_num ctx))
      (texts ++ concat (map thinking_texts msgs)).
Proof.
  revert acc texts. induction msgs as [|msg msgs IH]; intros acc texts Hacc H.
  - simpl in *. injection H as <-. now rewrite app_nil_r.
  - cbn [thinking_of_msgs] in H. simpl map. rewrite concat_cons, app_assoc.
    destruct msg as [| | | | | |d];
      try (cbn [mbind result_bind] in H; rewrite app_nil_r; eapply IH; eauto; fail).
    unfold thinking_texts, message_field.
    destruct (Py.lookup d "message") as [m|];
      [|cbn [mbind result_bind] in H; rewrite app_nil_r; eapply IH; eauto].
    destruct m as [| | | | | |mm]; try discriminate.
    cbn [Py.get mbind result_bind] in H. unfold Py.dict_get in H at 1.
    destruct (Py.lookup mm "content") as [c|].
    + destruct c; try (rewrite app_nil_r; eapply IH; eauto; fail).
      eapply IH; [|exact H]. now apply thinking_of_items_labels.
    + simpl in H. rewrite app_nil_r. eapply IH; eauto.
Qed.

(** The thinking spans of a compiled turn are those of its middle part. *)
Lemma thinking_spans_in_create sid n user_msg assistant_msgs tool_results spans :
  create_keywordsai_spans sid n user_msg assistant_msgs tool_results = Ok spans ->
  exists ctx,
    ctx_turn_num ctx = n /\
    thinking_of_msgs ctx assistant_msgs [] = Ok (thinking_spans_in spans).
Proof.
  intros H.
  destruct (create_keywordsai_spans_parts _ _ _ _ _ _ H)
    as (chat & ctx & thinking & calls & calls' & tools & H1 & H2 & H3 & H4 & H5 & ->).
  exists ctx.
  destruct (chat_span_of_ctx _ _ _ _ _ _ H1)
    as (ut & fo & model & md & uo & lat & ts & start & Hctx & Hchat).
  split. { rewrite Hctx. reflexivity. }
  unfold thinking_spans_in. simpl.
  assert (is_kind "generation" chat = false) as ->.
  { unfold is_kind. rewrite Hchat, chat_span_field by discriminate. reflexivity. }
  rewrite List.filter_app.
  rewrite (filter_kind_children ctx "generation" "generation" thinking).
  2:{ eapply thinking_of_msgs_children; [constructor|exact H2]. }
  rewrite (filter_kind_children ctx "tool" "generation" tools).
  2:{ eapply tool_spans_children; eauto. }
  simpl. now rewrite app_nil_r.
Qed.

(** X14. A turn has one thinking span for every thinking block with a
    non-empty text, in the order of the blocks across the assistant
    messages: the span at index [i] is named [Thinking i+1], its
    identifier ends in [_thinking_i+1] and its output is the text of the
    block. *)
Theorem thinking_spans_follow_blocks sid n user_msg assistant_msgs tool_results
    spans :
  create_keywordsai_spans sid n user_msg assistant_msgs tool_results = Ok spans ->
  map span_label (thinking_spans_in spans)
  = imap (thinking_label n) (concat (map thinking_texts assistant_msgs)).
Proof.
  intros H.
  destruct (thinking_spans_in_create _ _ _ _ _ _ H) as (ctx & <- & Ht).
  apply (thinking_of_msgs_labels ctx assistant_msgs [] [] _ eq_refl Ht).
Qed.

End ThinkingSpans.

(** ** The tool spans of a turn *)

Section ToolSpansMore.
Context `{rt : PyRuntime}.

Lemma map_update_keeps (m : call_map) i key data u f :
  m !! i = Some (key, data) ->
  exists data', map_update m u f !! i = Some (key, data') /\
                (data' = data \/ data' = f data).
Proof.
  revert i. induction m as [|[k' v'] m IH]; simpl; intros i Hi;
    [destruct i; discriminate|].
  destruct i as [|i]; simpl in *.
  - injection Hi as -> ->. destruct (Py.key_eqb key u); simpl; eauto.
  - destruct (Py.key_eqb k' u); simpl; eauto.
Qed.

Lemma match_items_keeps md ts items m m' i key data :
  match_items md ts items m = Ok m' ->
  m !! i = Some (key, data) ->
  exists data', m' !! i = Some (key, data') /\
                forall k, call_key k -> Py.lookup data' k = Py.lookup data k.
Proof.
  revert m data. induction items as [|item items IH]; simpl; intros m data H Hi.
  - injection H as <-. eauto.
  - destruct item as [| | | | | |d]; try (eapply IH; eauto; fail).
    destruct (Py.eq_str (Py.dict_get d "type" PNone) "tool_result");
      [|eapply IH; eauto].
    destruct (Py.hashable _); [|discriminate].
    destruct (map_mem m _); [|eapply IH; eauto].
    destruct (map_update_keeps m i key data (Py.dict_get d "tool_use_id" PNone)
                (attach_result (Py.dict_get d "content" PNone) md ts) Hi)
      as (data1 & H1 & Hd).
    destruct (IH _ _ H H1) as (data' & H' & Hk).
    exists data'. split; [exact H'|]. intros k Hc. rewrite (Hk _ Hc).
    destruct Hd as [->| ->]; [reflexivity|].
    destruct Hc as (A & B & C). now apply attach_result_other.
Qed.

Lemma match_results_keeps trs m m' i key data :
  match_results trs m = Ok m' ->
  m !! i = Some (key, data) ->
  exists data', m' !! i = Some (key, data') /\
                forall k, call_key k -> Py.lookup data' k = Py.lookup data k.
Proof.
  revert m data. induction trs as [|tr trs IH]; simpl; intros m data H Hi.
  - injection H as <-. eauto.
  - bind_ok H.
    assert (exists data1, a1 !! i = Some (key, data1) /\
              forall k, call_key k -> Py.lookup data1 k = Py.lookup data k)
      as (data1 & H1 & Hk1).
    { destruct a; try (injection E1 as <-; eauto; fail).
      destruct tr; try (injection E1 as <-; eauto; fail).
      eapply match_items_keeps; eauto. }
    destruct (IH _ _ H H1) as (data' & H' & Hk).
    exists data'. split; [exact H'|]. intros k Hc. now rewrite (Hk _ Hc), (Hk1 _ Hc).
Qed.

(** The fields of a tool span that come from the call alone. *)
Lemma tool_span_call ctx num data span :
  tool_span ctx num data = Ok span ->
  record_field span "span_unique_id"
  = Some (PStr ("turn_" +:+ pretty (ctx_turn_num ctx) +:+ "_tool_" +:+ pretty num)) /\
  record_field span "span_name"
  = Some (PStr ("Tool: " +:+ py_str (Py.dict_get data "name" PNone))) /\
  exists inp,
    format_tool_input (Py.dict_get data "name" PNone)
      (Py.dict_get data "input" PNone) = Ok inp /\
    record_field span "input" = Some (PStr inp).
Proof.
  intros H. unfold tool_span in H. bind_ok H.
  destruct (Py.truthy (Py.dict_get data "result_metadata" PNone)).
  - bind_ok H. destruct (Py.truthy _).
    + bind_ok H. injection H as <-.
      split; [reflexivity|]. split; [reflexivity|]. exists a. split; reflexivity.
    + injection H as <-.
      split; [reflexivity|]. split; [reflexivity|]. exists a. split; reflexivity.
  - injection H as <-.
    split; [reflexivity|]. split; [reflexivity|]. exists a. split; reflexivity.
Qed.

(** X15. The tool span at the position of a call of the turn is
    numbered by that position (from 1), is named [Tool: ] and the name
    stored for the call, and shows the formatted input of the call,
    whether the call was answered or not. *)
Theorem tool_span_of_call sid n user_msg assistant_msgs tool_results spans calls
    (i : nat) (key : pyval) (data : pydict) :
  create_keywordsai_spans sid n user_msg assistant_msgs tool_results = Ok spans ->
  collect_tool_calls assistant_msgs [] = Ok calls ->
  calls !! i = Some (key, data) ->
  length (tool_spans_in spans) = length calls /\
  exists span inp,
    tool_spans_in spans !! i = Some span /\
    record_field span "span_unique_id"
    = Some (PStr ("turn_" +:+ pretty n +:+ "_tool_" +:+ pretty (Z.of_nat (S i)))) /\
    record_field span "span_name"
    = Some (PStr ("Tool: " +:+ py_str (Py.dict_get data "name" PNone))) /\
    format_tool_input (Py.dict_get data "name" PNone)
      (Py.dict_get data "input" PNone) = Ok inp /\
    record_field span "input" = Some (PStr inp).
Proof.
  intros H Hc Hi.
  destruct (tool_spans_in_create _ _ _ _ _ _ H)
    as (ctx & calls0 & calls' & Hn & Hc0 & Hm & Ht).
  rewrite Hc in Hc0. injection Hc0 as <-.
  split.
  { destruct (tool_spans_children _ _ _ _ Ht) as [_ ->].
    eapply match_results_length; eauto. }
  destruct (match_results_keeps _ _ _ _ _ _ Hm Hi) as (data' & Hi' & Hk).
  destruct (tool_spans_nth _ _ _ _ _ _ _ Ht Hi') as (span & Hs & Hspan).
  destruct (tool_span_call _ _ _ _ Hspan) as (A & B & inp & C & D).
  assert (Py.dict_get data' "name" PNone = Py.dict_get data "name" PNone) as En
    by (unfold Py.dict_get; rewrite Hk; [reflexivity|repeat split; discriminate]).
  assert (Py.dict_get data' "input" PNone = Py.dict_get data "input" PNone) as Ei
    by (unfold Py.dict_get; rewrite Hk; [reflexivity|repeat split; discriminate]).
  rewrite En in B, C. rewrite Ei in C. rewrite Hn in A.
  exists span, inp. repeat split; auto.
Qed.

(** *** One call for every tool identifier *)

Lemma key_eqb_eq_str s id : Py.key_eqb (PStr s) id = Py.eq_str id s.
Proof.
  unfold Py.key_eqb. destruct id; simpl; try reflexivity. apply String.eqb_sym.
Qed.

Lemma key_eqb_str_r k s : Py.key_eqb k (PStr s) = true -> k = PStr s.
Proof.
  unfold Py.key_eqb. destruct k; simpl; try discriminate.
  - now rewrite andb_false_r.
  - intros H. apply String.eqb_eq in H. now subst.
Qed.

Lemma keys_distinct_lookup (m : call_map) i k d :
  m !! i = Some (k, d) -> In (k, d) m.
Proof. intros H. apply list_elem_of_In. eapply list_elem_of_lookup_2; eauto. Qed.

Lemma map_set_lookup (m : call_map) u w i s data :
  keys_distinct m -> map_set m u w !! i = Some (PStr s, data) ->
  (Py.key_eqb (PStr s) u = true /\ data = w) \/
  (Py.key_eqb (PStr s) u = false /\ m !! i = Some (PStr s, data)).
Proof.
  revert i. induction m as [|[k' v'] m IH]; simpl; intros i Hd Hi.
  - destruct i; [|discriminate]. simpl in Hi. injection Hi as -> ->.
    left. split; [apply key_eqb_str_refl|reflexivity].
  - destruct Hd as [Hk Hm]. destruct (Py.key_eqb k' u) eqn:E.
    + destruct i as [|i]; simpl in Hi.
      * injection Hi as -> ->. now left.
      * right. split; [|exact Hi].
        destruct (Py.key_eqb (PStr s) u) eqn:E'; [|reflexivity].
        apply key_eqb_str in E'. subst u.
        rewrite List.Forall_forall in Hk.
        specialize (Hk _ (keys_distinct_lookup _ _ _ _ Hi)). simpl in Hk. congruence.
    + destruct i as [|i]; simpl in Hi.
      * injection Hi as -> ->. right. split; [exact E|reflexivity].
      * now apply IH.
Qed.

Lemma map_set_has (m : call_map) s w :
  exists i, map_set m (PStr s) w !! i = Some (PStr s, w).
Proof.
  induction m as [|[k' v'] m [i IH]]; simpl.
  - now exists 0%nat.
  - destruct (Py.key_eqb k' (PStr s)) eqn:E.
    + apply key_eqb_str_r in E. subst k'. now exists 0%nat.
    + now exists (S i).
Qed.

Lemma map_set_keeps_key (m : call_map) u w i k d :
  m !! i = Some (k, d) -> exists d', map_set m u w !! i = Some (k, d').
Proof.
  revert i. induction m as [|[k' v'] m IH]; simpl; intros i Hi;
    [destruct i; discriminate|].
  destruct i as [|i]; simpl in Hi.
  - injection Hi as -> ->. destruct (Py.key_eqb k u); simpl; eauto.
  - destruct (Py.key_eqb k' u); simpl; eauto.
Qed.

Lemma blocks_with_id_snoc s seen b :
  blocks_with_id s (seen ++ [b])
  = blocks_with_id s seen
    ++ if Py.eq_str (block_field b "id" (PStr "")) s then [b] else [].
Proof.
  unfold blocks_with_id. rewrite List.filter_app. simpl.
  now destruct (Py.eq_str (block_field b "id" (PStr "")) s).
Qed.

Lemma add_tool_calls_follow ts tool_calls seen m m' :
  calls_follow seen m ->
  add_tool_calls ts tool_calls m = Ok m' ->
  calls_follow (seen ++ tool_calls) m'.
Proof.
  revert seen m. induction tool_calls as [|b rest IH]; intros seen m Hinv H.
  - simpl in H. injection H as <-. now rewrite app_nil_r.
  - cbn [add_tool_calls] in H. destruct b as [| | | | | |d]; try discriminate.
    cbn [Py.get mbind result_bind] in H.
    destruct (Py.hashable (Py.dict_get d "id" (PStr ""))); [|discriminate].
    replace (seen ++ PDict d :: rest) with ((seen ++ [PDict d]) ++ rest)
      by (now rewrite <- app_assoc).
    eapply IH; [|exact H]. clear H IH.
    destruct Hinv as (Hd & Hlast & Hhas).
    set (id := Py.dict_get d "id" (PStr "")) in *.
    split; [now apply map_set_distinct|]. split.
    + intros i s data Hi. rewrite blocks_with_id_snoc. cbn [block_field]. fold id.
      destruct (map_set_lookup _ _ _ _ _ _ Hd Hi) as [[Ek ->]|[Ek Hi']].
      * rewrite key_eqb_eq_str in Ek. rewrite Ek.
        exists (PDict d). split; [apply last_snoc|]. split; reflexivity.
      * rewrite key_eqb_eq_str in Ek. rewrite Ek, app_nil_r. eauto.
    + intros s Hs. rewrite blocks_with_id_snoc in Hs. cbn [block_field] in Hs.
      fold id in Hs. destruct (Py.eq_str id s) eqn:Ek.
      * assert (id = PStr s) as ->.
        { destruct id; try discriminate. simpl in Ek.
          apply String.eqb_eq in Ek. now subst. }
        destruct (map_set_has m s
                    [("name", Py.dict_get d "name" (PStr "unknown"));
                     ("input", Py.dict_get d "input" (PDict []));
                     ("id", PStr s); ("timestamp", ts)]) as [i Hi].
        eauto.
      * rewrite app_nil_r in Hs. destruct (Hhas _ Hs) as (i & data & Hi).
        destruct (map_set_keeps_key m id
                    [("name", Py.dict_get d "name" (PStr "unknown"));
                     ("input", Py.dict_get d "input" (PDict []));
                     ("id", id); ("timestamp", ts)] _ _ _ Hi) as [d' Hi'].
        eauto.
Qed.

Lemma collect_tool_calls_follow msgs seen m m' :
  calls_follow seen m ->
  collect_tool_calls msgs m = Ok m' ->
  calls_follow (seen ++ tool_use_blocks msgs) m'.
Proof.
  revert seen m. induction msgs as [|msg msgs IH]; intros seen m Hinv H.
  - simpl in H. injection H as <-. unfold tool_use_blocks. simpl.
    now rewrite app_nil_r.
  - cbn [collect_tool_calls] in H. bind_ok H.
    unfold tool_use_blocks. simpl map. rewrite concat_cons, E, app_assoc.
    eapply IH; [|exact H]. eapply add_tool_calls_follow; eauto.
Qed.

Lemma keys_distinct_index (m : call_map) i j k d d' :
  keys_distinct m -> Py.key_eqb k k = true ->
  m !! i = Some (k, d) -> m !! j = Some (k, d') -> i = j.
Proof.
  revert i j. induction m as [|[k0 v0] m IH]; intros i j Hd Hk Hi Hj;
    [destruct i; discriminate|].
  destruct Hd as [Hall Hd]. rewrite List.Forall_forall in Hall.
  destruct i as [|i], j as [|j]; simpl in *; auto.
  - injection Hi as -> ->.
    specialize (Hall _ (keys_distinct_lookup _ _ _ _ Hj)). simpl in Hall. congruence.
  - injection Hj as -> ->.
    specialize (Hall _ (keys_distinct_lookup _ _ _ _ Hi)). simpl in Hall. congruence.
Qed.

(** X16. The calls of a turn are kept by tool identifier: every string
    identifier carried by a tool-use block (the empty one for a block
    without identifier) has exactly one call, hence one tool span, and
    that call has the name and the input of the last block that carries
    the identifier. *)
Theorem one_call_per_tool_id (assistant_msgs : list pyval) (calls : call_map) :
  collect_tool_calls assistant_msgs [] = Ok calls ->
  let blocks := tool_use_blocks assistant_msgs in
  (forall s, blocks_with_id s blocks <> [] ->
     exists i data, calls !! i = Some (PStr s, data)) /\
  (forall i j s d d',
     calls !! i = Some (PStr s, d) -> calls !! j = Some (PStr s, d') -> i = j) /\
  (forall i s data, calls !! i = Some (PStr s, data) ->
     exists b, last (blocks_with_id s blocks) = Some b /\
       Py.lookup data "name" = Some (block_field b "name" (PStr "unknown")) /\
       Py.lookup data "input" = Some (block_field b "input" (PDict []))).
Proof.
  intros H blocks.
  assert (calls_follow [] []) as H0.
  { split; [exact I|]. split.
    - intros i s data Hi. destruct i; discriminate.
    - intros s Hs. now elim Hs. }
  destruct (collect_tool_calls_follow _ _ _ _ H0 H) as (Hd & Hlast & Hhas).
  simpl in Hlast, Hhas. fold blocks in Hlast, Hhas.
  split; [exact Hhas|]. split; [|exact Hlast].
  intros i j s d d' Hi Hj.
  eapply keys_distinct_index; eauto using key_eqb_str_refl.
Qed.

(** *** The metadata of the answering record *)

Lemma match_items_metadata md ts items m m' i s v :
  match_items md ts items m = Ok m' ->
  keys_distinct m -> m !! i = Some (PStr s, v) ->
  exists v', m' !! i = Some (PStr s, v') /\
             Py.lookup v' "result_metadata"
             = (if nonempty (answers (PStr s) items) then Some (PDict md)
                else Py.lookup v "result_metadata") /\
             keys_distinct m'.
Proof.
  revert m v. induction items as [|item items IH]; simpl; intros m v H Hd Hi.
  - injection H as <-. exists v. auto.
  - unfold answers. simpl. fold (answers (PStr s) items).
    destruct item as [| | | | | |d]; simpl; try (eapply IH; eauto; fail).
    destruct (Py.eq_str (Py.dict_get d "type" PNone) "tool_result") eqn:Et;
      simpl; [|eapply IH; eauto].
    destruct (Py.hashable (Py.dict_get d "tool_use_id" PNone)); [|discriminate].
    set (u := Py.dict_get d "tool_use_id" PNone) in *.
    set (f := attach_result (Py.dict_get d "content" PNone) md ts) in *.
    destruct (Py.key_eqb (PStr s) u) eqn:Ek; simpl.
    + rewrite (map_mem_lookup _ _ _ _ Hi u Ek) in H.
      pose proof (map_update_at m i s v u f Hd Hi) as Hi'. rewrite Ek in Hi'.
      destruct (IH _ _ H (map_update_distinct _ u f Hd) Hi') as (v' & A & B & C).
      exists v'. repeat split; auto. rewrite B. unfold f.
      rewrite attach_result_md. now destruct (nonempty _).
    + assert ((if map_mem m u then map_update m u f else m) !! i = Some (PStr s, v))
        as Hi'.
      { destruct (map_mem m u); auto.
        rewrite (map_update_at m i s v u f Hd Hi), Ek. reflexivity. }
      assert (keys_distinct (if map_mem m u then map_update m u f else m)) as Hd'.
      { destruct (map_mem m u); auto using map_update_distinct. }
      apply (IH _ _ H Hd' Hi').
Qed.

Lemma match_results_metadata trs m m' i s v :
  match_results trs m = Ok m' ->
  keys_distinct m -> m !! i = Some (PStr s, v) ->
  exists v', m' !! i = Some (PStr s, v') /\
             Py.lookup v' "result_metadata"
             = match last (answering (PStr s) trs) with
               | Some tr => metadata_of tr
               | None => Py.lookup v "result_metadata"
               end.
Proof.
  revert m v. induction trs as [|tr trs IH]; simpl; intros m v H Hd Hi.
  - injection H as <-. exists v. auto.
  - bind_ok H.
    assert (exists v1, a1 !! i = Some (PStr s, v1) /\
              Py.lookup v1 "result_metadata"
              = (if nonempty (results_in (PStr s) tr) then Some (PDict a0)
                 else Py.lookup v "result_metadata") /\
              keys_distinct a1) as (v1 & A & B & D).
    { unfold results_in. rewrite E.
      destruct a; try (injection E1 as <-; exists v; auto; fail).
      destruct tr; try (unfold get_content in E; discriminate).
      eapply match_items_metadata; eauto. }
    destruct (IH _ _ H D A) as (v' & A' & B').
    exists v'. split; [exact A'|]. rewrite B'.
    unfold answering. simpl.
    destruct (nonempty (results_in (PStr s) tr)) eqn:En.
    + rewrite last_cons. fold (answering (PStr s) trs).
      destruct (last (answering (PStr s) trs)); [reflexivity|].
      rewrite B. unfold metadata_of. now rewrite E0.
    + fold (answering (PStr s) trs).
      destruct (last (answering (PStr s) trs)); [reflexivity|exact B].
Qed.

(** The metadata of a record that reports a duration. *)
Lemma result_metadata_duration tr t z :
  record_field tr "toolUseResult" = Some (PDict t) ->
  Py.lookup t "durationMs" = Some (PInt z) ->
  exists md, result_metadata tr = Ok md /\
             Py.lookup md "duration_ms" = Some (PInt z).
Proof.
  intros Ht Hz. destruct tr as [| | | | | |d]; try discriminate.
  simpl in Ht. unfold result_metadata, Py.dict_get. rewrite Ht.
  assert (Py.truthy (PDict t) = true) as -> by (destruct t; [discriminate|reflexivity]).
  rewrite !copy_key_dict. cbn [mbind result_bind]. rewrite !copy_key_dict.
  cbn [mbind result_bind]. rewrite !copy_key_dict. cbn [mbind result_bind].
  rewrite copy_key_dict, Hz. eexists. split; [reflexivity|].
  destruct (Py.lookup t "numFiles"), (Py.lookup t "filenames"),
    (Py.lookup t "truncated"); reflexivity.
Qed.

(** Metadata and latency of the span of an answered call. *)
Lemma tool_span_metadata ctx num data span md z :
  tool_span ctx num data = Ok span ->
  Py.lookup data "result_metadata" = Some (PDict md) ->
  Py.lookup md "duration_ms" = Some (PInt z) ->
  record_field span "metadata" = Some (PDict md) /\
  (z = 0 -> record_field span "latency" = None) /\
  (z <> 0 ->
   exists f, Py.float_of_Z z = Ok f /\
             record_field span "latency"
             = Some (PFloat (PrimFloat.div f 1000%float))).
Proof.
  intros H Hmd Hz. unfold tool_span in H. bind_ok H.
  assert (Py.dict_get data "result_metadata" PNone = PDict md) as Em
    by (unfold Py.dict_get; now rewrite Hmd).
  rewrite Em in H.
  assert (Py.truthy (PDict md) = true) as Et
    by (destruct md; [discriminate|reflexivity]).
  assert (Py.dict_get md "duration_ms" PNone = PInt z) as Ed
    by (unfold Py.dict_get; now rewrite Hz).
  rewrite Et in H. cbn [Py.get mbind result_bind] in H.
  rewrite Ed in H. cbn [Py.truthy] in H.
  destruct (z =? 0) eqn:E0'.
  - apply Z.eqb_eq in E0'. cbn [negb] in H. injection H as <-.
    split; [reflexivity|]. split; [reflexivity|]. intros; contradiction.
  - apply Z.eqb_neq in E0'. cbn [negb Py.div1000] in H.
    destruct (Py.float_of_Z z) as [f|] eqn:Ef; cbn [mbind result_bind] in H;
      [|discriminate].
    injection H as <-.
    split; [reflexivity|]. split; [intros; contradiction|].
    intros _. exists f. split; reflexivity.
Qed.

(** X17. The span of a call with a string identifier takes its metadata
    from the last tool result record, among those handed over with the
    turn, that answers the call: when that record reports a duration in
    milliseconds, the span carries it as [duration_ms], and its latency
    is that duration in seconds, unless the duration is 0, which gives
    no latency. *)
Theorem tool_span_latency sid n user_msg assistant_msgs tool_results spans calls
    (i : nat) (s : string) (data : pydict) (tr : pyval) (t : pydict) (z : Z) :
  create_keywordsai_spans sid n user_msg assistant_msgs tool_results = Ok spans ->
  collect_tool_calls assistant_msgs [] = Ok calls ->
  calls !! i = Some (PStr s, data) ->
  last (answering (PStr s) tool_results) = Some tr ->
  record_field tr "toolUseResult" = Some (PDict t) ->
  Py.lookup t "durationMs" = Some (PInt z) ->
  exists span md,
    tool_spans_in spans !! i = Some span /\
    record_field span "metadata" = Some (PDict md) /\
    Py.lookup md "duration_ms" = Some (PInt z) /\
    (z = 0 -> record_field span "latency" = None) /\
    (z <> 0 ->
     exists f, Py.float_of_Z z = Ok f /\
               record_field span "latency"
               = Some (PFloat (PrimFloat.div f 1000%float))).
Proof.
  intros H Hc Hi Hlast Ht Hz.
  destruct (tool_spans_in_create _ _ _ _ _ _ H)
    as (ctx & calls0 & calls' & Hn & Hc0 & Hm & Hspans).
  rewrite Hc in Hc0. injection Hc0 as <-.
  assert (keys_distinct calls) as Hd
    by (eapply collect_tool_calls_distinct; [|exact Hc]; exact I).
  destruct (match_results_metadata _ _ _ _ _ _ Hm Hd Hi) as (v' & Hi' & Hmd).
  rewrite Hlast in Hmd.
  destruct (result_metadata_duration _ _ _ Ht Hz) as (md & Er & Hdur).
  unfold metadata_of in Hmd. rewrite Er in Hmd.
  destruct (tool_spans_nth _ _ _ _ _ _ _ Hspans Hi') as (span & Hs & Hspan).
  destruct (tool_span_metadata _ _ _ _ _ _ Hspan Hmd Hdur) as (A & B & C).
  exists span, md. repeat split; auto.
Qed.

End ToolSpansMore.

(** ** Runs of the driver *)

Section RunsMore.
Context `{rt : PyRuntime}.

(** A run that saved a state is a completed one. *)
Lemma process_transcript_saved net sid transcript state saved :
  run_saved (process_transcript net sid transcript state) = Some saved ->
  exists n,
    run_result (process_transcript net sid transcript state) = Ok n /\
    saved = <[sid := {| last_line := total_lines transcript;
                        turn_count := stored_turns state sid + n;
                        updated := utcnow_isoformat |}]> state.
Proof.
  unfold process_transcript, total_lines. cbv zeta.
  destruct (_ <=? _); [discriminate|].
  destruct (new_messages _ _) as [[|m msgs]|]; try discriminate.
  destruct (assemble _ _ _ _ _) as [st [e|]]; [discriminate|].
  destruct (finalize_message st) as [st1|]; [|discriminate].
  destruct (emit_turn _ _ _ st1) as [st2|]; [|discriminate].
  cbn [run_saved run_result]. intros [= <-]. eauto.
Qed.

(** X18. A run over a transcript that was already run to its end does
    nothing: after a run that returned, a second run over the same
    transcript with the state the first one left emits nothing, returns
    0 and saves nothing, whatever the network does. *)
Theorem rerun_emits_nothing net net' sid transcript state (n : Z) :
  run_result (process_transcript net sid transcript state) = Ok n ->
  let r := process_transcript net sid transcript state in
  let r' := process_transcript net' sid transcript (persisted_after state r) in
  run_emitted r' = [] /\ run_result r' = Ok 0 /\ run_saved r' = None.
Proof.
  intros Hn. cbv zeta.
  destruct (process_transcript_returns _ _ _ _ _ Hn)
    as [Hle | [Hnone | (msgs & st & st1 & st2 & Hnew & Hne & Hasm & Hfin & Hemit & ->)]].
  - rewrite (process_transcript_caught_up net _ _ _ Hle).
    unfold persisted_after. cbn [run_saved].
    now rewrite (process_transcript_caught_up net' _ _ _ Hle).
  - destruct (Z_le_gt_dec (total_lines transcript) (stored_last_line state sid))
      as [Hle|Hgt].
    + rewrite (process_transcript_caught_up net _ _ _ Hle).
      unfold persisted_after. cbn [run_saved].
      now rewrite (process_transcript_caught_up net' _ _ _ Hle).
    + assert (stored_last_line state sid < total_lines transcript) as Hlt by lia.
      rewrite (process_transcript_nothing_parsed net _ _ _ Hlt Hnone).
      unfold persisted_after. cbn [run_saved].
      now rewrite (process_transcript_nothing_parsed net' _ _ _ Hlt Hnone).
  - rewrite (process_transcript_completed _ _ _ _ _ _ _ _ Hnew Hne Hasm Hfin Hemit).
    unfold persisted_after. cbn [run_saved].
    rewrite process_transcript_caught_up; [auto|].
    unfold stored_last_line. rewrite lookup_insert_eq. cbn [last_line]. lia.
Qed.

(** X19. The state file is written only by a run that returns, and only
    the entry of the session of the run is changed: its cursor becomes
    the number of lines of the transcript and its turn counter grows by
    the number of turns returned; the entries of other sessions are
    written back as they were read. *)
Theorem save_touches_own_session net sid transcript state saved :
  run_saved (process_transcript net sid transcript state) = Some saved ->
  exists n,
    run_result (process_transcript net sid transcript state) = Ok n /\
    stored_last_line saved sid = total_lines transcript /\
    stored_turns saved sid = stored_turns state sid + n /\
    forall other, other <> sid -> saved !! other = state !! other.
Proof.
  intros H. destruct (process_transcript_saved _ _ _ _ _ H) as (n & Hn & ->).
  exists n. split; [exact Hn|]. split; [|split].
  - unfold stored_last_line. now rewrite lookup_insert_eq.
  - unfold stored_turns at 1. now rewrite lookup_insert_eq.
  - intros other Ho. now rewrite lookup_insert_ne.
Qed.

(** X20. A record that is neither a user nor an assistant record (a
    summary, a system record) leaves the grouping loop as it is: the
    loop over a list of records with such a record in it ends as the loop
    over the list without it. *)
Theorem other_records_are_skipped net sid k (pre post : list pyval)
    (st : loop_state) (msg role : pyval) :
  role_of msg = Ok role ->
  Py.eq_str role "user" = false ->
  Py.eq_str role "assistant" = false ->
  assemble net sid k (pre ++ msg :: post) st = assemble net sid k (pre ++ post) st.
Proof.
  intros Hr Hu Ha. revert st. induction pre as [|m pre IH]; intros st; simpl.
  - unfold step. rewrite Hr. cbn [mbind result_bind]. now rewrite Hu, Ha.
  - destruct (step net sid k st m); auto.
Qed.

(** *** What is emitted *)

(** Every span of a compiled turn carries the trace identifier of the
    turn, and there is at least the root span. *)
Lemma create_traced sid n user_msg assistant_msgs tool_results spans :
  create_keywordsai_spans sid n user_msg assistant_msgs tool_results = Ok spans ->
  spans <> [] /\
  Forall (fun span => record_field span "trace_unique_id"
                      = Some (PStr (trace_id sid n))) spans.
Proof.
  intros H.
  destruct (create_keywordsai_spans_parts _ _ _ _ _ _ H)
    as (chat & ctx & thinking & calls & calls' & tools & H1 & H2 & H3 & H4 & H5 & ->).
  split; [discriminate|].
  destruct (chat_span_of_ctx _ _ _ _ _ _ H1)
    as (ut & fo & model & md & uo & lat & ts & start & Hctx & Hchat).
  assert (ctx_trace_unique_id ctx = trace_id sid n) as Htr by (now rewrite Hctx).
  constructor.
  - rewrite Hchat, chat_span_field by discriminate. cbn. now rewrite Htr.
  - apply Forall_app. split.
    + assert (Forall (child_of ctx "generation") thinking) as Hth
        by (eapply thinking_of_msgs_children; [constructor|exact H2]).
      eapply Forall_impl; [exact Hth|]. intros span (_ & _ & Ht). now rewrite <- Htr.
    + destruct (tool_spans_children _ _ _ _ H5) as [Hto _].
      eapply Forall_impl; [exact Hto|]. intros span (_ & _ & Ht). now rewrite <- Htr.
Qed.

(** What a run emitted is what a numbered loop state holds. *)
Lemma run_emitted_numbered net sid transcript state :
  exists st,
    numbered sid (stored_turns state sid) st /\
    run_emitted (process_transcript net sid transcript state) = emitted st.
Proof.
  pose proof (initial_numbered sid (stored_turns state sid) 0) as H0.
  unfold process_transcript. cbv zeta.
  destruct (_ <=? _); [now exists (initial_state 0)|].
  destruct (new_messages _ _) as [[|m msgs]|]; try (now exists (initial_state 0)).
  destruct (assemble net sid (stored_turns state sid) (m :: msgs)
              (initial_state (length (m :: msgs)))) as [st err] eqn:Ea.
  pose proof (assemble_numbered net sid _ _ _ _ _ (initial_numbered _ _ _) Ea) as Hn.
  destruct err as [e|]; [now exists st|].
  destruct (finalize_message st) as [st1|] eqn:Ef; [|now exists st].
  pose proof (finalize_message_effects _ _ Ef) as (He1 & _ & Ht1 & _).
  assert (numbered sid (stored_turns state sid) st1) as Hn1.
  { destruct Hn as (A & B & C). unfold numbered. rewrite He1, Ht1. auto. }
  destruct (emit_turn net sid (stored_turns state sid) st1) as [st2|] eqn:Ee;
    [|now exists st1].
  exists st2. split; [|reflexivity]. eapply emit_turn_numbered; eauto.
Qed.

(** X21. Whatever a run POSTs for a turn is a span list that was
    compiled for the number of that turn: it is not empty and every span
    in it carries the trace identifier [{session_id}_turn_{number}];
    this holds of the turns sent before an exception stopped the run as
    well. *)
Theorem emitted_spans_are_traced net sid transcript state (e : emission) :
  In e (run_emitted (process_transcript net sid transcript state)) ->
  em_spans e <> [] /\
  Forall (fun span => record_field span "trace_unique_id"
                      = Some (PStr (trace_id sid (em_turn_num e)))) (em_spans e).
Proof.
  intros Hin.
  destruct (run_emitted_numbered net sid transcript state) as (st & (_ & _ & Hc) & He).
  rewrite He in Hin. rewrite List.Forall_forall in Hc.
  destruct (Hc _ Hin) as (u & a & r & Hcreate).
  eapply create_traced; eauto.
Qed.

(** *** What is logged *)

Lemma log_matches_snoc st e entry st' :
  log_matches st ->
  emitted st' = emitted st ++ [e] ->
  logged st' = logged st ++ [entry] ->
  entry = (if em_delivered e then DebugSent (length (em_spans e)) (em_turn_num e)
           else ErrorSendFailed (em_turn_num e)) ->
  log_matches st'.
Proof.
  intros Hf He Hl ->. unfold log_matches, failed_turns, turns_where.
  rewrite He, Hl, !omap_app, !List.filter_app, !map_app.
  fold (failed_turns (logged st)) (turns_where false (emitted st)).
  rewrite Hf. simpl. now destruct (em_delivered e).
Qed.

Lemma log_matches_same st st' :
  log_matches st -> emitted st' = emitted st -> logged st' = logged st ->
  log_matches st'.
Proof. unfold log_matches. now intros H -> ->. Qed.

Lemma emit_turn_log net sid k st st' :
  log_matches st -> emit_turn net sid k st = Ok st' -> log_matches st'.
Proof.
  intros Hm H. unfold emit_turn in H.
  destruct (Py.truthy (current_user st) && nonempty (current_assistants st));
    [|now injection H as <-].
  bind_ok H. injection H as <-.
  eapply log_matches_snoc; [exact Hm|reflexivity|reflexivity|reflexivity].
Qed.

Lemma finalize_message_log st st' :
  log_matches st -> finalize_message st = Ok st' -> log_matches st'.
Proof.
  intros Hm H. destruct (finalize_message_effects _ _ H) as (He & Hl & _).
  eapply log_matches_same; eauto.
Qed.

Lemma step_log net sid k st msg st' :
  log_matches st -> step net sid k st msg = Ok st' -> log_matches st'.
Proof.
  intros Hm. unfold step.
  destruct (role_of msg) as [role|]; simpl; try discriminate.
  destruct (Py.eq_str role "user").
  - destruct (is_tool_result msg) as [[]|]; simpl; try discriminate.
    + intros [= <-]. exact Hm.
    + destruct (finalize_message st) as [st1|] eqn:Hf; simpl; try discriminate.
      destruct (emit_turn net sid k st1) as [st2|] eqn:He; simpl; try discriminate.
      intros [= <-].
      exact (emit_turn_log _ _ _ _ _ (finalize_message_log _ _ Hm Hf) He).
  - destruct (Py.eq_str role "assistant").
    2:{ intros [= <-]. exact Hm. }
    destruct (msg_id_of msg) as [mid|]; simpl; try discriminate.
    destruct (negb (Py.truthy mid)); [intros [= <-]; exact Hm|].
    destruct (Py.eqb mid (current_msg_id st)).
    + intros [= <-]. exact Hm.
    + destruct (finalize_message st) as [st1|] eqn:Hf; simpl; try discriminate.
      intros [= <-]. exact (finalize_message_log _ _ Hm Hf).
Qed.

Lemma assemble_log net sid k msgs st st' err :
  log_matches st -> assemble net sid k msgs st = (st', err) -> log_matches st'.
Proof.
  revert st. induction msgs as [|msg msgs IH]; simpl; intros st Hm H.
  - now injection H as <- <-.
  - destruct (step net sid k st msg) eqn:Es.
    + eapply IH; [|exact H]. eapply step_log; eauto.
    + now injection H as <- <-.
Qed.

(** X22. The error entries of the log tell which POSTs of a run failed,
    in order: each POST that failed left one error entry with the number
    of its turn, a POST that went through left none, and the run writes
    no other entry of that kind, also when an exception stops it. *)
Theorem failed_posts_are_logged net sid transcript state :
  let r := process_transcript net sid transcript state in
  failed_turns (run_logged r) = turns_where false (run_emitted r).
Proof.
  cbv zeta. unfold process_transcript. cbv zeta.
  destruct (_ <=? _); [reflexivity|].
  destruct (new_messages _ _) as [[|m msgs]|]; try reflexivity.
  destruct (assemble net sid (stored_turns state sid) (m :: msgs)
              (initial_state (length (m :: msgs)))) as [st err] eqn:Ea.
  assert (log_matches (initial_state (length (m :: msgs)))) as H0
    by reflexivity.
  pose proof (assemble_log _ _ _ _ _ _ _ H0 Ea) as Hst.
  destruct err as [e|]; [exact Hst|].
  destruct (finalize_message st) as [st1|] eqn:Ef; [|exact Hst].
  pose proof (finalize_message_log _ _ Hst Ef) as Hst1.
  destruct (emit_turn net sid (stored_turns state sid) st1) as [st2|] eqn:Ee;
    [|exact Hst1].
  exact (emit_turn_log _ _ _ _ _ Hst1 Ee).
Qed.

(** *** What is read *)

Lemma parse_line_cases line :
  parse_line line
  = match line_error line with
    | Some e => Raise e
    | None => Ok (match parsed_line line with Some m => [m] | None => [] end)
    end.
Proof.
  unfold parse_line, line_error, parsed_line.
  destruct (String.eqb _ _); [reflexivity|].
  now destruct (json_loads line) as [[v|]|e].
Qed.

(** Reading a list of lines from its start goes through them in order. *)
Lemma parse_range_cons (line : string) (lines : list string) :
  parse_range (line :: lines) 0 (S (length lines))
  = (here ← parse_line line;
     rest ← parse_range lines 0 (length lines);
     Ok (here ++ rest)).
Proof.
  cbn [parse_range]. unfold py_index. cbn [length].
  assert ((0 <? 0) = false) as -> by reflexivity.
  assert (((0 <=? 0) && (0 <? Z.of_nat (S (length lines)))) = true) as ->
    by (apply andb_true_intro; split; [reflexivity|apply Z.ltb_lt; lia]).
  change ((line :: lines) !! Z.to_nat 0) with (Some line).
  cbn [mbind result_bind].
  change (0 + 1) with (Z.of_nat (1 + 0)).
  rewrite (parse_range_drop (line :: lines) 1 0).
  reflexivity.
Qed.

Lemma parse_range_all (lines : list string) :
  Forall (fun line => line_error line = None) lines ->
  parse_range lines 0 (length lines) = Ok (omap parsed_line lines).
Proof.
  induction 1 as [|line lines Hl _ IH]; [reflexivity|].
  cbn [length]. rewrite parse_range_cons, parse_line_cases, Hl, IH.
  cbn [mbind result_bind omap list_omap]. now destruct (parsed_line line).
Qed.

Lemma parse_range_raises (lines : list string) (e : exn) :
  parse_range lines 0 (length lines) = Raise e ->
  exists before line after,
    lines = before ++ line :: after /\
    Forall (fun l => line_error l = None) before /\
    line_error line = Some e.
Proof.
  induction lines as [|line lines IH]; [discriminate|].
  cbn [length]. rewrite parse_range_cons, parse_line_cases.
  destruct (line_error line) as [e'|] eqn:El; cbn [mbind result_bind].
  - intros [= ->]. exists [], line, lines. repeat split; auto.
  - destruct (parse_range lines 0 (length lines)) as [rest|e'] eqn:Er;
      cbn [mbind result_bind]; [discriminate|].
    intros [= ->]. destruct (IH eq_refl) as (before & l & after & -> & Hb & Hl).
    exists (line :: before), l, after. repeat split; auto.
Qed.

(** X23. For a cursor that is not negative, reading the new messages
    goes through the lines after the first [last_line] lines in order
    and raises no [IndexError]: an exception leaves it only at a line on
    which [json.loads] raises something else than
    [json.JSONDecodeError], the lines before having raised nothing; when
    no line does, the new messages are the records parsed from these
    lines, in order, a line that is blank or is not JSON adding
    nothing. *)
Theorem new_messages_of_lines (lines : list string) (last : Z) :
  0 <= last ->
  let new_lines := drop (Z.to_nat last) lines in
  (Forall (fun line => line_error line = None) new_lines ->
   new_messages lines last = Ok (omap parsed_line new_lines)) /\
  (forall e, new_messages lines last = Raise e ->
     exists before line after,
       new_lines = before ++ line :: after /\
       Forall (fun l => line_error l = None) before /\
       line_error line = Some e).
Proof.
  intros H new_lines.
  assert (new_messages lines last = parse_range new_lines 0 (length new_lines)) as ->.
  { rewrite <- (Z2Nat.id last H) at 1. rewrite new_messages_drop.
    unfold new_lines. now rewrite length_drop. }
  split; [apply parse_range_all|apply parse_range_raises].
Qed.

End RunsMore.

(** ** Finding the transcript *)

(** Floats that are not [nan] are ordered. *)
Lemma SFltb_chain x y z :
  SFltb x y = true -> SFltb x z = false -> SFltb y z = false.
Proof.
  unfold SFltb, SFcompare.
  destruct x as [sx|sx| |sx mx ex], y as [sy|sy| |sy my ey], z as [sz|sz| |sz mz ez];
    try discriminate; try reflexivity;
    repeat match goal with
    | b : bool |- _ => destruct b
    end; try discriminate; try reflexivity.
  all: repeat match goal with
    | |- context [Z.compare ?a ?b] => destruct (Z.compare_spec a b)
    | |- context [Pos.compare_cont Eq ?a ?b] =>
        change (Pos.compare_cont Eq a b) with (Pos.compare a b);
        destruct (Pos.compare_spec a b)
    end; simpl; try discriminate; try reflexivity; try lia.
Qed.

Lemma SFltb_irrefl x : SFltb x x = false.
Proof.
  unfold SFltb, SFcompare. destruct x as [s|s| |s m e]; try reflexivity.
  - now destruct s.
  - rewrite Z.compare_refl.
    change (Pos.compare_cont Eq m m) with (Pos.compare m m).
    rewrite Pos.compare_refl. now destruct s.
Qed.

Lemma ltb_chain (x y z : float) :
  PrimFloat.ltb x y = true -> PrimFloat.ltb x z = false -> PrimFloat.ltb y z = false.
Proof. rewrite !ltb_spec. apply SFltb_chain. Qed.

Lemma ltb_irrefl (x : float) : PrimFloat.ltb x x = false.
Proof. rewrite ltb_spec. apply SFltb_irrefl. Qed.

Section FindingFacts.
Context `{rt : PyRuntime}.

Lemma newer_latest seen latest f :
  latest_of seen latest -> latest_of (seen ++ [f]) (newer latest f).
Proof.
  intros [Hmax Hl]. unfold newer.
  destruct (PrimFloat.ltb (snd latest) (tf_mtime f)) eqn:E.
  - split; cbn [fst snd].
    + intros g [Hg|[<-|[]]]%in_app_or.
      * eapply ltb_chain; eauto.
      * apply ltb_irrefl.
    + split; [apply in_or_app; right; now left|]. split; [reflexivity|].
      destruct (fst latest) as [f0|].
      * destruct Hl as (_ & Hm & Hpos). rewrite Hm in E.
        destruct (PrimFloat.ltb 0 (tf_mtime f)) eqn:E0; [reflexivity|].
        pose proof (ltb_chain _ _ _ Hpos E0). congruence.
      * now rewrite Hl in E.
  - split.
    + intros g [Hg|[<-|[]]]%in_app_or; auto.
    + destruct (fst latest) as [f0|]; [|exact Hl].
      destruct Hl as (Hin & Hm & Hpos). split; [|auto].
      apply in_or_app. now left.
Qed.

Lemma fold_newer_latest files seen latest :
  latest_of seen latest -> latest_of (seen ++ files) (fold_left newer files latest).
Proof.
  revert seen latest. induction files as [|f files IH]; intros seen latest H; simpl.
  - now rewrite app_nil_r.
  - replace (seen ++ f :: files) with ((seen ++ [f]) ++ files)
      by (now rewrite <- app_assoc).
    apply IH. now apply newer_latest.
Qed.

Lemma scan_latest entries seen latest :
  latest_of seen latest ->
  latest_of (seen ++ all_transcripts entries) (fold_left scan_project entries latest).
Proof.
  revert seen latest. induction entries as [|e entries IH]; intros seen latest H.
  - unfold all_transcripts. simpl. now rewrite app_nil_r.
  - unfold all_transcripts. simpl map. rewrite concat_cons, app_assoc.
    simpl fold_left. apply IH. destruct e as [files|]; simpl.
    + now apply fold_newer_latest.
    + now rewrite app_nil_r.
Qed.

Lemma latest_transcript_latest entries :
  latest_of (all_transcripts entries) (fold_left scan_project entries (None, 0%float)).
Proof.
  apply (scan_latest entries [] (None, 0%float)). split; [intros g []|reflexivity].
Qed.

(** X24. The transcript that is found is the most recently modified one
    of all the [*.jsonl] files of the project directories (no file is
    newer), its modification time is after 0, and the session identifier
    handed back is the [sessionId] of the JSON object on its first line,
    or the stem of its file name when that object has none. *)
Theorem found_transcript_is_latest (projects : option (list project_entry))
    (session_id : pyval) (f : transcript_file) :
  snd (find_latest_transcript projects) = Ok (Some (session_id, f)) ->
  exists entries text first_line rest d,
    projects = Some entries /\
    In f (all_transcripts entries) /\
    PrimFloat.ltb 0%float (tf_mtime f) = true /\
    (forall g, In g (all_transcripts entries) ->
               PrimFloat.ltb (tf_mtime f) (tf_mtime g) = false) /\
    tf_text f = Some text /\
    Py.split_lines text = first_line :: rest /\
    json_loads first_line = Ok (Some (PDict d)) /\
    session_id = Py.dict_get d "sessionId" (PStr (tf_stem f)).
Proof.
  unfold find_latest_transcript, latest_transcript.
  destruct projects as [entries|]; [|discriminate].
  pose proof (latest_transcript_latest entries) as [Hmax Hl].
  destruct (fst (fold_left scan_project entries (None, 0%float))) as [f0|];
    [|discriminate].
  destruct Hl as (Hin & Hm & Hpos). rewrite Hm in Hmax.
  destruct (tf_text f0) as [text|] eqn:Et; [|discriminate].
  destruct (Py.split_lines text) as [|first_line rest] eqn:Es; [discriminate|].
  destruct (negb (String.eqb first_line "")); [|discriminate].
  destruct (json_loads first_line) as [[v|]|e] eqn:Ej; [|discriminate|];
    [|destruct (find_catches e); discriminate].
  destruct v as [| | | | | |d]; try discriminate.
  cbn [Py.get snd]. intros [= <- <-].
  exists entries, text, first_line, rest, d. repeat split; auto.
Qed.

(** X25. A transcript whose modification time is not after 0 is never
    the latest: when no [*.jsonl] file of the project directories has a
    modification time after 0, nothing is found, as when there is no
    file at all. *)
Theorem old_transcripts_are_not_found (entries : list project_entry) :
  (forall g, In g (all_transcripts entries) ->
             PrimFloat.ltb 0%float (tf_mtime g) = false) ->
  find_latest_transcript (Some entries) = ([DebugNoTranscripts], Ok None).
Proof.
  intros H. unfold find_latest_transcript, latest_transcript.
  pose proof (latest_transcript_latest entries) as [_ Hl].
  destruct (fst (fold_left scan_project entries (None, 0%float))) as [f0|];
    [|reflexivity].
  destruct Hl as (Hin & _ & Hpos). rewrite (H _ Hin) in Hpos. discriminate.
Qed.

(** X26. The search leaves by an exception exactly because of the
    first line of the latest transcript, when that line is not empty:
    either the line is JSON but not an object, and the exception is the
    [AttributeError] of its missing [get], or [json.loads] raises on it
    an exception that the [except] clause does not catch (a
    [ValueError] that is no [JSONDecodeError], a [RecursionError]), and
    that exception leaves.  A file that cannot be read, an empty first
    line and a first line that is not JSON give [None]. *)
Theorem find_raises_on_first_line (projects : option (list project_entry))
    (e : exn) :
  snd (find_latest_transcript projects) = Raise e <->
  exists entries f text first_line rest,
    projects = Some entries /\
    latest_transcript entries = Some f /\
    tf_text f = Some text /\
    Py.split_lines text = first_line :: rest /\
    first_line <> "" /\
    ((exists v, json_loads first_line = Ok (Some v) /\ Py.is_dict v = false /\
                e = AttributeError) \/
     (json_loads first_line = Raise e /\ find_catches e = false)).
Proof.
  unfold find_latest_transcript. split.
  - destruct projects as [entries|]; [|discriminate].
    destruct (latest_transcript entries) as [f|] eqn:El; [|discriminate].
    destruct (tf_text f) as [text|] eqn:Et; [|discriminate].
    destruct (Py.split_lines text) as [|first_line rest] eqn:Es; [discriminate|].
    destruct (String.eqb first_line "") eqn:Ee; [discriminate|].
    apply String.eqb_neq in Ee. cbn [negb].
    destruct (json_loads first_line) as [[v|]|e'] eqn:Ej; [|discriminate|].
    + destruct v; cbn [Py.get snd]; try discriminate; intros [= <-];
        exists entries, f, text, first_line, rest; repeat split; auto;
        left; eexists; repeat split; eauto.
    + destruct (find_catches e') eqn:Ec; [discriminate|].
      cbn [snd]. intros [= <-].
      exists entries, f, text, first_line, rest. repeat split; auto.
  - intros (entries & f & text & first_line & rest & -> & -> & -> & -> & Hne & Hj).
    apply String.eqb_neq in Hne. rewrite Hne. cbn [negb].
    destruct Hj as [(v & -> & Hd & ->)|(-> & ->)]; [|reflexivity].
    destruct v; try reflexivity. discriminate.
Qed.

End FindingFacts.

(** ** Records that are not objects *)

Section NonObjects.
Context `{rt : PyRuntime}.

Lemma step_non_object net sid k st msg :
  Py.is_dict msg = false -> step net sid k st msg = Raise AttributeError.
Proof. intros H. unfold step, role_of. destruct msg; try reflexivity. discriminate. Qed.

Lemma assemble_non_object net sid k msgs st msg :
  In msg msgs -> Py.is_dict msg = false ->
  exists st' e, assemble net sid k msgs st = (st', Some e).
Proof.
  revert st. induction msgs as [|m msgs IH]; intros st Hin Hd; [destruct Hin|].
  simpl. destruct (step net sid k st m) as [st1|e] eqn:Es; [|eauto].
  destruct Hin as [->|Hin]; [|eauto].
  rewrite (step_non_object _ _ _ _ _ Hd) in Es. discriminate.
Qed.

(** X27. A line of the transcript that is JSON but not an object (a
    number, a string, an array) stops every run that meets it: the run
    leaves by an exception, nothing is saved, and the state, with its
    cursor before that line, is as it was, so that the next run meets
    the line again. *)
Theorem non_object_line_stops_the_run net sid transcript state
    (msgs : list pyval) (msg : pyval) :
  new_messages (read_lines transcript) (stored_last_line state sid) = Ok msgs ->
  In msg msgs ->
  Py.is_dict msg = false ->
  let r := process_transcript net sid transcript state in
  (exists e, run_result r = Raise e) /\
  run_saved r = None /\
  persisted_after state r = state.
Proof.
  intros Hnew Hin Hd. cbv zeta.
  assert (exists e, run_result (process_transcript net sid transcript state) = Raise e
                    /\ run_saved (process_transcript net sid transcript state) = None)
    as (e & He & Hs).
  { unfold process_transcript. cbv zeta.
    destruct (_ <=? _) eqn:El.
    { apply Z.leb_le in El. rewrite (new_messages_caught_up _ _ El) in Hnew.
      injection Hnew as <-. destruct Hin. }
    rewrite Hnew. destruct msgs as [|m msgs]; [destruct Hin|].
    destruct (assemble_non_object net sid (stored_turns state sid) (m :: msgs)
                (initial_state (length (m :: msgs))) msg Hin Hd) as (st' & e & ->).
    exists e. split; reflexivity. }
  split; [eauto|]. split; [exact Hs|]. unfold persisted_after. now rewrite Hs.
Qed.

End NonObjects.

(** ** Well-typed transcripts *)

Section WellTypedRuns.
Context `{rt : PyRuntime}.

Lemma record_ok_parts msg :
  record_ok msg = true ->
  Py.is_dict msg = true /\ assistant_ok msg = true /\ tool_result_ok msg = true /\
  usage_ok (default PNone (message_field msg "usage")) = true.
Proof.
  unfold record_ok. intros H.
  apply andb_prop in H as [H H4]. apply andb_prop in H as [H H3].
  apply andb_prop in H as [H1 H2]. auto.
Qed.

Lemma record_ok_content msg :
  record_ok msg = true ->
  exists c, get_content msg = Ok c /\ blocks_ok (part_blocks c) /\
            texts_ok c = true.
Proof.
  intros H. destruct (record_ok_parts _ H) as (_ & Ha & Ht & _).
  unfold assistant_ok in Ha. apply andb_prop in Ha as [Hm Ha].
  unfold tool_result_ok in Ht. apply andb_prop in Ht as [_ Ht].
  destruct (get_content_ok _ Hm) as [c Ec]. rewrite Ec in Ha, Ht.
  apply andb_prop in Ha as [Hx Hu]. exists c. split; [exact Ec|].
  split; [|exact Hx].
  destruct c; try (unfold part_blocks;
                   match goal with
                   | |- blocks_ok (if ?b then _ else _) =>
                       destruct b; repeat split; reflexivity
                   end).
  repeat split; auto.
Qed.

Lemma blocks_ok_app a b : blocks_ok a -> blocks_ok b -> blocks_ok (a ++ b).
Proof.
  intros (A1 & A2 & A3) (B1 & B2 & B3). unfold blocks_ok.
  rewrite List.filter_app, !forallb_app, A1, A2, A3, B1, B2, B3. auto.
Qed.

Lemma merged_content_ok parts :
  Forall (fun p => record_ok p = true) parts ->
  exists bs, merged_content parts = Ok bs /\ blocks_ok bs.
Proof.
  induction 1 as [|p parts Hp _ (bs & Hbs & Hok)]; simpl.
  - exists []. repeat split.
  - destruct (record_ok_content _ Hp) as (c & Ec & Hc & _).
    rewrite Ec, Hbs. cbn [mbind result_bind]. eexists. split; [reflexivity|].
    now apply blocks_ok_app.
Qed.

(** The message merged from well-typed parts is well typed, with the
    timestamp of the first part. *)
Lemma merge_held stamps first rest :
  Forall (held_ok stamps) (first :: rest) ->
  exists m, merge_assistant_parts (first :: rest) = Ok m /\ held_ok stamps m.
Proof.
  intros H.
  assert (Forall (fun p => record_ok p = true) (first :: rest)) as Hr
    by (eapply Forall_impl; [exact H|]; now intros p [Hp _]).
  destruct (merged_content_ok _ Hr) as (bs & Hbs & Hb1 & Hb2 & Hb3).
  apply List.Forall_cons_iff in H as [[Hf Hs] _].
  destruct (record_ok_parts _ Hf) as (Hd & Ha & Ht & Hu).
  unfold merge_assistant_parts. rewrite Hbs. cbn [mbind result_bind].
  destruct first as [| | | | | |d]; try discriminate.
  unfold assistant_ok in Ha. apply andb_prop in Ha as [Hm _].
  unfold tool_result_ok in Ht. apply andb_prop in Ht as [Ht _].
  apply andb_prop in Ht as [_ Hur].
  unfold message_ok in Hm. unfold message_field in Hu.
  unfold tool_use_result_ok in Hur.
  unfold record_timestamp, record_field in Hs.
  destruct (Py.lookup d "message") as [m|] eqn:Em.
  - destruct m as [| | | | | |mm]; try discriminate.
    eexists. split; [reflexivity|]. split.
    + unfold record_ok, assistant_ok, tool_result_ok, message_ok, get_content,
        message_field, tool_use_result_ok.
      cbn [Py.is_dict]. rewrite !lookup_set_eq. cbn [Py.is_dict Py.get].
      unfold Py.dict_get. rewrite !lookup_set_eq.
      rewrite !lookup_set_ne by discriminate.
      cbn [texts_ok tool_uses_ok default]. unfold Py.dict_get in Hur.
      rewrite Hb1, Hb2, Hb3, Hur, Hu. reflexivity.
    + unfold record_timestamp, record_field.
      now rewrite lookup_set_ne by discriminate.
  - eexists. split; [reflexivity|]. split.
    + unfold record_ok, assistant_ok, tool_result_ok, message_ok, get_content,
        message_field, tool_use_result_ok.
      cbn [Py.is_dict]. rewrite !lookup_set_ne by discriminate. rewrite !Em.
      unfold Py.dict_get. rewrite !lookup_set_eq.
      rewrite !lookup_set_ne by discriminate.
      cbn [texts_ok tool_uses_ok default]. unfold Py.dict_get in Hur.
      rewrite Hb1, Hb2, Hb3, Hur. reflexivity.
    + unfold record_timestamp, record_field.
      now rewrite lookup_set_ne by discriminate.
Qed.

(** A well-typed turn compiles. *)
Lemma create_ok sid n user_msg assistant_msgs tool_results :
  well_typed_turn user_msg assistant_msgs tool_results = true ->
  exists spans,
    create_keywordsai_spans sid n user_msg assistant_msgs tool_results = Ok spans.
Proof.
  intros H. unfold well_typed_turn in H.
  repeat match type of H with
    | (_ && _) = true => let H' := fresh "W" in apply andb_prop in H as [H H']
    end.
  destruct (chat_span_of_ok sid n _ _ H W4 W3 W2 W1 W0) as (chat & ctx & Ec & _).
  unfold create_keywordsai_spans. rewrite Ec. cbn [mbind result_bind].
  destruct (thinking_of_msgs_ok ctx assistant_msgs []
              (forallb_weaken _ _ _ assistant_ok_message W2)) as [thinking ->].
  cbn [mbind result_bind].
  destruct (collect_tool_calls_ok assistant_msgs [] (List.Forall_nil _) W2)
    as (calls & -> & Hcalls).
  cbn [mbind result_bind].
  destruct (match_results_ok tool_results calls Hcalls W) as (calls' & -> & Hcalls').
  cbn [mbind result_bind].
  destruct (tool_spans_ok ctx calls' 0 Hcalls') as [tools ->].
  cbn [mbind result_bind]. eauto.
Qed.

Lemma held_forallb stamps (p : pyval -> bool) msgs :
  (forall m, record_ok m = true -> p m = true) ->
  Forall (held_ok stamps) msgs -> forallb p msgs = true.
Proof.
  intros Hp H. apply forallb_forall. intros m Hin.
  rewrite List.Forall_forall in H. destruct (H _ Hin) as [Hm _]. auto.
Qed.

Lemma time_of_none : time_of PNone = None.
Proof. reflexivity. Qed.

(** The turn made of records the loop holds is well typed. *)
Lemma held_turn_ok stamps user_msg assistant_msgs tool_results :
  (forall x y, In x stamps -> In y stamps -> stamps_agree x y = true) ->
  held_ok stamps user_msg ->
  Forall (held_ok stamps) assistant_msgs ->
  Forall (held_ok stamps) tool_results ->
  well_typed_turn user_msg assistant_msgs tool_results = true.
Proof.
  intros Hagree [Hu Hus] Ha Hr.
  destruct (record_ok_parts _ Hu) as (Hd & Hao & _ & _).
  pose proof Hao as Hao'. unfold assistant_ok in Hao'.
  apply andb_prop in Hao' as [Hm Hc].
  unfold well_typed_turn. rewrite Hd, Hm. cbn [andb].
  assert (match get_content user_msg with
          | Ok content => texts_ok content
          | Raise _ => true
          end = true) as ->.
  { destruct (get_content user_msg); [|reflexivity]. now apply andb_prop in Hc as [Hc _]. }
  rewrite (held_forallb stamps assistant_ok assistant_msgs)
    by (auto; intros m Hm'; now destruct (record_ok_parts _ Hm') as (_ & ? & _)).
  rewrite (held_forallb stamps tool_result_ok tool_results)
    by (auto; intros m Hm'; now destruct (record_ok_parts _ Hm') as (_ & _ & ? & _)).
  cbn [andb]. rewrite andb_true_r.
  apply andb_true_intro. split.
  - unfold header_usage_ok.
    destruct (assistant_header assistant_msgs) as [[[[[model usage] rid] stop] ats]|]
      eqn:Eh; [|reflexivity].
    destruct (assistant_header_fields _ _ _ _ _ _ Eh) as (-> & _).
    unfold header_field. destruct assistant_msgs as [|first rest]; [reflexivity|].
    apply List.Forall_cons_iff in Ha as [[Hf _] _].
    now destruct (record_ok_parts _ Hf) as (_ & _ & _ & ?).
  - unfold timestamps_ok.
    destruct (assistant_header assistant_msgs) as [[[[[model usage] rid] stop] ats]|]
      eqn:Eh; [|reflexivity].
    destruct (assistant_header_fields _ _ _ _ _ _ Eh) as (_ & _ & _ & ->).
    destruct user_msg as [| | | | | |d]; try discriminate.
    assert (Py.dict_get d "timestamp" PNone = record_timestamp (PDict d)) as ->.
    { unfold record_timestamp, record_field, Py.dict_get.
      now destruct (Py.lookup d "timestamp"). }
    assert (assistant_timestamp assistant_msgs = PNone \/
            In (assistant_timestamp assistant_msgs) stamps) as [->|Hin].
    { unfold assistant_timestamp. destruct assistant_msgs as [|first rest]; [now left|].
      apply List.Forall_cons_iff in Ha as [[_ Hf] _]. simpl.
      destruct first as [| | | | | |d']; try (now left).
      destruct (Py.contains d' "message"); [|now left]. right.
      unfold record_timestamp, record_field in Hf. unfold Py.dict_get.
      now destruct (Py.lookup d' "timestamp"). }
    + rewrite time_of_none. now destruct (time_of _).
    + specialize (Hagree _ _ Hus Hin). unfold stamps_agree in Hagree.
      destruct (time_of (record_timestamp (PDict d))) as [x|]; [|reflexivity].
      destruct (time_of (assistant_timestamp assistant_msgs)) as [y|]; [|reflexivity].
      exact Hagree.
Qed.

Section Loop.
Variable net : nat -> bool.
Variable sid : string.
Variable k : Z.
Variable stamps : list pyval.
Hypothesis agree :
  forall x y, In x stamps -> In y stamps -> stamps_agree x y = true.

Lemma finalize_message_ok st :
  loop_ok stamps st ->
  exists st', finalize_message st = Ok st' /\ loop_ok stamps st'.
Proof.
  intros (Hu & Ha & Hp & Hr). unfold finalize_message.
  destruct (current_assistant_parts st) as [|first rest] eqn:Ep.
  { rewrite andb_false_r. exists st. split; [reflexivity|].
    unfold loop_ok. rewrite Ep. auto. }
  destruct (Py.truthy (current_msg_id st) && nonempty (first :: rest)).
  - destruct (merge_held _ _ _ Hp) as (m & -> & Hm). cbn [mbind result_bind].
    eexists. split; [reflexivity|]. unfold loop_ok. cbn.
    split; [exact Hu|]. split; [|auto].
    apply Forall_app. split; [exact Ha|]. now constructor.
  - exists st. split; [reflexivity|]. unfold loop_ok. rewrite Ep. auto.
Qed.

Lemma emit_turn_ok st :
  loop_ok stamps st ->
  exists st', emit_turn net sid k st = Ok st' /\ loop_ok stamps st'.
Proof.
  intros Hst. pose proof Hst as (Hu & Ha & Hp & Hr). unfold emit_turn.
  destruct (Py.truthy (current_user st)) eqn:Et; [|now exists st].
  destruct (nonempty (current_assistants st)); [|now exists st].
  cbn [andb].
  destruct (create_ok sid (k + (turns_processed st + 1)) _ _ _
              (held_turn_ok stamps _ _ _ agree (Hu eq_refl) Ha Hr)) as [spans ->].
  cbn [mbind result_bind]. eexists. split; [reflexivity|].
  unfold loop_ok. cbn. auto.
Qed.

Lemma role_of_ok msg :
  record_ok msg = true -> exists role, role_of msg = Ok role.
Proof.
  intros H. destruct (record_ok_parts _ H) as (Hd & Ha & _).
  apply assistant_ok_message in Ha.
  destruct msg as [| | | | | |d]; try discriminate.
  unfold role_of. cbn [Py.get mbind result_bind].
  destruct (Py.truthy (Py.dict_get d "type" PNone)); [eauto|].
  unfold message_ok in Ha. unfold Py.dict_get at 1.
  destruct (Py.lookup d "message") as [m|]; [|cbn; eauto].
  destruct m; try discriminate. cbn. eauto.
Qed.

Lemma msg_id_of_ok msg :
  record_ok msg = true -> exists id, msg_id_of msg = Ok id.
Proof.
  intros H. destruct (record_ok_parts _ H) as (Hd & Ha & _).
  apply assistant_ok_message in Ha.
  destruct msg as [| | | | | |d]; try discriminate.
  unfold msg_id_of. unfold message_ok in Ha.
  destruct (Py.lookup d "message") as [m|]; [|eauto].
  destruct m; try discriminate. cbn. eauto.
Qed.

Lemma is_tool_result_ok msg :
  record_ok msg = true -> exists b, is_tool_result msg = Ok b.
Proof.
  intros H. destruct (record_ok_content _ H) as (c & Ec & _).
  unfold is_tool_result. rewrite Ec. cbn [mbind result_bind]. destruct c; eauto.
Qed.

Lemma step_ok st msg :
  loop_ok stamps st -> held_ok stamps msg ->
  exists st', step net sid k st msg = Ok st' /\ loop_ok stamps st'.
Proof.
  intros Hst Hmsg. pose proof Hst as (Hu & Ha & Hp & Hr).
  pose proof Hmsg as [Hm _].
  unfold step. destruct (role_of_ok _ Hm) as [role ->]. cbn [mbind result_bind].
  destruct (Py.eq_str role "user").
  - destruct (is_tool_result_ok _ Hm) as [b ->]. cbn [mbind result_bind].
    destruct b.
    + eexists. split; [reflexivity|]. unfold loop_ok. cbn.
      split; [exact Hu|]. split; [exact Ha|]. split; [exact Hp|].
      apply Forall_app. split; [exact Hr|]. now constructor.
    + destruct (finalize_message_ok _ Hst) as (st1 & -> & Hst1).
      cbn [mbind result_bind].
      destruct (emit_turn_ok _ Hst1) as (st2 & -> & Hst2).
      cbn [mbind result_bind].
      eexists. split; [reflexivity|]. unfold loop_ok. cbn.
      split; [intros _; exact Hmsg|]. repeat split; constructor.
  - destruct (Py.eq_str role "assistant"); [|eauto].
    destruct (msg_id_of_ok _ Hm) as [id ->]. cbn [mbind result_bind].
    assert (Forall (held_ok stamps) (current_assistant_parts st ++ [msg])) as Hp'
      by (apply Forall_app; split; [exact Hp|now constructor]).
    destruct (negb (Py.truthy id)).
    { eexists. split; [reflexivity|]. unfold loop_ok. cbn. auto. }
    destruct (Py.eqb id (current_msg_id st)).
    { eexists. split; [reflexivity|]. unfold loop_ok. cbn. auto. }
    destruct (finalize_message_ok _ Hst) as (st1 & -> & (Hu1 & Ha1 & Hp1 & Hr1)).
    cbn [mbind result_bind].
    eexists. split; [reflexivity|]. unfold loop_ok. cbn.
    split; [exact Hu1|]. split; [exact Ha1|]. split; [|exact Hr1].
    now constructor.
Qed.

Lemma assemble_ok msgs st :
  Forall (held_ok stamps) msgs -> loop_ok stamps st ->
  exists st', assemble net sid k msgs st = (st', None) /\ loop_ok stamps st'.
Proof.
  intros H. revert st. induction H as [|msg msgs Hm _ IH]; intros st Hst; simpl.
  - eauto.
  - destruct (step_ok _ _ Hst Hm) as (st1 & -> & Hst1). auto.
Qed.

End Loop.

Lemma stamps_compatible_agree msgs :
  stamps_compatible msgs = true ->
  forall x y, In x (map record_timestamp msgs) -> In y (map record_timestamp msgs) ->
              stamps_agree x y = true.
Proof.
  unfold stamps_compatible. intros H x y Hx Hy.
  apply in_map_iff in Hx as (u & <- & Hu). apply in_map_iff in Hy as (a & <- & Ha).
  rewrite forallb_forall in H. specialize (H _ Hu).
  rewrite forallb_forall in H. exact (H _ Ha).
Qed.

(** X28. A run over well-typed records returns: when the new lines
    have been read into records ([json.loads] raised nothing but
    [json.JSONDecodeError]), every one of these records is an object of
    the log format and any two of their timestamps can be subtracted,
    then grouping, merging, compiling and posting raise nothing:
    [process_transcript] returns the number of turns it emitted, and
    unless no record was read it saves the state. *)
Theorem well_typed_transcript_returns net sid transcript state (msgs : list pyval) :
  new_messages (read_lines transcript) (stored_last_line state sid) = Ok msgs ->
  forallb record_ok msgs = true ->
  stamps_compatible msgs = true ->
  let r := process_transcript net sid transcript state in
  run_result r = Ok (Z.of_nat (length (run_emitted r))) /\
  (msgs <> [] -> exists saved, run_saved r = Some saved).
Proof.
  intros Hnew Hok Hst. cbv zeta.
  destruct (Z_le_gt_dec (total_lines transcript) (stored_last_line state sid))
    as [Hle|Hgt].
  { rewrite (process_transcript_caught_up net _ _ _ Hle). split; [reflexivity|].
    unfold total_lines in Hle. rewrite (new_messages_caught_up _ _ Hle) in Hnew.
    injection Hnew as <-. congruence. }
  destruct msgs as [|m msgs].
  { assert (stored_last_line state sid < total_lines transcript) as Hlt by lia.
    rewrite (process_transcript_nothing_parsed net _ _ _ Hlt Hnew).
    split; [reflexivity|congruence]. }
  set (stamps := map record_timestamp (m :: msgs)).
  pose proof (stamps_compatible_agree _ Hst) as Hagree. fold stamps in Hagree.
  assert (Forall (held_ok stamps) (m :: msgs)) as Hheld.
  { apply List.Forall_forall. intros x Hx. split.
    - rewrite forallb_forall in Hok. auto.
    - unfold stamps. now apply in_map. }
  assert (loop_ok stamps (initial_state (length (m :: msgs)))) as H0.
  { split; [discriminate|]. repeat split; constructor. }
  destruct (assemble_ok net sid (stored_turns state sid) stamps Hagree _ _ Hheld H0)
    as (st & Hasm & Hl).
  destruct (finalize_message_ok stamps _ Hl) as (st1 & Hfin & Hl1).
  destruct (emit_turn_ok net sid (stored_turns state sid) stamps Hagree _ Hl1)
    as (st2 & Hemit & _).
  assert (m :: msgs <> []) as Hne by discriminate.
  rewrite (process_transcript_completed _ _ _ _ _ _ _ _ Hnew Hne Hasm Hfin Hemit).
  cbn [run_result run_emitted run_saved].
  destruct (completed_state_numbered _ _ _ _ _ _ _ Hasm Hfin Hemit) as (-> & _).
  split; [reflexivity|eauto].
Qed.

End WellTypedRuns.

(** * The further properties on the examples *)

(** X1 on the message in three fragments. *)
Lemma merge_is_idempotent_witness :
  Example.fragments <> [] /\
  exists m,
    @merge_assistant_parts Example.rt Example.fragments = Ok m /\
    @merge_assistant_parts Example.rt [m] = Ok m.
Proof.
  assert (Example.fragments <> []) as H by discriminate.
  split; [exact H|]. eexists. split; [reflexivity|].
  exact (@merge_is_idempotent Example.rt _ _ H eq_refl).
Defined.

(** X2 on the same fragments: the call of the third is the call of the
    merged message. *)
Lemma merge_keeps_tool_calls_witness :
  Example.fragments <> [] /\
  exists m calls,
    @merge_assistant_parts Example.rt Example.fragments = Ok m /\
    Forall2 (fun p cs => get_tool_calls p = Ok cs)
      Example.fragments calls /\
    get_tool_calls m = Ok (concat calls).
Proof.
  assert (Example.fragments <> []) as H by discriminate.
  split; [exact H|]. eexists.
  destruct (@merge_keeps_tool_calls Example.rt Example.fragments _ H eq_refl)
    as (calls & F & E).
  exists calls. split; [reflexivity|]. split; [exact F|exact E].
Defined.

(** X3 on a [Write] call. *)
Lemma format_tool_input_bounded_witness :
  exists s,
    @format_tool_input Example.rt (PStr "Write")
      (PDict [("file_path", PStr "a.txt"); ("content", PStr "x")]) = Ok s /\
    str_len s <= max_length + 16 /\ str_len s <= max_length.
Proof.
  eexists. split; [vm_compute; reflexivity|].
  destruct (@format_tool_input_bounded Example.rt (PStr "Write")
              (PDict [("file_path", PStr "a.txt"); ("content", PStr "x")]) _
              eq_refl eq_refl) as [A B].
  split; [exact A|exact (B eq_refl)].
Defined.

(** X5 on a text block and a string. *)
Lemma format_tool_output_of_texts_witness :
  total_len ["a"; "b"] <= max_length /\
  @format_tool_output Example.rt (PStr "Read") (PList [Example.text "a"; PStr "b"])
  = Ok (String.concat Py.nl ["a"; "b"]).
Proof.
  assert (total_len ["a"; "b"] <= max_length) as H2 by (vm_compute; discriminate).
  split; [exact H2|].
  apply (@format_tool_output_of_texts Example.rt (PStr "Read") _ ["a"; "b"]);
    [repeat constructor|exact H2].
Defined.

(** X6 on a short text, a text of 4000 characters and an image: the
    long text is cut to 3997 characters and the image is dropped. *)
Lemma format_tool_output_over_budget_witness :
  total_len ["abc"] <= max_length /\
  max_length < total_len ["abc"] + str_len (MoreExamples.text_of_length 4000) /\
  @format_tool_output Example.rt (PStr "Read") (PList MoreExamples.long_output)
  = Ok (String.concat Py.nl
          ["abc";
           Py.str_take 3997 (MoreExamples.text_of_length 4000)
           +:+ "... (truncated)"]).
Proof.
  assert (total_len ["abc"] <= max_length) as H1 by (vm_compute; discriminate).
  assert (max_length
          < total_len ["abc"] + str_len (MoreExamples.text_of_length 4000)) as H2
    by (vm_compute; reflexivity).
  split; [exact H1|]. split; [exact H2|].
  apply (@format_tool_output_over_budget Example.rt (PStr "Read")
           [Example.text "abc"] [PDict [("type", PStr "image")]]
           (PStr (MoreExamples.text_of_length 4000)) ["abc"]
           (MoreExamples.text_of_length 4000));
    [repeat constructor|reflexivity|exact H1|exact H2].
Defined.

(** X7 on the first second of 2024. *)
Lemma parse_timestamp_utc_suffix_witness :
  no_Z "2024-01-01T00:00:00" = true /\
  @parse_timestamp Example.rt (PStr "2024-01-01T00:00:00Z") = Some (true, 0) /\
  @parse_timestamp Example.rt (PStr "2024-01-01T00:00:00") = None.
Proof.
  assert (no_Z "2024-01-01T00:00:00" = true) as H by reflexivity.
  split; [exact H|].
  destruct (@parse_timestamp_utc_suffix Example.rt _ H) as [A B].
  split.
  - change (PStr "2024-01-01T00:00:00Z")
      with (PStr ("2024-01-01T00:00:00" +:+ "Z")).
    rewrite A. reflexivity.
  - rewrite B. reflexivity.
Defined.

(** X8 on the turn with every kind of field: 7 input tokens, no output
    count. *)
Lemma root_span_token_counts_witness :
  exists spans root rest,
    @create_keywordsai_spans Example.rt "s" 1 Example.full_user
      [Example.full_assistant] [Example.full_result] = Ok spans /\
    spans = root :: rest /\
    record_field root "prompt_tokens" = Some (PInt 7) /\
    record_field root "completion_tokens" = Some (PInt 0) /\
    record_field root "total_tokens" = Some (PInt 7).
Proof.
  assert ([("input_tokens", PInt 7); ("cache_read_input_tokens", PInt 2)] <> [])
    as Hne by discriminate.
  eexists.
  destruct (@root_span_token_counts Example.rt "s" 1 Example.full_user
              [Example.full_assistant] [Example.full_result] _
              [("input_tokens", PInt 7); ("cache_read_input_tokens", PInt 2)] 7 0
              eq_refl eq_refl Hne eq_refl eq_refl) as (root & rest & A & B & C & D).
  exists root, rest. split; [reflexivity|]. repeat split; assumption.
Defined.

(** X9 on the same turn: 2 tokens read from the cache, none written. *)
Lemma root_span_cache_counts_witness :
  exists spans root rest,
    @create_keywordsai_spans Example.rt "s" 1 Example.full_user
      [Example.full_assistant] [Example.full_result] = Ok spans /\
    spans = root :: rest /\
    record_field root "cache_creation_prompt_tokens" = None /\
    record_field root "prompt_tokens_details"
    = Some (PDict [("cached_tokens", PInt 2)]).
Proof.
  assert ([("input_tokens", PInt 7); ("cache_read_input_tokens", PInt 2)] <> [])
    as Hne by discriminate.
  eexists.
  destruct (@root_span_cache_counts Example.rt "s" 1 Example.full_user
              [Example.full_assistant] [Example.full_result] _
              [("input_tokens", PInt 7); ("cache_read_input_tokens", PInt 2)] 0 2
              eq_refl eq_refl Hne eq_refl eq_refl) as (root & rest & A & B & C).
  exists root, rest. split; [reflexivity|]. repeat split; assumption.
Defined.

(** X10 on the same turn: the turn number and nothing else. *)
Lemma root_span_metadata_witness :
  exists spans root rest,
    @create_keywordsai_spans Example.rt "s" 1 Example.full_user
      [Example.full_assistant] [Example.full_result] = Ok spans /\
    spans = root :: rest /\
    record_field root "metadata" = Some (PDict [("claude_code_turn", PInt 1)]).
Proof.
  eexists.
  destruct (@root_span_metadata Example.rt "s" 1 Example.full_user
              [Example.full_assistant] [Example.full_result] _ eq_refl)
    as (root & rest & md & A & B & _).
  exists root, rest. split; [reflexivity|]. split; [exact A|].
  injection A as <- _. reflexivity.
Defined.

(** X11 on the same turn. *)
Lemma root_span_timestamps_witness :
  exists spans root rest,
    @create_keywordsai_spans Example.rt "s" 1 Example.full_user
      [Example.full_assistant] [Example.full_result] = Ok spans /\
    spans = root :: rest /\
    record_field root "timestamp" = Some (PStr "2024-01-01T00:00:03Z") /\
    record_field root "start_time" = Some (PStr "2024-01-01T00:00:00Z").
Proof.
  eexists.
  destruct (@root_span_timestamps Example.rt "s" 1 Example.full_user
              [Example.full_assistant] [Example.full_result] _ eq_refl)
    as (root & rest & A & B & C & _).
  exists root, rest. split; [reflexivity|]. split; [exact A|].
  split; [exact (B eq_refl)|exact (C eq_refl)].
Defined.

(** X12 on the same turn: three seconds from the user message to the
    first assistant message. *)
Lemma root_span_latency_witness :
  exists spans root rest,
    @create_keywordsai_spans Example.rt "s" 1 Example.full_user
      [Example.full_assistant] [Example.full_result] = Ok spans /\
    spans = root :: rest /\
    record_field root "latency" = Some (PFloat 3%float).
Proof.
  eexists.
  destruct (@root_span_latency Example.rt "s" 1 Example.full_user
              [Example.full_assistant] [Example.full_result] _ eq_refl)
    as (root & rest & A & B).
  exists root, rest. split; [reflexivity|]. split; [exact A|].
  rewrite B. vm_compute. reflexivity.
Defined.

(** X13 on the same turn. *)
Lemma root_span_messages_witness :
  exists spans root rest,
    @create_keywordsai_spans Example.rt "s" 1 Example.full_user
      [Example.full_assistant] [Example.full_result] = Ok spans /\
    spans = root :: rest /\
    record_field root "prompt_messages"
    = Some (PList [chat_message "user" ("do" +:+ Py.nl +:+ "it")]) /\
    record_field root "completion_message"
    = Some (chat_message "assistant" "done").
Proof.
  eexists.
  destruct (@root_span_messages Example.rt "s" 1 Example.full_user
              [Example.full_assistant] [Example.full_result] _ eq_refl)
    as (root & rest & ut & fo & A & B & C & D & _ & E & _).
  exists root, rest. split; [reflexivity|]. split; [exact A|].
  injection B as <-. injection C as <-. split; [exact D|exact E].
Defined.

(** X14 on the same turn: its one thinking block. *)
Lemma thinking_spans_follow_blocks_witness :
  exists spans,
    @create_keywordsai_spans Example.rt "s" 1 Example.full_user
      [Example.full_assistant] [Example.full_result] = Ok spans /\
    map span_label (thinking_spans_in spans)
    = [(Some (PStr "turn_1_thinking_1"), Some (PStr "Thinking 1"),
        Some (PStr "plan"))].
Proof.
  eexists. split; [reflexivity|].
  rewrite (@thinking_spans_follow_blocks Example.rt "s" 1 Example.full_user
             [Example.full_assistant] [Example.full_result] _ eq_refl).
  reflexivity.
Defined.

(** X15 on the same turn: its one tool call. *)
Lemma tool_span_of_call_witness :
  exists spans calls data span,
    @create_keywordsai_spans Example.rt "s" 1 Example.full_user
      [Example.full_assistant] [Example.full_result] = Ok spans /\
    collect_tool_calls [Example.full_assistant] [] = Ok calls /\
    calls !! 0%nat = Some (PStr "t1", data) /\
    length (tool_spans_in spans) = length calls /\
    tool_spans_in spans !! 0%nat = Some span /\
    record_field span "span_unique_id" = Some (PStr "turn_1_tool_1") /\
    record_field span "span_name" = Some (PStr "Tool: Write").
Proof.
  eexists. eexists. eexists.
  destruct (@tool_span_of_call Example.rt "s" 1 Example.full_user
              [Example.full_assistant] [Example.full_result] _ _ 0%nat _ _
              eq_refl eq_refl eq_refl)
    as (L & span & inp & A & B & C & _).
  exists span. split; [reflexivity|]. split; [reflexivity|]. split; [reflexivity|].
  split; [exact L|]. split; [exact A|]. split; [exact B|exact C].
Defined.

(** X16 on a message with two calls under one identifier: one call,
    with the name and the input of the second block. *)
Lemma one_call_per_tool_id_witness :
  exists calls data,
    collect_tool_calls [MoreExamples.same_id_twice] [] = Ok calls /\
    calls = [(PStr "t1", data)] /\
    Py.lookup data "name" = Some (PStr "Bash") /\
    Py.lookup data "input" = Some (PDict [("command", PStr "ls")]).
Proof.
  eexists. eexists. split; [reflexivity|]. split; [reflexivity|].
  destruct (one_call_per_tool_id [MoreExamples.same_id_twice] _ eq_refl)
    as (_ & _ & H).
  destruct (H 0%nat "t1" _ eq_refl) as (b & Hb & Hn & Hi).
  injection Hb as <-. split; [exact Hn|exact Hi].
Defined.

(** X17 on the turn with every kind of field: the answer took 1500
    milliseconds. *)
Lemma tool_span_latency_witness :
  exists spans span,
    @create_keywordsai_spans Example.rt "s" 1 Example.full_user
      [Example.full_assistant] [Example.full_result] = Ok spans /\
    last (answering (PStr "t1") [Example.full_result]) = Some Example.full_result /\
    tool_spans_in spans !! 0%nat = Some span /\
    record_field span "metadata" = Some (PDict [("duration_ms", PInt 1500)]) /\
    record_field span "latency" = Some (PFloat 1.5%float).
Proof.
  assert (1500 <> 0) as Hz by discriminate.
  eexists.
  destruct (@tool_span_latency Example.rt "s" 1 Example.full_user
              [Example.full_assistant] [Example.full_result] _ _ 0%nat "t1" _
              Example.full_result [("durationMs", PInt 1500)] 1500
              eq_refl eq_refl eq_refl eq_refl eq_refl eq_refl)
    as (span & md & A & B & C & _ & D).
  destruct (D Hz) as (f & Hf & Hl).
  exists span. split; [reflexivity|]. split; [reflexivity|]. split; [exact A|].
  split.
  - rewrite B. vm_compute in A. injection A as <-. vm_compute in B.
    injection B as <-. reflexivity.
  - rewrite Hl. vm_compute in Hf. injection Hf as <-. vm_compute. reflexivity.
Defined.

(** X18 on the session of three turns, two of them consumed before: the
    third is emitted once, a second run emits nothing. *)
Lemma rerun_emits_nothing_witness :
  run_result (@process_transcript Example.rt (fun _ => true) "s"
                (Example.transcript Example.three_turns) Example.after_two_turns)
  = Ok 1 /\
  let r := @process_transcript Example.rt (fun _ => true) "s"
             (Example.transcript Example.three_turns) Example.after_two_turns in
  let r' := @process_transcript Example.rt (fun _ => false) "s"
              (Example.transcript Example.three_turns)
              (persisted_after Example.after_two_turns r) in
  run_emitted r' = [] /\ run_result r' = Ok 0 /\ run_saved r' = None.
Proof.
  assert (run_result (@process_transcript Example.rt (fun _ => true) "s"
                        (Example.transcript Example.three_turns)
                        Example.after_two_turns) = Ok 1) as H
    by (vm_compute; reflexivity).
  split; [exact H|].
  exact (@rerun_emits_nothing Example.rt (fun _ => true) (fun _ => false) "s" _ _ _ H).
Defined.

(** X19 on the same run, with the entry of another session in the state
    file. *)
Lemma save_touches_own_session_witness :
  exists saved,
    run_saved (@process_transcript Example.rt (fun _ => true) "s"
                 (Example.transcript Example.three_turns)
                 (<["other" := {| last_line := 9; turn_count := 4; updated := "" |}]>
                    Example.after_two_turns))
    = Some saved /\
    stored_last_line saved "s" = 6 /\
    stored_turns saved "s" = 3 /\
    saved !! "other" = Some {| last_line := 9; turn_count := 4; updated := "" |}.
Proof.
  eexists. split; [vm_compute; reflexivity|].
  match goal with
  | |- stored_last_line ?saved _ = _ /\ _ =>
      destruct (@save_touches_own_session Example.rt (fun _ => true) "s"
                  (Example.transcript Example.three_turns)
                  (<["other" := {| last_line := 9; turn_count := 4; updated := "" |}]>
                     Example.after_two_turns) saved)
        as (n & Hn & A & B & C); [vm_compute; reflexivity|]
  end.
  split; [rewrite A; vm_compute; reflexivity|].
  split.
  - rewrite B. vm_compute in Hn. injection Hn as <-. vm_compute. reflexivity.
  - rewrite C by discriminate. vm_compute. reflexivity.
Defined.

(** X20 on a summary record between a user message and its answer. *)
Lemma other_records_are_skipped_witness :
  @role_of MoreExamples.summary = Ok (PStr "summary") /\
  @assemble Example.rt (fun _ => true) "s" 0
    ([Example.user "first"] ++ MoreExamples.summary
       :: [Example.assistant "m1" [Example.text "one"]]) (initial_state 3)
  = @assemble Example.rt (fun _ => true) "s" 0
      ([Example.user "first"] ++ [Example.assistant "m1" [Example.text "one"]])
      (initial_state 3).
Proof.
  split; [reflexivity|].
  exact (@other_records_are_skipped Example.rt (fun _ => true) "s" 0
           [Example.user "first"] [Example.assistant "m1" [Example.text "one"]]
           (initial_state 3) MoreExamples.summary (PStr "summary")
           eq_refl eq_refl eq_refl).
Defined.

(** X21 on the session of three turns: what is sent for the third. *)
Lemma emitted_spans_are_traced_witness :
  exists e,
    In e (run_emitted (@process_transcript Example.rt (fun _ => true) "s"
                         (Example.transcript Example.three_turns)
                         Example.after_two_turns)) /\
    em_turn_num e = 3 /\
    em_spans e <> [] /\
    Forall (fun span => record_field span "trace_unique_id"
                        = Some (PStr "s_turn_3")) (em_spans e).
Proof.
  destruct (run_emitted (@process_transcript Example.rt (fun _ => true) "s"
                           (Example.transcript Example.three_turns)
                           Example.after_two_turns)) as [|e es] eqn:E;
    [vm_compute in E; discriminate|].
  assert (em_turn_num e = 3) as Hn by (vm_compute in E; now injection E as <- _).
  exists e. split; [now left|]. split; [exact Hn|].
  destruct (@emitted_spans_are_traced Example.rt (fun _ => true) "s"
              (Example.transcript Example.three_turns) Example.after_two_turns e)
    as [A B]; [rewrite E; now left|].
  split; [exact A|]. rewrite Hn in B. exact B.
Defined.

(** X23 on the session of three turns, read from its fifth line on, and
    on two lines the second of which is an integer of 4301 digits. *)
Lemma new_messages_of_lines_witness :
  0 <= 4 /\ 0 <= 0 /\
  @new_messages Example.rt
    (@read_lines Example.rt (Example.transcript Example.three_turns)) 4
  = Ok [Example.user "third"; Example.assistant "m3" [Example.text "three"]] /\
  @new_messages MoreExamples.rt_limit
    [Example.dumps MoreExamples.session_record; MoreExamples.many_digits] 0
  = Raise ValueError /\
  @line_error MoreExamples.rt_limit MoreExamples.many_digits = Some ValueError.
Proof.
  assert (0 <= 4) as H by discriminate.
  assert (0 <= 0) as H0 by discriminate.
  split; [exact H|]. split; [exact H0|]. split; [|split].
  - destruct (@new_messages_of_lines Example.rt
                (@read_lines Example.rt (Example.transcript Example.three_turns))
                4 H) as [A _].
    rewrite A; [vm_compute; reflexivity|].
    apply List.Forall_forall. intros line Hl. vm_compute in Hl.
    destruct Hl as [<-|[<-|[]]]; vm_compute; reflexivity.
  - vm_compute. reflexivity.
  - destruct (@new_messages_of_lines MoreExamples.rt_limit
                [Example.dumps MoreExamples.session_record; MoreExamples.many_digits]
                0 H0) as [_ B].
    destruct (B ValueError) as (before & line & after & E & Hb & Hl);
      [vm_compute; reflexivity|].
    destruct before as [|b0 [|b1 before]].
    + injection E as <- _. vm_compute in Hl. discriminate.
    + injection E as _ <- _. exact Hl.
    + injection E as _ _ E. destruct before; discriminate.
Defined.

(** X24 on two project directories: the transcript found is the one
    modified last, and the session is the one its first line names. *)
Lemma found_transcript_is_latest_witness :
  snd (@find_latest_transcript MoreExamples.rt (Some MoreExamples.projects))
  = Ok (Some (PStr "abc", MoreExamples.newest)) /\
  In MoreExamples.newest (all_transcripts MoreExamples.projects) /\
  forall g, In g (all_transcripts MoreExamples.projects) ->
            PrimFloat.ltb (tf_mtime MoreExamples.newest) (tf_mtime g) = false.
Proof.
  assert (snd (@find_latest_transcript MoreExamples.rt (Some MoreExamples.projects))
          = Ok (Some (PStr "abc", MoreExamples.newest))) as H
    by (vm_compute; reflexivity).
  split; [exact H|].
  destruct (@found_transcript_is_latest MoreExamples.rt _ _ _ H)
    as (entries & text & first_line & rest & d & E & A & _ & B & _).
  injection E as <-. split; [exact A|exact B].
Defined.

(** X25 on a directory whose only transcript has modification time 0. *)
Lemma old_transcripts_are_not_found_witness :
  (forall g, In g (all_transcripts [ProjectDir [MoreExamples.epoch]]) ->
             PrimFloat.ltb 0%float (tf_mtime g) = false) /\
  @find_latest_transcript MoreExamples.rt (Some [ProjectDir [MoreExamples.epoch]])
  = ([DebugNoTranscripts], Ok None).
Proof.
  assert (forall g, In g (all_transcripts [ProjectDir [MoreExamples.epoch]]) ->
                    PrimFloat.ltb 0%float (tf_mtime g) = false) as H
    by (intros g [<-|[]]; reflexivity).
  split; [exact H|].
  exact (@old_transcripts_are_not_found MoreExamples.rt _ H).
Defined.

(** X26 on a transcript whose first line is an array, and on one whose
    first line is an integer of 4301 digits. *)
Lemma find_raises_on_first_line_witness :
  snd (@find_latest_transcript MoreExamples.rt
         (Some [ProjectDir [MoreExamples.array_first]]))
  = Raise AttributeError /\
  snd (@find_latest_transcript MoreExamples.rt_limit
         (Some [ProjectDir [MoreExamples.digits_first]]))
  = Raise ValueError.
Proof.
  split.
  - apply (@find_raises_on_first_line MoreExamples.rt).
    exists [ProjectDir [MoreExamples.array_first]], MoreExamples.array_first,
      (Example.transcript [PList [PInt 1]]), "[1]", [""].
    split; [reflexivity|]. split; [reflexivity|]. split; [reflexivity|].
    split; [vm_compute; reflexivity|]. split; [discriminate|].
    left. exists (PList [PInt 1]).
    split; [vm_compute; reflexivity|split; reflexivity].
  - apply (@find_raises_on_first_line MoreExamples.rt_limit).
    exists [ProjectDir [MoreExamples.digits_first]], MoreExamples.digits_first,
      (MoreExamples.many_digits +:+ Py.nl), MoreExamples.many_digits, [""].
    split; [reflexivity|]. split; [reflexivity|]. split; [reflexivity|].
    split; [vm_compute; reflexivity|]. split; [vm_compute; discriminate|].
    right. split; [vm_compute; reflexivity|reflexivity].
Defined.

(** X27 on a transcript with an array after the second user message: the
    turn before it is sent, and then the run stops. *)
Lemma non_object_line_stops_the_run_witness :
  In (PList [PInt 1]) Example.stray_array /\
  run_result (@process_transcript Example.rt (fun _ => true) "s"
                (Example.transcript Example.stray_array) ∅)
  = Raise AttributeError /\
  run_saved (@process_transcript Example.rt (fun _ => true) "s"
               (Example.transcript Example.stray_array) ∅) = None.
Proof.
  assert (In (PList [PInt 1]) Example.stray_array) as Hin
    by (right; right; right; now left).
  split; [exact Hin|].
  destruct (@non_object_line_stops_the_run Example.rt (fun _ => true) "s"
              (Example.transcript Example.stray_array) ∅ Example.stray_array
              (PList [PInt 1])) as ((e & He) & Hs & _);
    [vm_compute; reflexivity|exact Hin|reflexivity|].
  split; [vm_compute; reflexivity|exact Hs].
Defined.

(** X28 on the session of three turns, read from the start. *)
Lemma well_typed_transcript_returns_witness :
  @new_messages Example.rt
    (@read_lines Example.rt (Example.transcript Example.three_turns))
    (stored_last_line ∅ "s")
  = Ok Example.three_turns /\
  forallb record_ok Example.three_turns = true /\
  @stamps_compatible Example.rt Example.three_turns = true /\
  run_result (@process_transcript Example.rt (fun _ => false) "s"
                (Example.transcript Example.three_turns) ∅) = Ok 3.
Proof.
  assert (@new_messages Example.rt
            (@read_lines Example.rt (Example.transcript Example.three_turns))
            (stored_last_line ∅ "s") = Ok Example.three_turns) as H1
    by (vm_compute; reflexivity).
  assert (forallb record_ok Example.three_turns = true) as H2 by reflexivity.
  assert (@stamps_compatible Example.rt Example.three_turns = true) as H3
    by reflexivity.
  split; [exact H1|]. split; [exact H2|]. split; [exact H3|].
  destruct (@well_typed_transcript_returns Example.rt (fun _ => false) "s" _ ∅ _
              H1 H2 H3) as [A _].
  rewrite A. vm_compute. reflexivity.
Defined.
